(** * Underworld example notebooks: a shallow embedding

    The repository ships Jupyter notebooks that drive the Underworld
    geodynamics library.  The notebooks' own code is Python glue: it fills
    numpy arrays (the [.data] of mesh and swarm variables), builds library
    objects, and runs time-stepping loops around library calls.

    The embedding follows that split.
    - Python floats are IEEE binary64 numbers ([PrimFloat.float]); Python
      ints are [Z].
    - The [.data] arrays live in a heap indexed by the name of the Python
      variable that owns them; the notebook writes them row by row, and
      the library may rewrite them during any call.
    - The Underworld library is a parameter ([Library]): its hidden state
      and the result of every method call are arbitrary.
    - Every cell is a computation in a state-and-exception monad [M] that
      also records a trace of what happened (objects constructed, arrays
      written by notebook code, library methods called).

    Visualisation and printing do not feed back into the model and are
    left out; a library call is taken to return (an exception raised
    inside the library is not modelled). *)

From Stdlib Require Import Floats Reals Lra ZArith Lia.
From Stdlib Require Uint63.
From stdpp Require Import gmap strings list.

Set Warnings "-inexact-float".

(** ** Python values *)

Module Py.

Inductive exn :=
| IndexError
| KeyError (key : string)
| TypeError
| ValueError
| NameError (name : string)
| ZeroDivisionError
| RuntimeError (msg : string).

(** [min(a, b)] and [max(a, b)] on two floats: CPython keeps the first
    argument unless the second compares strictly below (above) it. *)
Definition min (a b : float) : float := if (b <? a)%float then b else a.
Definition max (a b : float) : float := if (a <? b)%float then b else a.

(** [math.cos(x)] and [math.sin(x)] raise [ValueError] at an infinity;
    [math.sqrt(x)] raises it below zero. *)
Definition trig_domain_error (x : float) : bool := is_infinity x.
Definition sqrt_domain_error (x : float) : bool := (x <? 0)%float.

End Py.

(** ** numpy arrays *)

(** A two-dimensional array: one row per node or particle, one column per
    degree of freedom. *)
Inductive ndarray :=
| FloatArr (rows : list (list float))
| IntArr (rows : list (list Z)).

Abbreviation Heap := (gmap string ndarray).

(** ** Underworld objects the notebooks hold *)

Abbreviation IndexSet := (list nat).

(** [a + b] on index sets is their union. *)
Definition iset_add (a b : IndexSet) : IndexSet :=
  a ++ filter (λ i, i ∉ a) b.

Record FeMesh := {
  data : list (float * float);
  MinI_VertexSet : IndexSet;
  MaxI_VertexSet : IndexSet;
  MinJ_VertexSet : IndexSet;
  MaxJ_VertexSet : IndexSet;
  subMesh_nodes : nat
}.

(** [mesh.specialSets[key]]: a Cartesian mesh names its four walls twice. *)
Definition specialSets (m : FeMesh) (key : string) : option IndexSet :=
  if String.eqb key "MinI_VertexSet" || String.eqb key "Left_VertexSet" then Some (MinI_VertexSet m)
  else if String.eqb key "MaxI_VertexSet" || String.eqb key "Right_VertexSet" then Some (MaxI_VertexSet m)
  else if String.eqb key "MinJ_VertexSet" || String.eqb key "Bottom_VertexSet" then Some (MinJ_VertexSet m)
  else if String.eqb key "MaxJ_VertexSet" || String.eqb key "Top_VertexSet" then Some (MaxJ_VertexSet m)
  else None.

Definition in_range (n : nat) (idx : IndexSet) : bool :=
  forallb (λ i, i <? n) idx.


(** Every wall of the mesh names nodes of the mesh. *)
Definition mesh_ok (m : FeMesh) : bool :=
  in_range (length (data m)) (MinI_VertexSet m)
  && in_range (length (data m)) (MaxI_VertexSet m)
  && in_range (length (data m)) (MinJ_VertexSet m)
  && in_range (length (data m)) (MaxJ_VertexSet m).

Record DirichletCondition := {
  variable : string;
  indexSetsPerDof : list IndexSet
}.

(** ** The library *)

(** Everything the notebooks cannot see: the library's internal state and
    what its methods do.  A method may rewrite every array of the heap. *)
Record Library := {
  Hidden : Type;
  FeMesh_Cartesian : nat * nat → float * float → float * float → FeMesh;
  (* contents of a freshly allocated variable, per row and column *)
  fresh_data : string → nat → nat → float;
  (* [obj.method(args)] returning a float *)
  method_float : string → string → list float → Heap * Hidden → float * (Heap * Hidden);
  (* [obj.method(args)] returning nothing the notebook uses *)
  method_unit : string → string → list float → Heap * Hidden → Heap * Hidden;
  (* [obj.method()] returning an array *)
  method_rows : string → string → Heap * Hidden → list (list float) * (Heap * Hidden)
}.

(** ** A reference library *)

(** A concrete instance of [Library], to run the notebooks on: the mesh is
    the regular grid of [FeMesh_Cartesian], nodes numbered row by row from
    the bottom left; every float a method returns is read from a script,
    by the number of float-returning calls made so far; methods leave the
    arrays alone. *)

Definition float_of_nat (n : nat) : float :=
  PrimFloat.of_uint63 (Uint63.of_Z (Z.of_nat n)).

Definition grid_mesh (elementRes : nat * nat) (minCoord maxCoord : float * float) : FeMesh :=
  let nx := elementRes.1 in
  let ny := elementRes.2 in
  let x i := (minCoord.1 + float_of_nat i * (maxCoord.1 - minCoord.1) / float_of_nat nx)%float in
  let y j := (minCoord.2 + float_of_nat j * (maxCoord.2 - minCoord.2) / float_of_nat ny)%float in
  {| data := flat_map (λ j, map (λ i, (x i, y j)) (seq 0 (S nx))) (seq 0 (S ny));
     MinI_VertexSet := map (λ j, j * S nx) (seq 0 (S ny));
     MaxI_VertexSet := map (λ j, j * S nx + nx) (seq 0 (S ny));
     MinJ_VertexSet := seq 0 (S nx);
     MaxJ_VertexSet := seq (ny * S nx) (S nx);
     subMesh_nodes := nx * ny |}.

Definition scripted_library (script : nat → float) : Library :=
  {| Hidden := nat;
     FeMesh_Cartesian := grid_mesh;
     fresh_data := λ _ _ _, 0%float;
     method_float := λ _ _ _ m, (script m.2, (m.1, S m.2));
     method_unit := λ _ _ _ m, m;
     method_rows := λ _ _ m, ([], m) |}.

(** A library whose methods change nothing and always answer [answer]. *)
Definition quiet_library (answer : float) : Library :=
  {| Hidden := unit;
     FeMesh_Cartesian := grid_mesh;
     fresh_data := λ _ _ _, 0%float;
     method_float := λ _ _ _ m, (answer, m);
     method_unit := λ _ _ _ m, m;
     method_rows := λ _ _ m, ([], m) |}.

(** ** Traces *)

Inductive event :=
| Construct (name kind : string) (refs : list string)
| Write (var : string)
| Call (obj method : string) (args : list float) (ret : option float).

(** The objects built, in the order they were built, each with the
    objects it was built from. *)
Definition constructions (t : list event) : list (string * string * list string) :=
  flat_map (λ e, match e with
                 | Construct name kind refs => [(name, kind, refs)]
                 | _ => []
                 end) t.

(** Every object is built from objects built before it. *)
Fixpoint built_in_order (seen : list string) (cs : list (string * string * list string)) : bool :=
  match cs with
  | [] => true
  | (name, _, refs) :: cs' =>
      forallb (λ r, bool_decide (r ∈ seen)) refs && built_in_order (name :: seen) cs'
  end.

Definition is_call (e : event) : Prop :=
  match e with Call _ _ _ _ => True | _ => False end.

Definition is_write (e : event) : Prop :=
  match e with Write _ => True | _ => False end.

(** ** The notebook monad *)

Section Monad.
Context {L : Library}.

Record State := mkState {
    heap : Heap;
    hidden : Hidden L;
    trace : list event
  }.

Inductive outcome (A : Type) :=
| Ok (a : A) (s : State)
| Raise (e : Py.exn) (s : State)
| Timeout (s : State).
Global Arguments Ok {A} a s.
Global Arguments Raise {A} e s.
Global Arguments Timeout {A} s.

Definition M (A : Type) : Type := State → outcome A.

Definition ret {A} (a : A) : M A := λ s, Ok a s.

Definition bind {A B} (m : M A) (k : A → M B) : M B :=
    λ s, match m s with
         | Ok a s' => k a s'
         | Raise e s' => Raise e s'
         | Timeout s' => Timeout s'
         end.

Definition raise {A} (e : Py.exn) : M A := λ s, Raise e s.
Definition timeout {A} : M A := λ s, Timeout s.

(** The state a computation stopped in, however it stopped. *)
Definition final {A} (o : outcome A) : State :=
  match o with
  | Ok _ s | Raise _ s | Timeout s => s
  end.

Definition emit (e : event) : M unit :=
    λ s, Ok tt (mkState (heap s) (hidden s) (trace s ++ [e])).

Definition mem (s : State) : Heap * Hidden L := (heap s, hidden s).

(** Library method calls. *)
Definition call_float (obj method : string) (args : list float) : M float :=
    λ s, let r := method_float L obj method args (mem s) in
         Ok r.1 (mkState r.2.1 r.2.2 (trace s ++ [Call obj method args (Some r.1)])).

Definition call_unit (obj method : string) (args : list float) : M unit :=
    λ s, let r := method_unit L obj method args (mem s) in
         Ok tt (mkState r.1 r.2 (trace s ++ [Call obj method args None])).

(** [while cond: body], with fuel. *)
Fixpoint while {V} (cond : V → bool) (body : V → M V) (fuel : nat) (v : V) : M V :=
    if cond v then
      match fuel with
      | O => timeout
      | S fuel' => bind (body v) (while cond body fuel')
      end
    else ret v.

(** [for x in xs: body], with the position of [x] counted from [k]. *)
Fixpoint for_enum {X} (k : nat) (xs : list X) (body : nat → X → M unit) : M unit :=
    match xs with
    | [] => ret tt
    | x :: xs' => bind (body k x) (λ _, for_enum (S k) xs' body)
    end.

Definition for_each {X} (xs : list X) (body : X → M unit) : M unit :=
    for_enum 0 xs (λ _, body).

End Monad.

Arguments State : clear implicits.

(** A kernel that has run nothing yet, on the reference library. *)
Definition demo_state (script : nat → float) : State (scripted_library script) :=
  mkState (L:=scripted_library script) ∅ 0%nat [].

Definition demo_library : Library := scripted_library (λ _, 0.5%float).

(** A script whose second answer is 1.0 and whose every other answer is
    1e-20: in the Rayleigh-Taylor loop the first [get_max_dt()] returns
    1.0 and the later ones 1e-20. *)
Definition stalling_script (n : nat) : float :=
  if (n =? 1)%nat then 1.0%float else 1e-20%float.

(** A populated swarm of three particles, its material index not yet set. *)
Definition three_particles : State demo_library :=
  mkState (L:=demo_library)
    (<["swarm.particleCoordinates" := FloatArr [[0.1; 0.1]; [0.5; 0.9]; [0.3; 0.21]]%float]>
       (<["materialIndex" := IntArr [[7]; [7]; [7]]%Z]> ∅))
    0%nat [].
Arguments M : clear implicits.
Arguments outcome : clear implicits.

Notation "'let!' x ':=' m 'in' k" := (bind m (λ x, k))
  (at level 10, x name, m at level 100, k at level 200).
Notation "m ';;;' k" := (bind m (λ _, k))
  (at level 100, k at level 200, right associativity).

(** ** What a computation leaves in the trace *)

(** A call by which the library updates the fields: [solve] on a solver,
    [integrate] on an advection system. *)
Definition updates_fields (e : event) : Prop :=
  match e with
  | Call _ method _ _ => method = "solve"%string ∨ method = "integrate"%string
  | _ => False
  end.

(** Once the library has started updating the fields, notebook code no
    longer writes into any array. *)
Definition no_write_after_update (t : list event) : Prop :=
  ∀ before e after,
    t = before ++ e :: after → updates_fields e → Forall (λ e', ¬ is_write e') after.

(** However [m] ends, every event it adds to the trace satisfies [p]. *)
Definition emits {L : Library} {A} (p : event → Prop) (m : M L A) : Prop :=
  ∀ s, ∃ evs, trace (final (m s)) = trace s ++ evs ∧ Forall p evs.

(** ** Arrays and objects *)

Section Arrays.
Context {L : Library}.

(** The state once notebook code has stored [rows] into [var.data],
    leaving [evs] in the trace. *)
Definition with_rows (s : State L) (var : string) (rows : list (list float))
    (evs : list event) : State L :=
  mkState (<[var := FloatArr rows]> (heap s)) (hidden s) (trace s ++ evs).

(** *** Reading and writing [var.data] *)

Definition get_rows (var : string) : M L (list (list float)) :=
  λ s, match heap s !! var with
       | Some (FloatArr rows) => Ok rows s
       | Some (IntArr _) => Raise Py.TypeError s
       | None => Raise (Py.KeyError var) s
       end.

(** Notebook code stores into the array: the trace keeps a [Write]. *)
Definition put_rows (var : string) (rows : list (list float)) : M L unit :=
  λ s, Ok tt (mkState (<[var := FloatArr rows]> (heap s)) (hidden s)
                      (trace s ++ [Write var])).

(** [var.data[i]] where the variable has one degree of freedom. *)
Definition get_scalar (var : string) (i : nat) : M L float :=
  let! rows := get_rows var in
  match rows !! i with
  | Some [v] => ret v
  | Some _ => raise Py.ValueError
  | None => raise Py.IndexError
  end.

(** [var.data[i] = v]: the scalar is broadcast over the row. *)
Definition set_scalar (var : string) (i : nat) (v : float) : M L unit :=
  let! rows := get_rows var in
  match rows !! i with
  | Some old => put_rows var (<[i := replicate (length old) v]> rows)
  | None => raise Py.IndexError
  end.

(** [var.data[i] = [a, b, ...]]: the shapes have to agree. *)
Definition set_row (var : string) (i : nat) (row : list float) : M L unit :=
  let! rows := get_rows var in
  match rows !! i with
  | Some old =>
      if (length row =? length old)%nat
      then put_rows var (<[i := row]> rows)
      else raise Py.ValueError
  | None => raise Py.IndexError
  end.

(** [var.data[:] = v]. *)
Definition fill (var : string) (v : float) : M L unit :=
  let! rows := get_rows var in
  put_rows var (map (λ old, replicate (length old) v) rows).

(** [var.data[:] = [a, b, ...]]. *)
Definition fill_row (var : string) (row : list float) : M L unit :=
  let! rows := get_rows var in
  if forallb (λ old, (length row =? length old)%nat) rows
  then put_rows var (map (λ _, row) rows)
  else raise Py.ValueError.

(** The rows of [rows] named by [idx] overwritten with [v]. *)
Definition overwrite (idx : IndexSet) (v : float) (rows : list (list float))
  : list (list float) :=
  imap (λ i old, if bool_decide (i ∈ idx) then replicate (length old) v else old) rows.

(** [var.data[idx] = v] with an index set: one numpy assignment. *)
Definition set_rows (var : string) (idx : IndexSet) (v : float) : M L unit :=
  let! rows := get_rows var in
  if in_range (length rows) idx
  then put_rows var (overwrite idx v rows)
  else raise Py.IndexError.

(** *** Building library objects *)

(** [name = mesh.add_variable(nodeDofCount)]: an array with one row per
    node, filled by the library. *)
Definition fresh_rows (name : string) (nodes nodeDofCount : nat) : list (list float) :=
  map (λ i, map (fresh_data L name i) (seq 0 nodeDofCount)) (seq 0 nodes).

Definition add_variable (name on : string) (nodes nodeDofCount : nat) : M L unit :=
  λ s, Ok tt (mkState (<[name := FloatArr (fresh_rows name nodes nodeDofCount)]> (heap s))
                      (hidden s)
                      (trace s ++ [Construct name "MeshVariable" [on]])).

Definition construct (name kind : string) (refs : list string) : M L unit :=
  emit (Construct name kind refs).

(** The state once [evs] have been added to the trace. *)
Definition emitting (s : State L) (evs : list event) : State L :=
  mkState (heap s) (hidden s) (trace s ++ evs).

Definition special_set (m : FeMesh) (key : string) : M L IndexSet :=
  match specialSets m key with
  | Some idx => ret idx
  | None => raise (Py.KeyError key)
  end.

(** *** Swarms *)

(** [name = uw.swarm.Swarm(mesh)]: no particle yet. *)
Definition add_swarm (name mesh : string) : M L unit :=
  λ s, Ok tt (mkState (<[(name +:+ ".particleCoordinates")%string := FloatArr []]> (heap s))
                      (hidden s)
                      (trace s ++ [Construct name "Swarm" [mesh]])).

Definition add_swarm_variable (name swarm : string) : M L unit :=
  λ s, Ok tt (mkState (<[name := FloatArr []]> (heap s)) (hidden s)
                      (trace s ++ [Construct name "SwarmVariable" [swarm]])).

Definition add_swarm_variable_int (name swarm : string) : M L unit :=
  λ s, Ok tt (mkState (<[name := IntArr []]> (heap s)) (hidden s)
                      (trace s ++ [Construct name "SwarmVariable" [swarm]])).

Definition get_int_rows (var : string) : M L (list (list Z)) :=
  λ s, match heap s !! var with
       | Some (IntArr rows) => Ok rows s
       | Some (FloatArr _) => Raise Py.TypeError s
       | None => Raise (Py.KeyError var) s
       end.

(** [var.data[:] = values] for a one-column int variable: same number of
    rows, or a single row broadcast over all of them. *)
Definition store_ints (var : string) (values : list Z) : M L unit :=
  let! rows := get_int_rows var in
  if (length values =? length rows)%nat
  then λ s, Ok tt (mkState (<[var := IntArr (map (λ v, [v]) values)]> (heap s)) (hidden s)
                           (trace s ++ [Write var]))
  else match values with
       | [v] => λ s, Ok tt (mkState (<[var := IntArr (map (λ _, [v]) rows)]> (heap s)) (hidden s)
                                    (trace s ++ [Write var]))
       | _ => raise Py.ValueError
       end.

(** [var.data[:] = values] for float rows, under the same shape rule. *)
Definition store_rows (var : string) (values : list (list float)) : M L unit :=
  let! rows := get_rows var in
  if (length values =? length rows)%nat
  then put_rows var values
  else match values with
       | [v] => put_rows var (map (λ _, v) rows)
       | _ => raise Py.ValueError
       end.

(** [obj.method()] returning an array. *)
Definition call_rows (obj method : string) : M L (list (list float)) :=
  λ s, let r := method_rows L obj method (mem s) in
       Ok r.1 (mkState r.2.1 r.2.2 (trace s ++ [Call obj method [] None])).

End Arrays.

Arguments fresh_rows : clear implicits.


(** ** numpy *)

Module Np.

(** [np.isclose(a, b, rtol, atol)] on two scalars: within tolerance when
    both are finite, equal otherwise (so never for a NaN). *)
Definition isclose_tol (rtol atol a b : float) : bool :=
  if is_finite a && is_finite b
  then (PrimFloat.abs (a - b) <=? atol + rtol * PrimFloat.abs b)%float
  else (a =? b)%float.

Definition isclose : float → float → bool := isclose_tol 1e-05 1e-08.

End Np.

(** ** Thermal convection notebook *)

Module Convection.

Definition boxHeight : float := 1.0.
Definition boxLength : float := 2.0.
Definition res : nat := 16.
Definition tempMin : float := 0.0.
Definition tempMax : float := 1.0.

(** [math.pi] *)
Definition pi : float := 0x1.921fb54442d18p+1.

Record Walls := {
  bottomWall : IndexSet;
  topWall : IndexSet;
  leftWall : IndexSet;
  rightWall : IndexSet;
  iWalls : IndexSet;
  jWalls : IndexSet
}.

Section WithLibrary.
Context (L : Library).
(** [math.cos], [math.sin], and ["{:.5e}".format] *)
Context (cos sin : float → float) (format : float → string).

Definition mesh : FeMesh :=
  FeMesh_Cartesian L (2 * res, res)%nat (0, 0)%float (boxLength, boxHeight).

(** The mesh, its four variables, and the three that start at zero. *)
Definition create_mesh : M L FeMesh :=
  construct "mesh" "FeMesh_Cartesian" [] ;;;
  add_variable "velocityField" "mesh" (length (data mesh)) 2 ;;;
  add_variable "pressureField" "mesh" (subMesh_nodes mesh) 1 ;;;
  add_variable "temperatureField" "mesh" (length (data mesh)) 1 ;;;
  add_variable "temperatureDotField" "mesh" (length (data mesh)) 1 ;;;
  fill_row "velocityField" [0; 0]%float ;;;
  fill "pressureField" 0 ;;;
  fill "temperatureDotField" 0 ;;;
  ret mesh.

(** [densityFn = Ra * temperatureField] and [buoyancyFn = densityFn * z_hat]
    are function objects built by the overloaded [*]. *)
Definition create_functions : M L unit :=
  construct "densityFn" "Function" ["temperatureField"] ;;;
  construct "buoyancyFn" "Function" ["densityFn"].

Definition initial_temperature (coord : float * float) : float :=
  let pertStrength := 0.2%float in
  let deltaTemp := (tempMax - tempMin)%float in
  let pertCoeff := (cos (pi * coord.1) * sin (pi * coord.2))%float in
  (tempMin + deltaTemp * (boxHeight - coord.2) + pertStrength * pertCoeff)%float.

Definition clamp (t : float) : float := Py.max tempMin (Py.min tempMax t).

(** The sinusoidal perturbation, clamped node by node. *)
Definition init_temperature (mesh : FeMesh) : M L unit :=
  for_enum 0 (data mesh) (λ index coord,
    if Py.trig_domain_error (pi * coord.1) || Py.trig_domain_error (pi * coord.2)
    then raise Py.ValueError
    else
      set_scalar "temperatureField" index (initial_temperature coord) ;;;
      let! t := get_scalar "temperatureField" index in
      set_scalar "temperatureField" index (clamp t)).

(** No node of the mesh sends [math.cos] or [math.sin] out of its domain. *)
Definition coords_in_domain (mesh : FeMesh) : bool :=
  forallb (λ coord, negb (Py.trig_domain_error (pi * coord.1)
                          || Py.trig_domain_error (pi * coord.2))%float)
          (data mesh).

(** The wall temperatures and the wall sets. *)
Definition set_walls (mesh : FeMesh) : M L Walls :=
  let! bottomWall := special_set mesh "MinJ_VertexSet" in
  let! topWall := special_set mesh "MaxJ_VertexSet" in
  let! leftWall := special_set mesh "MinI_VertexSet" in
  let! rightWall := special_set mesh "MaxI_VertexSet" in
  for_each bottomWall (λ index, set_scalar "temperatureField" index tempMax) ;;;
  for_each topWall (λ index, set_scalar "temperatureField" index tempMin) ;;;
  ret {| bottomWall := bottomWall; topWall := topWall;
         leftWall := leftWall; rightWall := rightWall;
         iWalls := iset_add leftWall rightWall;
         jWalls := iset_add bottomWall topWall |}.

(** [tempMin <= v <= tempMax] *)
Definition in_bounds (v : float) : Prop :=
  (tempMin <=? v)%float = true ∧ (v <=? tempMax)%float = true.

(** Every node holds one temperature, and it lies in the interval. *)
Definition bounded_temperature (s : State L) : Prop :=
  ∃ rows, heap s !! "temperatureField" = Some (FloatArr rows)
          ∧ length rows = length (data mesh)
          ∧ ∀ i, i < length rows → ∃ v, rows !! i = Some [v] ∧ in_bounds v.

Definition create_conditions (w : Walls) : M L (DirichletCondition * DirichletCondition) :=
  construct "velBC" "DirichletCondition" ["velocityField"] ;;;
  construct "tempBC" "DirichletCondition" ["temperatureField"] ;;;
  ret ({| variable := "velocityField"; indexSetsPerDof := [iWalls w; jWalls w] |},
       {| variable := "temperatureField"; indexSetsPerDof := [jWalls w] |}).

Definition create_systems : M L unit :=
  construct "stokes" "Stokes" ["velocityField"; "pressureField"; "velBC"; "buoyancyFn"] ;;;
  construct "solver" "Solver" ["stokes"] ;;;
  construct "advDiff" "AdvectionDiffusion"
            ["temperatureField"; "temperatureDotField"; "velocityField"; "tempBC"].

(** The cells up to the end of the temperature initialisation loop. *)
Definition initial_conditions : M L FeMesh :=
  let! mesh := create_mesh in
  create_functions ;;;
  init_temperature mesh ;;;
  ret mesh.

(** Every cell before the time-stepping loop. *)
Definition setup : M L (FeMesh * Walls) :=
  let! mesh := initial_conditions in
  let! walls := set_walls mesh in
  create_conditions walls ;;;
  create_systems ;;;
  ret (mesh, walls).

(** *** What the cells before the loop leave in the trace *)

Definition create_mesh_events : list event :=
  [ Construct "mesh" "FeMesh_Cartesian" [];
    Construct "velocityField" "MeshVariable" ["mesh"];
    Construct "pressureField" "MeshVariable" ["mesh"];
    Construct "temperatureField" "MeshVariable" ["mesh"];
    Construct "temperatureDotField" "MeshVariable" ["mesh"];
    Write "velocityField"; Write "pressureField"; Write "temperatureDotField" ].

Definition initial_conditions_events : list event :=
  create_mesh_events
  ++ [ Construct "densityFn" "Function" ["temperatureField"];
       Construct "buoyancyFn" "Function" ["densityFn"] ]
  ++ flat_map (λ _, [Write "temperatureField"; Write "temperatureField"]) (data mesh).

Definition wall_events : list event :=
  map (λ _, Write "temperatureField") (MinJ_VertexSet mesh)
  ++ map (λ _, Write "temperatureField") (MaxJ_VertexSet mesh).

Definition system_events : list event :=
  [ Construct "velBC" "DirichletCondition" ["velocityField"];
    Construct "tempBC" "DirichletCondition" ["temperatureField"];
    Construct "stokes" "Stokes" ["velocityField"; "pressureField"; "velBC"; "buoyancyFn"];
    Construct "solver" "Solver" ["stokes"];
    Construct "advDiff" "AdvectionDiffusion"
              ["temperatureField"; "temperatureDotField"; "velocityField"; "tempBC"] ].

Definition setup_events : list event :=
  initial_conditions_events ++ wall_events ++ system_events.

(** The temperature rows once the initialisation loop has run, and once
    the walls have been set. *)
Definition initial_rows : list (list float) :=
  map (λ c, [clamp (initial_temperature c)]) (data mesh).

Definition wall_rows : list (list float) :=
  overwrite (MaxJ_VertexSet mesh) tempMin (overwrite (MinJ_VertexSet mesh) tempMax initial_rows).

Definition the_walls : Walls :=
  {| bottomWall := MinJ_VertexSet mesh; topWall := MaxJ_VertexSet mesh;
     leftWall := MinI_VertexSet mesh; rightWall := MaxI_VertexSet mesh;
     iWalls := iset_add (MinI_VertexSet mesh) (MaxI_VertexSet mesh);
     jWalls := iset_add (MinJ_VertexSet mesh) (MaxJ_VertexSet mesh) |}.

Definition steps_end : Z := 20.

(** [def update()]: reads the globals [time] and [step]. *)
Definition update (time : float) (step : Z) : M L (float * Z) :=
  let! dt := call_float "advDiff" "get_max_dt" [] in
  call_unit "advDiff" "integrate" [dt] ;;;
  ret ((time + dt)%float, (step + 1)%Z).

Definition loop_body (v : float * Z) : M L (float * Z) :=
  call_unit "solver" "solve" [] ;;;
  update v.1 v.2.

(** The time-stepping cell. *)
Definition time_stepping (fuel : nat) : M L (float * Z) :=
  let time := 0%float in
  let step := 0%Z in
  while (λ v, (v.2 <? steps_end)%Z) loop_body fuel (time, step).

(** What one pass of the loop leaves in the trace, given the step size
    the library returned. *)
Definition iteration_events (dt : float) : list event :=
  [ Call "solver" "solve" [] None;
    Call "advDiff" "get_max_dt" [] (Some dt);
    Call "advDiff" "integrate" [dt] None ].

(** The last cell: the check on the RMS velocity. *)
Definition test_cell : M L unit :=
  let! vrms := call_float "stokes" "velocity_rms" [] in
  if negb (Np.isclose vrms 8.70754e+01)
  then
    let! shown := call_float "stokes" "velocity_rms" [] in
    raise (Py.RuntimeError
             ("The Velocity RMS " +:+ format shown +:+ " is not close to expected value"))
  else ret tt.

(** What [stokes.velocity_rms()] returns when called in [s]. *)
Definition velocity_rms (s : State L) : float :=
  (method_float L "stokes" "velocity_rms" [] (mem s)).1.

Definition notebook (fuel : nat) : M L unit :=
  setup ;;; time_stepping fuel ;;; test_cell.

End WithLibrary.
End Convection.

(** ** Steady-state heat notebook *)

Module SteadyStateHeat.

Definition boxHeight : float := 1.0.
Definition boxLength : float := 2.0.
Definition resx : nat := 16.
Definition resy : nat := 8.

Record System := {
  temperatureField : string;
  fn_diffusivity : float;
  conditions : DirichletCondition
}.

Record Model := {
  mesh : FeMesh;
  botWalls : IndexSet;
  topWalls : IndexSet;
  bcWalls : IndexSet;
  tempBC : DirichletCondition;
  heatequation : System
}.

Section WithLibrary.
Context (L : Library).

Definition the_mesh : FeMesh :=
  FeMesh_Cartesian L (resx, resy) (0, 0)%float (boxLength, boxHeight).

Definition create_mesh : M L FeMesh :=
  construct "mesh" "FeMesh_Cartesian" [] ;;;
  ret the_mesh.

Definition create_temperature (mesh : FeMesh) : M L unit :=
  add_variable "temperatureField" "mesh" (length (data mesh)) 1 ;;;
  fill "temperatureField" 0.

Definition set_wall_temperatures (botWalls topWalls : IndexSet) : M L unit :=
  set_rows "temperatureField" botWalls 1.0 ;;;
  set_rows "temperatureField" topWalls 0.0.

(** Every statement before [heatsolver.solve()]. *)
Definition before_solve : M L Model :=
  let! mesh := create_mesh in
  create_temperature mesh ;;;
  let! botWalls := special_set mesh "Bottom_VertexSet" in
  let! topWalls := special_set mesh "Top_VertexSet" in
  let bcWalls := iset_add botWalls topWalls in
  construct "tempBC" "DirichletCondition" ["temperatureField"] ;;;
  let tempBC := {| variable := "temperatureField"; indexSetsPerDof := [bcWalls] |} in
  set_wall_temperatures botWalls topWalls ;;;
  construct "heatequation" "SteadyStateHeat" ["temperatureField"; "tempBC"] ;;;
  let heatequation := {| temperatureField := "temperatureField";
                         fn_diffusivity := 1.0;
                         conditions := tempBC |} in
  construct "heatsolver" "Solver" ["heatequation"] ;;;
  ret {| mesh := mesh; botWalls := botWalls; topWalls := topWalls; bcWalls := bcWalls;
         tempBC := tempBC; heatequation := heatequation |}.

(** The temperature rows after [temperatureField.data[:] = 0.], and when
    the solver is called. *)
Definition zero_rows : list (list float) :=
  map (λ old, replicate (length old) 0%float)
      (fresh_rows L "temperatureField" (length (data the_mesh)) 1).


Definition solve : M L unit := call_unit "heatsolver" "solve" [].

(** The last cell: the check on the average temperature. *)
Definition test_cell : M L unit :=
  construct "tottemp" "Integral" ["temperatureField"; "mesh"] ;;;
  let! total := call_float "tottemp" "evaluate" [] in
  let avtemp := (total / (boxHeight * boxLength))%float in
  if negb (Np.isclose avtemp 0.5)
  then raise (Py.RuntimeError "Incorrect average temperature produced by model. ")
  else ret tt.

(** The average temperature the last cell computes when run in [s]. *)
Definition avtemp (s : State L) : float :=
  ((method_float L "tottemp" "evaluate" [] (mem s)).1 / (boxHeight * boxLength))%float.

Definition notebook : M L unit :=
  before_solve ;;; solve ;;; test_cell.

End WithLibrary.
End SteadyStateHeat.

(** ** Underworld function objects *)

(** The [fn] objects the notebooks evaluate on a swarm: arithmetic over
    the coordinates of a particle, and [fn.branching.conditional], which
    takes the value of the first clause whose condition holds. *)
Module Fn.

Inductive t :=
| coord (i : nat)
| const (c : float)
| add (a b : t)
| mul (a b : t)
| cos (a : t).

Inductive cond :=
| gt (a b : t)
| always.

Section Eval.
(** [fn.math.cos] at a point *)
Context (cosine : float → float).

Fixpoint eval (pos : list float) (f : t) : option float :=
  match f with
  | coord i => pos !! i
  | const c => Some c
  | add a b =>
      match eval pos a, eval pos b with
      | Some x, Some y => Some (x + y)%float
      | _, _ => None
      end
  | mul a b =>
      match eval pos a, eval pos b with
      | Some x, Some y => Some (x * y)%float
      | _, _ => None
      end
  | cos a => cosine <$> eval pos a
  end.

Definition holds (pos : list float) (c : cond) : option bool :=
  match c with
  | gt a b =>
      match eval pos a, eval pos b with
      | Some x, Some y => Some (y <? x)%float
      | _, _ => None
      end
  | always => Some true
  end.

Fixpoint conditional (clauses : list (cond * Z)) (pos : list float) : option Z :=
  match clauses with
  | [] => None
  | (c, v) :: rest =>
      match holds pos c with
      | Some true => Some v
      | Some false => conditional rest pos
      | None => None
      end
  end.

(** [f.evaluate(swarm)]: one value per particle. *)
Fixpoint evaluate (clauses : list (cond * Z)) (particles : list (list float))
  : option (list Z) :=
  match particles with
  | [] => Some []
  | pos :: rest =>
      match conditional clauses pos, evaluate clauses rest with
      | Some v, Some vs => Some (v :: vs)
      | _, _ => None
      end
  end.

End Eval.
End Fn.

(** ** Rayleigh-Taylor notebook *)

Module RayleighTaylor.

Definition boxLength : float := 0.9142.
Definition boxHeight : float := 1.0.
Definition viscosityRatio : float := 1.0.
Definition longtest : bool := false.

(** [uw_longtest]: whether ["UW_LONGTEST"] is set in the environment. *)
Definition model_end_time (uw_longtest : bool) : float :=
  if uw_longtest || longtest then 800 else 3.

Definition res (uw_longtest : bool) : nat :=
  if uw_longtest || longtest then 128 else 64.

Definition denseIndex : Z := 0.
Definition lightIndex : Z := 1.

Definition wavelength : float := 2.0 * boxLength.
Definition amplitude : float := 0.02.
Definition offset : float := 0.2.
Definition k : float := 2 * Convection.pi / wavelength.

Definition perturbationFn : Fn.t :=
  Fn.add (Fn.const offset) (Fn.mul (Fn.const amplitude) (Fn.cos (Fn.mul (Fn.const k) (Fn.coord 0)))).

Definition conditions : list (Fn.cond * Z) :=
  [ (Fn.gt perturbationFn (Fn.coord 1), lightIndex);
    (Fn.always, denseIndex) ].

(** The material the conditional gives a particle at [pos]. *)
Definition material_at (cosine : float → float) (pos : list float) : Z :=
  match pos with
  | [x; y] => if (y <? offset + amplitude * cosine (k * x))%float then lightIndex else denseIndex
  | _ => denseIndex
  end.

Definition outputEvery : Z := 20.

(** The globals the loop rebinds. *)
Record Vars := {
  time : float;
  step : Z;
  vrms : float;
  timeVal : list float;
  vrmsVal : list float
}.

Section WithLibrary.
Context (L : Library).
(** [fn.math.cos], ["{}".format], ["UW_LONGTEST" in os.environ],
    [uw.mpi.rank], [uw.mpi.size] *)
Context (cosine : float → float) (format : float → string)
        (uw_longtest : bool) (rank size : nat).

Definition mesh : FeMesh :=
  FeMesh_Cartesian L (res uw_longtest, res uw_longtest) (0, 0)%float (boxLength, boxHeight).

Definition create_mesh : M L unit :=
  construct "mesh" "FeMesh_Cartesian" [] ;;;
  add_variable "velocityField" "mesh" (length (data mesh)) 2 ;;;
  add_variable "pressureField" "mesh" (subMesh_nodes mesh) 1 ;;;
  fill_row "velocityField" [0; 0]%float ;;;
  fill "pressureField" 0.

Definition create_swarm : M L unit :=
  add_swarm "swarm" "mesh" ;;;
  add_swarm_variable_int "materialIndex" "swarm" ;;;
  construct "swarmLayout" "PerCellSpaceFillerLayout" ["swarm"] ;;;
  call_unit "swarm" "populate_using_layout" [].

(** The branching conditional, evaluated on the swarm and stored. *)
Definition init_material : M L unit :=
  let! particles := get_rows "swarm.particleCoordinates" in
  match Fn.evaluate cosine conditions particles with
  | Some values => store_ints "materialIndex" values
  | None => raise Py.IndexError
  end.

Definition create_systems : M L unit :=
  construct "densityFn" "Function" ["materialIndex"] ;;;
  construct "fn_viscosity" "Function" ["materialIndex"] ;;;
  construct "buoyancyFn" "Function" ["densityFn"] ;;;
  construct "stokesBC" "DirichletCondition" ["velocityField"] ;;;
  construct "stokes" "Stokes"
            ["velocityField"; "pressureField"; "stokesBC"; "fn_viscosity"; "buoyancyFn"] ;;;
  construct "solver" "Solver" ["stokes"] ;;;
  (if (size =? 1)%nat then call_unit "solver" "set_inner_method" [] else ret tt) ;;;
  construct "advector" "SwarmAdvector" ["swarm"; "velocityField"].

Definition setup : M L unit :=
  create_mesh ;;;
  create_swarm ;;;
  init_material ;;;
  create_systems ;;;
  call_unit "mesh" "save" [].

(** [def update()]: reads the globals [time] and [step]. *)
Definition update (time : float) (step : Z) : M L (float * Z) :=
  let! dt := call_float "advector" "get_max_dt" [] in
  call_unit "advector" "integrate" [dt] ;;;
  ret ((time + dt)%float, (step + 1)%Z).

Definition save_fields : M L unit :=
  call_unit "velocityField" "save" [] ;;;
  call_unit "velocityField" "xdmf" [] ;;;
  call_unit "pressureField" "save" [] ;;;
  call_unit "pressureField" "xdmf" [] ;;;
  call_unit "fig1" "save_image" [].

Definition loop_body (v : Vars) : M L Vars :=
  call_unit "solver" "solve" [] ;;;
  let! vrms := call_float "stokes" "velocity_rms" [] in
  let vrmsVal := if (rank =? 0)%nat then vrmsVal v ++ [vrms] else vrmsVal v in
  let timeVal := if (rank =? 0)%nat then timeVal v ++ [time v] else timeVal v in
  (if (step v mod outputEvery =? 0)%Z then save_fields else ret tt) ;;;
  let! r := update (time v) (step v) in
  ret {| time := r.1; step := r.2; vrms := vrms; timeVal := timeVal; vrmsVal := vrmsVal |}.

Definition running (v : Vars) : bool := (time v <? model_end_time uw_longtest)%float.

(** The globals when the loop starts.  [vrms] is unbound until the first
    pass; the placeholder is never read. *)
Definition start : Vars :=
  {| time := 0; step := 0; vrms := 0; timeVal := []; vrmsVal := [] |}.

(** The two cells that initialise and run the loop. *)
Definition time_stepping (fuel : nat) : M L Vars :=
  while running loop_body fuel start.

(** [n] passes of the loop body, whatever the clock says. *)
Fixpoint passes (n : nat) (v : Vars) : M L Vars :=
  match n with
  | O => ret v
  | S n' => let! v' := loop_body v in passes n' v'
  end.

(** The values [advector.get_max_dt()] returned, as the trace has them. *)
Definition max_dts (t : list event) : list float :=
  flat_map (λ e, match e with
                 | Call obj method _ (Some dt) =>
                     if String.eqb obj "advector" && String.eqb method "get_max_dt"
                     then [dt] else []
                 | _ => []
                 end) t.

(** The check on the RMS velocity, skipped in the long test. *)
Definition test_cell : M L unit :=
  if negb longtest
  then
    let! v := call_float "stokes" "velocity_rms" [] in
    if negb (Np.isclose v 1.83340219912e-4)
    then
      let! shown := call_float "stokes" "velocity_rms" [] in
      raise (Py.RuntimeError
               ("The Velocity RMS " +:+ format shown +:+ " is not close to expected value"))
    else ret tt
  else ret tt.

Definition notebook (fuel : nat) : M L unit :=
  setup ;;; time_stepping fuel ;;; test_cell.

End WithLibrary.
End RayleighTaylor.

(** ** Arithmetic read two ways *)

(** The arithmetic of a Python expression: as the code runs it, on
    binary64 numbers, and as the mathematics reads it, on real numbers
    with decimal literals taken exactly. *)
Class Arith (num : Type) := {
  dec : Z → Z → num;      (** the decimal literal [m * 10^e] *)
  plus : num → num → num;
  minus : num → num → num;
  times : num → num → num;
  over : num → num → num;
  square : num → num;
  exponential : num → num
}.

Definition float_of_Z (z : Z) : float :=
  match z with
  | Z0 => 0%float
  | Zpos _ => PrimFloat.of_uint63 (Uint63.of_Z z)
  | Zneg p => (- PrimFloat.of_uint63 (Uint63.of_Z (Zpos p)))%float
  end.

(** A decimal literal with at most 15 digits is the correctly rounded
    quotient of two integers that binary64 holds exactly. *)
Definition float_dec (m e : Z) : float :=
  if (0 <=? e)%Z then float_of_Z (m * 10 ^ e)
  else (float_of_Z m / float_of_Z (10 ^ (- e)))%float.


(** [exp] is [np.exp]; [pow2] is [x ** 2] on a numpy float. *)
Definition float_arith (exp pow2 : float → float) : Arith float :=
  {| dec := float_dec;
     plus := PrimFloat.add; minus := PrimFloat.sub;
     times := PrimFloat.mul; over := PrimFloat.div;
     square := pow2;
     exponential := exp |}.


(** ** Uplift notebook *)

Module Uplift.

Definition model_end_step : Z := 3.
Definition resolution : nat * nat := (100, 60).

(** [lithostaticPressure = 0.6*Ly*density*gravity] *)
Definition lithostaticPressure {num} {A : Arith num} (Ly density gravity : num) : num :=
  times (times (times (dec 6 (-1)) Ly) density) gravity.

(** [lithostaticPressure*(1.+0.2*np.exp((-1/width*(coord[0]-xp)**2)))] *)
Definition basal_traction {num} {A : Arith num} (pressure width xp x : num) : num :=
  times pressure
        (plus (dec 1 0)
              (times (dec 2 (-1))
                     (exponential (times (over (dec (-1) 0) width)
                                         (square (minus x xp)))))).

(** The values [non_dimensionalise] returned. *)
Record Scaled := {
  gravity : float;
  density : float;
  viscosity : float;
  bulk_visc : float;
  Lx : float;
  Ly : float;
  xp : float;
  width : float
}.

(** The globals the loop rebinds; [h0] and [diffH] are unbound before
    the first pass. *)
Record Vars := {
  dt : float;
  steps : Z;
  h0 : option float;
  h1 : float;
  diffH : option float
}.

Section WithLibrary.
Context (L : Library).
(** [np.exp], [x ** 2] on a numpy float, the scaled parameters, and the
    height in metres of a scaled length *)
Context (exp pow2 : float → float) (p : Scaled) (metres : float → float).

Definition mesh : FeMesh :=
  FeMesh_Cartesian L resolution (0, 0)%float (Lx p, Ly p).

Definition pressure : float :=
  lithostaticPressure (A:=float_arith exp pow2) (Ly p) (density p) (gravity p).

Definition create_mesh : M L unit :=
  construct "mesh" "FeMesh_Cartesian" [] ;;;
  add_variable "velocityField" "mesh" (length (data mesh)) 2 ;;;
  add_variable "tractionField" "mesh" (length (data mesh)) 2 ;;;
  add_variable "pressureField" "mesh" (subMesh_nodes mesh) 1.

Definition traction_row (coord : float * float) : list float :=
  [0.0%float; basal_traction (A:=float_arith exp pow2) pressure (width p) (xp p) coord.1].

(** The traction on the bottom wall.  [width] is a Python float, and
    [-1/width] on Python floats raises when [width] is zero. *)
Definition init_traction : M L unit :=
  let! bottomWall := special_set mesh "Bottom_VertexSet" in
  for_each bottomWall (λ ii,
    match data mesh !! ii with
    | Some coord =>
        if (width p =? 0)%float then raise Py.ZeroDivisionError
        else set_row "tractionField" ii (traction_row coord)
    | None => raise Py.IndexError
    end).


(** The swarms and the material of every particle. *)
Definition create_swarm : M L unit :=
  add_swarm "swarm" "mesh" ;;;
  construct "advector" "SwarmAdvector" ["velocityField"; "swarm"] ;;;
  add_swarm_variable "materialVariable" "swarm" ;;;
  construct "swarmLayout" "PerCellSpaceFillerLayout" ["swarm"] ;;;
  call_unit "swarm" "populate_using_layout" [] ;;;
  fill "materialVariable" 0 ;;;
  let! coords := get_rows "swarm.particleCoordinates" in
  for_enum 0 coords (λ index coord,
    match coord !! 1 with
    | Some y => if (y <? Ly p * 0.6)%float
                then set_scalar "materialVariable" index 1
                else ret tt
    | None => raise Py.IndexError
    end) ;;;
  construct "population_control" "PopulationControl" ["swarm"] ;;;
  add_swarm "mswarm" "mesh" ;;;
  construct "msAdvector" "SwarmAdvector" ["velocityField"; "mswarm"] ;;;
  call_unit "mswarm" "add_particles_with_coordinates" [(0.5 * Lx p)%float; (0.6 * Ly p)%float] ;;;
  construct "fn_y_minmax" "Function" [].

(** The mapping of [lambdaFn] holds [1/bulk_visc], a division of Python
    floats, which raises when [bulk_visc] is zero. *)
Definition create_systems : M L unit :=
  (if (bulk_visc p =? 0)%float then raise Py.ZeroDivisionError else ret tt) ;;;
  construct "lambdaFn" "Function" ["materialVariable"] ;;;
  construct "densityFn" "Function" ["materialVariable"] ;;;
  construct "forceFn" "Function" ["densityFn"] ;;;
  construct "stokesBC" "DirichletCondition" ["velocityField"] ;;;
  construct "nbc" "NeumannCondition" ["tractionField"; "velocityField"] ;;;
  construct "stokesPIC" "Stokes"
            ["velocityField"; "pressureField"; "stokesBC"; "nbc"; "forceFn"; "lambdaFn"] ;;;
  construct "solver" "Solver" ["stokesPIC"].

Definition setup : M L unit :=
  create_mesh ;;; init_traction ;;; create_swarm ;;; create_systems.

(** The statements between the output header and the loop. *)
Definition loop_init : M L Vars :=
  call_unit "fn_y_minmax" "reset" [] ;;;
  call_unit "fn_y_minmax" "evaluate" [] ;;;
  let! h1 := call_float "fn_y_minmax" "max_global" [] in
  ret {| dt := (-1)%float; steps := 0; h0 := None; h1 := h1; diffH := None |}.

Definition loop_body (v : Vars) : M L Vars :=
  call_unit "solver" "solve" [] ;;;
  let! dt := (if (dt v <? 0)%float
              then call_float "advector" "get_max_dt" []
              else ret (dt v)) in
  let h0 := h1 v in
  call_unit "advector" "integrate" [dt] ;;;
  call_unit "msAdvector" "integrate" [dt] ;;;
  call_unit "fn_y_minmax" "reset" [] ;;;
  call_unit "fn_y_minmax" "evaluate" [] ;;;
  let! h1 := call_float "fn_y_minmax" "max_global" [] in
  let diffH := (h1 - h0)%float in
  call_float "stokesPIC" "velocity_rms" [] ;;;
  call_unit "population_control" "repopulate" [] ;;;
  call_unit "fig1" "save" [] ;;;
  ret {| dt := dt; steps := steps v + 1; h0 := Some h0; h1 := h1; diffH := Some diffH |}.

Definition time_stepping (fuel : nat) : M L Vars :=
  let! v := loop_init in
  while (λ v, (steps v <? model_end_step)%Z) loop_body fuel v.

(** What the first [advector.get_max_dt()] of the loop returns when the
    loop cell is run in [s]. *)
Definition first_dt (s : State L) : float :=
  let m0 := method_unit L "fn_y_minmax" "reset" [] (mem s) in
  let m1 := method_unit L "fn_y_minmax" "evaluate" [] m0 in
  let m2 := (method_float L "fn_y_minmax" "max_global" [] m1).2 in
  let m3 := method_unit L "solver" "solve" [] m2 in
  (method_float L "advector" "get_max_dt" [] m3).1.

(** The advection steps in a trace: who integrated, with what. *)
Definition integrations (t : list event) : list (string * list float) :=
  flat_map (λ e, match e with
                 | Call obj method args _ =>
                     if String.eqb method "integrate" then [(obj, args)] else []
                 | _ => []
                 end) t.

(** The values [get_max_dt()] returned, as the trace has them. *)
Definition max_dts (t : list event) : list float :=
  flat_map (λ e, match e with
                 | Call _ method _ (Some dt) =>
                     if String.eqb method "get_max_dt" then [dt] else []
                 | _ => []
                 end) t.

(** The last cell: the height of the tracer against 245.140 m. *)
Definition test_cell (v : Vars) : M L unit :=
  match diffH v with
  | Some d =>
      if (0.05 * 245.140 <? PrimFloat.abs (metres d - 245.140))%float
      then raise (Py.RuntimeError "Height of passive tracer outside expected 5% tolerance")
      else ret tt
  | None => raise (Py.NameError "diffH")
  end.

Definition notebook (fuel : nat) : M L unit :=
  setup ;;;
  let! v := time_stepping fuel in
  test_cell v.

End WithLibrary.
End Uplift.

(** Scaled parameters to run the uplift notebook on: a box 1 x 0.6, the
    perturbation of width 0.03 centred at 0.5. *)
Definition uplift_demo : Uplift.Scaled :=
  {| Uplift.gravity := 1; Uplift.density := 1; Uplift.viscosity := 1;
     Uplift.bulk_visc := 1; Uplift.Lx := 1; Uplift.Ly := 0.6;
     Uplift.xp := 0.5; Uplift.width := 0.03 |}.

(** ** Blankenbach benchmark notebook *)

Module Blankenbach.

Definition boxHeight : float := 1.0.
Definition boxLength : float := 1.0.
Definition res : nat := 128.
Definition tempMin : float := 0.0.
Definition tempMax : float := 1.0.
Definition LoadFromFile : bool := true.
Definition step_end : Z := if LoadFromFile then 1 else 5000.
Definition epsilon : float := 1e-8.

(** The globals the loop rebinds, and whether it has hit [break]. *)
Record Vars := {
  time : float;
  step : Z;
  vrms : float;
  nu : float;
  nuLast : float;
  velplotmax : float;
  timeVal : list float;
  vrmsVal : list float;
  broken : bool
}.

Section WithLibrary.
Context (L : Library).
(** [math.cos], [math.sin], [uw.mpi.rank], and the numpy arithmetic
    that turns the stress along the top wall into the topography at its
    two ends *)
Context (cos sin : float → float) (rank : nat)
        (topography : list (list float) → float * float).

Definition mesh : FeMesh :=
  FeMesh_Cartesian L (res, res) (0, 0)%float (boxLength, boxHeight).

Definition mesh64 : FeMesh :=
  FeMesh_Cartesian L (64, 64) (0, 0)%float (boxLength, boxHeight).

Definition create_mesh : M L unit :=
  construct "mesh" "FeMesh_Cartesian" [] ;;;
  add_variable "velocityField" "mesh" (length (data mesh)) 2 ;;;
  add_variable "pressureField" "mesh" (subMesh_nodes mesh) 1 ;;;
  add_variable "temperatureField" "mesh" (length (data mesh)) 1 ;;;
  add_variable "temperatureDotField" "mesh" (length (data mesh)) 1 ;;;
  fill_row "velocityField" [0; 0]%float ;;;
  fill "pressureField" 0 ;;;
  fill "temperatureField" 0 ;;;
  fill "temperatureDotField" 0 ;;;
  construct "densityFn" "Function" ["temperatureField"] ;;;
  construct "buoyancyFn" "Function" ["densityFn"].

(** The steady-state field read from file and put on the mesh. *)
Definition load_temperature : M L unit :=
  if LoadFromFile then
    construct "mesh64" "FeMesh_Cartesian" [] ;;;
    add_variable "temperatureField64" "mesh64" (length (data mesh64)) 1 ;;;
    call_unit "temperatureField64" "load" [] ;;;
    if (res =? 64)%nat then
      let! rows := get_rows "temperatureField64" in
      store_rows "temperatureField" rows
    else
      let! rows := call_rows "temperatureField64" "evaluate" in
      store_rows "temperatureField" rows
  else ret tt.

Definition initial_temperature (coord : float * float) : float :=
  let pertStrength := 0.1%float in
  let deltaTemp := (tempMax - tempMin)%float in
  let pertCoeff := (cos (Convection.pi * coord.1 / boxLength)
                    * sin (Convection.pi * coord.2 / boxLength))%float in
  (tempMin + deltaTemp * (boxHeight - coord.2) + pertStrength * pertCoeff)%float.

Definition perturb_temperature : M L unit :=
  if negb LoadFromFile then
    fill "temperatureField" 0 ;;;
    for_enum 0 (data mesh) (λ index coord,
      if Py.trig_domain_error (Convection.pi * coord.1 / boxLength)
         || Py.trig_domain_error (Convection.pi * coord.2 / boxLength)
      then raise Py.ValueError
      else
        set_scalar "temperatureField" index (initial_temperature coord) ;;;
        let! t := get_scalar "temperatureField" index in
        set_scalar "temperatureField" index (Py.max tempMin (Py.min tempMax t)))
  else ret tt.

Definition set_walls : M L unit :=
  let! bottom := special_set mesh "MinJ_VertexSet" in
  for_each bottom (λ index, set_scalar "temperatureField" index tempMax) ;;;
  let! top := special_set mesh "MaxJ_VertexSet" in
  for_each top (λ index, set_scalar "temperatureField" index tempMin).

Definition create_systems : M L unit :=
  construct "freeslipBC" "DirichletCondition" ["velocityField"] ;;;
  construct "tempBC" "DirichletCondition" ["temperatureField"] ;;;
  construct "stokes" "Stokes" ["velocityField"; "pressureField"; "freeslipBC"; "buoyancyFn"] ;;;
  construct "solver" "Solver" ["stokes"] ;;;
  construct "advDiff" "AdvectionDiffusion"
            ["temperatureField"; "temperatureDotField"; "velocityField"; "tempBC"] ;;;
  construct "nuTop" "Integral" ["temperatureField"; "mesh"] ;;;
  construct "nuBottom" "Integral" ["temperatureField"; "mesh"].

(** [- nuTop.evaluate()[0]/nuBottom.evaluate()[0]]: [evaluate()] returns
    a list of Python floats, and [/] on Python floats raises when the
    divisor is zero. *)
Definition nusselt : M L float :=
  let! top := call_float "nuTop" "evaluate" [] in
  let! bottom := call_float "nuBottom" "evaluate" [] in
  if (bottom =? 0)%float then raise Py.ZeroDivisionError
  else ret (- top / bottom)%float.

(** [math.sqrt( intVdotV.evaluate()[0] )] *)
Definition rms_velocity : M L float :=
  let! vv := call_float "intVdotV" "evaluate" [] in
  if Py.sqrt_domain_error vv then raise Py.ValueError
  else ret (PrimFloat.sqrt vv).

Definition setup : M L (float * float) :=
  create_mesh ;;;
  load_temperature ;;;
  perturb_temperature ;;;
  set_walls ;;;
  create_systems ;;;
  let! nu := nusselt in
  construct "intVdotV" "Integral" ["velocityField"; "mesh"] ;;;
  let! vrms := rms_velocity in
  ret (nu, vrms).

(** [def update()]: reads the globals [time] and [step]. *)
Definition update (time : float) (step : Z) : M L (float * Z) :=
  let! dt := call_float "advDiff" "get_max_dt" [] in
  call_unit "advDiff" "integrate" [dt] ;;;
  ret ((time + dt)%float, (step + 1)%Z).

(** One pass of the loop.  [abs((nu - nuLast)/nu)] divides Python floats
    and raises when [nu] is zero. *)
Definition loop_body (v : Vars) : M L Vars :=
  call_unit "solver" "solve" [] ;;;
  let! vrms := rms_velocity in
  let! nu := nusselt in
  let vrmsVal := vrmsVal v ++ [vrms] in
  let timeVal := timeVal v ++ [time v] in
  let velplotmax := Py.max vrms (velplotmax v) in
  if (nu =? 0)%float then raise Py.ZeroDivisionError
  else if (PrimFloat.abs ((nu - nuLast v) / nu) <? epsilon)%float
  then ret {| time := time v; step := step v; vrms := vrms; nu := nu;
              nuLast := nuLast v; velplotmax := velplotmax;
              timeVal := timeVal; vrmsVal := vrmsVal; broken := true |}
  else
    let! r := update (time v) (step v) in
    ret {| time := r.1; step := r.2; vrms := vrms; nu := nu;
           nuLast := nu; velplotmax := velplotmax;
           timeVal := timeVal; vrmsVal := vrmsVal; broken := false |}.

Definition time_stepping (fuel : nat) (nu vrms : float) : M L Vars :=
  while (λ v, negb (broken v) && (step v <=? step_end)%Z) loop_body fuel
        {| time := 0; step := 0; vrms := vrms; nu := nu; nuLast := (-1)%float;
           velplotmax := 0; timeVal := []; vrmsVal := []; broken := false |}.

(** The check on the Nusselt number and the RMS velocity (case "a"). *)
Definition test_cell (v : Vars) : M L unit :=
  if negb (Np.isclose_tol 1e-2 1e-08 (nu v) 4.884)
  then raise (Py.RuntimeError "Model did not produce the expected Nusselt number.")
  else if negb (Np.isclose_tol 1e-2 1e-08 (vrms v) 42.865)
  then raise (Py.RuntimeError "Model did not produce the expected Nusselt number.")
  else ret tt.

(** Saving the fields, and reading them back on a mesh of one process. *)
Definition reload : M L unit :=
  call_unit "mesh" "save" [] ;;;
  call_unit "temperatureField" "save" [] ;;;
  call_unit "pressureField" "save" [] ;;;
  call_unit "velocityField" "save" [] ;;;
  construct "mesh0" "FeMesh_Cartesian" [] ;;;
  call_unit "mesh0" "load" [] ;;;
  add_variable "temperatureField0" "mesh0" (length (data mesh)) 1 ;;;
  add_variable "pressureField0" "mesh0" (subMesh_nodes mesh) 1 ;;;
  add_variable "velocityField0" "mesh0" (length (data mesh)) 2 ;;;
  call_unit "temperatureField0" "load" [] ;;;
  call_unit "pressureField0" "load" [] ;;;
  call_unit "velocityField0" "load" [].

(** The corner gradients of the reloaded temperature (rank 0 only) and
    their check, which reads them on every rank. *)
Definition gradients : M L unit :=
  let! qs :=
    (if (rank =? 0)%nat then
       construct "vertTGradField" "Function" ["temperatureField0"] ;;;
       let! q1 := call_float "vertTGradField" "evaluate" [0; boxHeight]%float in
       let! q2 := call_float "vertTGradField" "evaluate" [boxLength; boxHeight] in
       call_float "vertTGradField" "evaluate" [boxLength; 0]%float ;;;
       call_float "vertTGradField" "evaluate" [0; 0]%float ;;;
       ret (Some (q1, q2))
     else ret None) in
  match qs with
  | Some (q1, q2) =>
      if negb (Np.isclose_tol 1e-2 1e-08 q1 8.020)
      then raise (Py.RuntimeError "Model did not produce the expected q1.")
      else if negb (Np.isclose_tol 1e-2 1e-08 q2 0.589)
      then raise (Py.RuntimeError "Model did not produce the expected q2.")
      else ret tt
  | None => raise (Py.NameError "q1")
  end.

(** The topography at the two top corners, from the stress the library
    evaluates along the top wall, and its check. *)
Definition topography_check : M L unit :=
  let! es :=
    (if (rank =? 0)%nat then
       construct "stresstensorFn" "Function" ["stokes"; "velocityField0"; "pressureField0"] ;;;
       let! stress := call_rows "verticalStressFn" "evaluate" in
       call_rows "xCoordFn" "evaluate" ;;;
       ret (Some (topography stress))
     else ret None) in
  match es with
  | Some (e1, e2) =>
      if negb (Np.isclose_tol 1e-2 1e-08 e1 2254.02)
      then raise (Py.RuntimeError "Model did not produce the expected xi1.")
      else if negb (Np.isclose_tol 1e-2 1e-08 e2 (-2903.23))
      then raise (Py.RuntimeError "Model did not produce the expected xi2.")
      else ret tt
  | None => raise (Py.NameError "e1")
  end.

Definition benchmark : M L unit :=
  gradients ;;; topography_check.

Definition notebook (fuel : nat) : M L unit :=
  let! r := setup in
  let! v := time_stepping fuel r.1 r.2 in
  test_cell v ;;;
  reload ;;;
  benchmark.

End WithLibrary.
End Blankenbach.

(** ** Reading a trace *)

(** The methods called on [obj], with their arguments, in order. *)
Definition calls_on (obj : string) (t : list event) : list (string * list float) :=
  flat_map (λ e, match e with
                 | Call o method args _ =>
                     if String.eqb o obj then [(method, args)] else []
                 | _ => []
                 end) t.

(** The floats that [obj.method(...)] returned, in order. *)
Definition returned (obj method : string) (t : list event) : list float :=
  flat_map (λ e, match e with
                 | Call o m _ (Some x) =>
                     if String.eqb o obj && String.eqb m method then [x] else []
                 | _ => []
                 end) t.

(** ** A library that populates swarms *)

(** [populate_using_layout]: the swarm gets [particles], and the swarm
    variables of the notebooks one row per particle. *)
Definition populate (particles : list (list float)) (swarm : string) (h : Heap) : Heap :=
  let h1 := <[(swarm +:+ ".particleCoordinates")%string := FloatArr particles]> h in
  let h2 := match h !! "materialVariable" with
            | Some _ => <["materialVariable" := FloatArr (map (λ _, [0.5%float]) particles)]> h1
            | None => h1
            end in
  match h !! "materialIndex" with
  | Some _ => <["materialIndex" := IntArr (map (λ _, [7%Z]) particles)]> h2
  | None => h2
  end.

(** The reference library with a layout that yields [particles]. *)
Definition seeded_library (particles : list (list float)) : Library :=
  {| Hidden := nat;
     FeMesh_Cartesian := grid_mesh;
     fresh_data := λ _ _ _, 0%float;
     method_float := λ _ _ _ m, (0.5%float, (m.1, S m.2));
     method_unit := λ obj method _ m,
       if String.eqb method "populate_using_layout"
       then (populate particles obj m.1, m.2)
       else m;
     method_rows := λ _ _ m, ([], m) |}.

(** ** Uplift notebook: the swarm cell, around its loop *)

Module UpliftSwarm.
Section WithLibrary.
Context (L : Library) (p : Uplift.Scaled).

(** The arrays and the library state when [populate_using_layout]
    returns, the swarm cell having started in [s]. *)
Definition populated (s : State L) : Heap * Hidden L :=
  method_unit L "swarm" "populate_using_layout" []
    (<["materialVariable" := FloatArr []]>
       (<["swarm.particleCoordinates" := FloatArr []]> (heap s)),
     hidden s).

(** [1] for a particle below [Ly*0.6], [0] for any other. *)
Definition material (coord : list float) : float :=
  match coord !! 1 with
  | Some y => if (y <? Uplift.Ly p * 0.6)%float then 1 else 0
  | None => 0
  end.

(** The statements of the cell that follow the loop over the particles. *)
Definition tracer_swarm : M L unit :=
  construct "population_control" "PopulationControl" ["swarm"] ;;;
  add_swarm "mswarm" "mesh" ;;;
  construct "msAdvector" "SwarmAdvector" ["velocityField"; "mswarm"] ;;;
  call_unit "mswarm" "add_particles_with_coordinates"
            [(0.5 * Uplift.Lx p)%float; (0.6 * Uplift.Ly p)%float] ;;;
  construct "fn_y_minmax" "Function" [].

End WithLibrary.
End UpliftSwarm.

(** ** Rayleigh-Taylor notebook: the passes that write output *)

(** Of the first [n] passes (numbered from 0) those whose step number is
    a multiple of [outputEvery]. *)
Definition saved_passes (n : nat) : list nat :=
  filter (λ i, (Z.of_nat i mod RayleighTaylor.outputEvery = 0)%Z) (seq 0 n).

(** ** Binary64 numbers in order *)

(** The place of a non-negative binary64 number among the non-negative
    ones, counted from zero: its bit pattern read as an integer. *)
Definition ordinal (x : float) : Z :=
  match Prim2SF x with
  | S754_finite false m e => (e + 1074) * 2 ^ 52 + Zpos m
  | S754_infinity false => 2047 * 2 ^ 52
  | _ => 0
  end.

(** Zero, a positive number or [+infinity]. *)
Definition nonneg (x : float) : Prop :=
  match Prim2SF x with
  | S754_zero _ | S754_finite false _ _ | S754_infinity false => True
  | _ => False
  end.

(** ** Rayleigh-Taylor notebook: the states of the loop *)

Module RayleighTaylorRun.
Section WithLibrary.
Context (L : Library) (uw_longtest : bool) (rank : nat).

(** The states in which the loop tests its guard, the cell having started
    in [s0]: the initial one, and whatever a pass leaves that began with
    the guard true. *)
Inductive reached (s0 : State L) : nat → RayleighTaylor.Vars → State L → Prop :=
| reached_start : reached s0 0 RayleighTaylor.start s0
| reached_pass k v s v' s' :
    reached s0 k v s →
    RayleighTaylor.running uw_longtest v = true →
    RayleighTaylor.loop_body L rank v s = Ok v' s' →
    reached s0 (S k) v' s'.

End WithLibrary.
End RayleighTaylorRun.

(** ** Binary64 numbers as real numbers *)


(** ** Uplift notebook: a narrow perturbation *)




(** * Theorems *)

(** ** Library calls, one at a time *)

Section CallLemmas.
Context {L : Library}.

Lemma bind_call_unit {A} (obj method : string) (args : list float)
    (k : unit → M L A) (s : State L) :
  ∃ s', bind (call_unit obj method args) k s = k tt s'
        ∧ trace s' = trace s ++ [Call obj method args None]
        ∧ mem s' = method_unit L obj method args (mem s).
Proof.
  eexists. split; [reflexivity|]. split; [reflexivity|].
  unfold mem. cbn [heap hidden]. by destruct (method_unit _ _ _ _ _).
Qed.

Lemma bind_call_float {A} (obj method : string) (args : list float)
    (k : float → M L A) (s : State L) :
  ∃ x s', bind (call_float obj method args) k s = k x s'
          ∧ trace s' = trace s ++ [Call obj method args (Some x)]
          ∧ (x, mem s') = method_float L obj method args (mem s).
Proof.
  eexists _, _. split; [reflexivity|]. split; [reflexivity|].
  unfold mem. cbn [heap hidden]. by destruct (method_float _ _ _ _ _) as [? []].
Qed.

End CallLemmas.

Lemma scripted_call_unit {A} (script : nat → float) (obj method : string)
    (args : list float) (k : unit → M (scripted_library script) A)
    (s : State (scripted_library script)) :
  bind (call_unit obj method args) k s
  = k tt (mkState (L:=scripted_library script) (heap s) (hidden s)
                  (trace s ++ [Call obj method args None])).
Proof. reflexivity. Qed.

Lemma scripted_call_float {A} (script : nat → float) (obj method : string)
    (args : list float) (k : float → M (scripted_library script) A)
    (s : State (scripted_library script)) :
  bind (call_float obj method args) k s
  = k (script (hidden s))
      (mkState (L:=scripted_library script) (heap s) (S (hidden s))
               (trace s ++ [Call obj method args (Some (script (hidden s)))])).
Proof. reflexivity. Qed.

(** Run the library call at the head of the computation in the goal. *)
Ltac call_step :=
  lazymatch goal with
  | |- context [bind (call_unit ?o ?m ?a) ?k ?s] =>
      let s' := fresh "s" in
      let H := fresh "Hrun" in
      let Ht := fresh "Htrace" in
      let Hm := fresh "Hmem" in
      destruct (bind_call_unit o m a k s) as (s' & H & Ht & Hm);
      rewrite H; clear H; cbv beta
  | |- context [bind (call_float ?o ?m ?a) ?k ?s] =>
      let x := fresh "x" in
      let s' := fresh "s" in
      let H := fresh "Hrun" in
      let Ht := fresh "Htrace" in
      let Hm := fresh "Hmem" in
      destruct (bind_call_float o m a k s) as (x & s' & H & Ht & Hm);
      rewrite H; clear H; cbv beta
  end.

(** ** Arrays: what the primitives compute *)

Section ArrayLemmas.
Context {L : Library}.
Implicit Types (s : State L) (rows : list (list float)) (idx : IndexSet).

Lemma with_rows_heap s var rows evs :
  heap (with_rows s var rows evs) !! var = Some (FloatArr rows).
Proof. apply lookup_insert_eq. Qed.

Lemma with_rows_twice s var rows1 rows2 evs1 evs2 :
  with_rows (with_rows s var rows1 evs1) var rows2 evs2
  = with_rows s var rows2 (evs1 ++ evs2).
Proof.
  unfold with_rows. cbn. f_equal; [apply insert_insert_eq | by rewrite app_assoc].
Qed.

Lemma with_rows_same s var rows :
  heap s !! var = Some (FloatArr rows) → with_rows s var rows [] = s.
Proof.
  intros H. destruct s as [h hid tr]. unfold with_rows. cbn in *.
  f_equal; [by apply insert_id | apply app_nil_r].
Qed.

Lemma get_scalar_ok var i v rows s :
  heap s !! var = Some (FloatArr rows) → rows !! i = Some [v] →
  get_scalar var i s = Ok v s.
Proof.
  intros Hh Hi. unfold get_scalar, bind, get_rows. rewrite Hh. cbn. by rewrite Hi.
Qed.

Lemma set_scalar_ok var i v rows old s :
  heap s !! var = Some (FloatArr rows) → rows !! i = Some old →
  set_scalar var i v s
  = Ok tt (with_rows s var (<[i := replicate (length old) v]> rows) [Write var]).
Proof.
  intros Hh Hi. unfold set_scalar, bind, get_rows. rewrite Hh. cbn. by rewrite Hi.
Qed.


Lemma fill_ok var v rows s :
  heap s !! var = Some (FloatArr rows) →
  fill var v s
  = Ok tt (with_rows s var (map (λ old, replicate (length old) v) rows) [Write var]).
Proof. intros Hh. unfold fill, bind, get_rows. by rewrite Hh. Qed.

Lemma set_rows_ok var idx v rows s :
  heap s !! var = Some (FloatArr rows) → in_range (length rows) idx = true →
  set_rows var idx v s = Ok tt (with_rows s var (overwrite idx v rows) [Write var]).
Proof.
  intros Hh Hin. unfold set_rows, bind, get_rows. rewrite Hh. cbn. by rewrite Hin.
Qed.

Lemma in_range_spec n idx : in_range n idx = true ↔ ∀ i, i ∈ idx → i < n.
Proof.
  unfold in_range. rewrite forallb_forall. split.
  - intros H i Hi. apply Nat.ltb_lt, H. by apply list_elem_of_In.
  - intros H i Hi. apply Nat.ltb_lt, H. by apply list_elem_of_In.
Qed.

(** *** [overwrite] *)

Lemma length_overwrite idx v rows : length (overwrite idx v rows) = length rows.
Proof. apply length_imap. Qed.

Lemma lookup_overwrite idx v rows i :
  overwrite idx v rows !! i
  = (λ old, if bool_decide (i ∈ idx) then replicate (length old) v else old) <$> rows !! i.
Proof. apply list_lookup_imap. Qed.

Lemma overwrite_nil v rows : overwrite [] v rows = rows.
Proof.
  apply list_eq. intros i. rewrite lookup_overwrite.
  destruct (rows !! i); [|done]. cbn. rewrite bool_decide_eq_false_2; [done|].
  apply not_elem_of_nil.
Qed.

Lemma overwrite_cons i idx v rows old :
  rows !! i = Some old →
  overwrite idx v (<[i := replicate (length old) v]> rows) = overwrite (i :: idx) v rows.
Proof.
  intros Hi. apply list_eq. intros j. rewrite !lookup_overwrite.
  destruct (decide (i = j)) as [<-|Hne].
  - rewrite list_lookup_insert_eq by (by eapply lookup_lt_Some).
    rewrite Hi. cbn. rewrite length_replicate.
    rewrite (bool_decide_eq_true_2 (i ∈ i :: idx)) by apply list_elem_of_here.
    by destruct (bool_decide (i ∈ idx)).
  - rewrite list_lookup_insert_ne by done.
    destruct (rows !! j); [|done]. cbn. f_equal.
    destruct (decide (j ∈ idx)) as [Hj|Hj].
    + rewrite !bool_decide_eq_true_2; [done| by apply list_elem_of_further | done].
    + rewrite !bool_decide_eq_false_2; [done| | done].
      intros [?|?]%elem_of_cons; congruence.
Qed.

(** [for index in idx: var.data[index] = v] *)
Lemma for_enum_set_scalar var v idx : ∀ k rows s,
  heap s !! var = Some (FloatArr rows) → in_range (length rows) idx = true →
  for_enum k idx (λ _ index, set_scalar var index v) s
  = Ok tt (with_rows s var (overwrite idx v rows) (map (λ _, Write var) idx)).
Proof.
  induction idx as [|i idx IH]; intros k rows s Hh Hin.
  - cbn. rewrite overwrite_nil. by rewrite with_rows_same.
  - cbn in Hin. apply andb_true_iff in Hin as [Hi Hin].
    apply Nat.ltb_lt in Hi. destruct (lookup_lt_is_Some_2 rows i Hi) as [old Hold].
    cbn [for_enum]. unfold bind at 1. rewrite (set_scalar_ok _ _ _ _ _ _ Hh Hold).
    rewrite (IH _ (<[i := replicate (length old) v]> rows)).
    + rewrite with_rows_twice. by rewrite (overwrite_cons _ _ _ _ _ Hold).
    + apply with_rows_heap.
    + by rewrite length_insert.
Qed.

Lemma insert_middle {A} (pre post : list A) (x y : A) (k : nat) :
  length pre = k → <[k := x]> (pre ++ y :: post) = pre ++ x :: post.
Proof.
  intros <-. rewrite insert_app_r_alt by lia. by rewrite Nat.sub_diag.
Qed.

Lemma fresh_rows_width (name : string) (n dof : nat) :
  Forall (λ r, length r = dof) (fresh_rows L name n dof).
Proof.
  unfold fresh_rows. apply Forall_forall. intros r Hr.
  apply list_elem_of_In, in_map_iff in Hr as (i & <- & _).
  by rewrite length_map, length_seq.
Qed.

Lemma fresh_rows_length (name : string) (n dof : nat) :
  length (fresh_rows L name n dof) = n.
Proof. unfold fresh_rows. by rewrite length_map, length_seq. Qed.

Lemma fill_row_ok (var : string) (row : list float) (rows : list (list float)) (s : State L) :
  heap s !! var = Some (FloatArr rows) →
  Forall (λ old, length old = length row) rows →
  fill_row var row s = Ok tt (with_rows s var (map (λ _, row) rows) [Write var]).
Proof.
  intros Hh Hw. unfold fill_row, bind, get_rows. rewrite Hh. cbn.
  assert (forallb (λ old, length row =? length old) rows = true) as ->; [|done].
  apply forallb_forall. intros old Hold. apply Nat.eqb_eq.
  symmetry. eapply Forall_forall in Hw; [exact Hw|]. by apply list_elem_of_In.
Qed.

Lemma for_each_set_scalar (var : string) (v : float) (idx : IndexSet)
    (rows : list (list float)) (s : State L) :
  heap s !! var = Some (FloatArr rows) → in_range (length rows) idx = true →
  for_each idx (λ index, set_scalar var index v) s
  = Ok tt (with_rows s var (overwrite idx v rows) (map (λ _, Write var) idx)).
Proof. apply for_enum_set_scalar. Qed.

End ArrayLemmas.

Ltac heap_lookup :=
  cbn [heap hidden trace with_rows emitting];
  repeat first [ rewrite lookup_insert_eq | rewrite lookup_insert_ne by done ].


(** ** Thermal convection: the time-stepping loop *)

Section ConvectionLoop.
Context (L : Library).
Import Convection.

Lemma update_spec (time : float) (step : Z) (s : State L) :
    ∃ dt s',
      update L time step s = Ok ((time + dt)%float, (step + 1)%Z) s'
      ∧ trace s' = trace s ++ [Call "advDiff" "get_max_dt" [] (Some dt);
                               Call "advDiff" "integrate" [dt] None].
Proof.
    eexists _, _. split; [reflexivity|].
    cbn. by rewrite <- app_assoc.
Qed.

Lemma loop_body_spec (v : float * Z) (s : State L) :
    ∃ dt s',
      loop_body L v s = Ok ((v.1 + dt)%float, (v.2 + 1)%Z) s'
      ∧ trace s' = trace s ++ iteration_events dt.
Proof.
    eexists _, _. split; [reflexivity|].
    cbn. by rewrite <- !app_assoc.
Qed.

(** From a state that still has [n] steps to go, the loop runs exactly
      [n] more passes. *)
Lemma loop_from (n extra : nat) : ∀ (time : float) (step : Z) (s : State L),
    step = (steps_end - Z.of_nat n)%Z →
    ∃ dts s',
      length dts = n
      ∧ while (λ v, (v.2 <? steps_end)%Z) (loop_body L) (n + extra) (time, step) s
        = Ok (fold_left PrimFloat.add dts time, steps_end) s'
      ∧ trace s' = trace s ++ flat_map iteration_events dts.
Proof.
    induction n as [|n IH]; intros time step s Hstep.
    - exists [], s. split; [done|]. split; [|by rewrite app_nil_r].
      replace step with steps_end by lia.
      destruct extra; reflexivity.
    - destruct (loop_body_spec (time, step) s) as (dt & s1 & Hbody & Htr1).
      destruct (IH (time + dt)%float (step + 1)%Z s1) as (dts & s' & Hlen & Hrun & Htr);
        [lia|].
      exists (dt :: dts), s'. split; [simpl; by rewrite Hlen|]. split.
      + change (S n + extra)%nat with (S (n + extra)).
        cbn [while]. cbn [snd].
        assert ((step <? steps_end)%Z = true) as -> by (apply Z.ltb_lt; lia).
        unfold bind at 1. rewrite Hbody. exact Hrun.
      + rewrite Htr, Htr1. cbn [flat_map]. by rewrite <- app_assoc.
Qed.

Lemma loop_needs_fuel (n : nat) : ∀ (fuel : nat) (time : float) (step : Z) (s : State L),
    step = (steps_end - Z.of_nat n)%Z → (fuel < n)%nat →
    ∃ s', while (λ v, (v.2 <? steps_end)%Z) (loop_body L) fuel (time, step) s = Timeout s'.
Proof.
    induction n as [|n IH]; intros fuel time step s Hstep Hfuel; [lia|].
    assert ((step <? steps_end)%Z = true) as Hlt by (apply Z.ltb_lt; lia).
    destruct fuel as [|fuel]; cbn [while snd]; rewrite Hlt; [by eexists|].
    destruct (loop_body_spec (time, step) s) as (dt & s1 & Hbody & _).
    unfold bind at 1. rewrite Hbody. apply IH; [cbn [fst snd]; lia | lia].
Qed.

(** C1.  Started with [time = 0.0], [step = 0] and [steps_end = 20], the
      loop of the thermal convection notebook terminates after exactly 20
      passes (with less fuel than 20 passes it is still running).  Every
      pass calls [solver.solve()], then [update()], which asks
      [advDiff.get_max_dt()] for [dt], integrates with it, adds 1 to
      [step] and [dt] to [time].  On exit [step = 20] and [time] is the
      running binary64 sum of the 20 values of [dt]. *)
Theorem convection_loop_runs_20_steps (s : State L) (extra : nat) :
    (∀ time step s0, ∃ dt s1,
        update L time step s0 = Ok ((time + dt)%float, (step + 1)%Z) s1
        ∧ trace s1 = trace s0 ++ [Call "advDiff" "get_max_dt" [] (Some dt);
                                  Call "advDiff" "integrate" [dt] None])
    ∧ (∃ dts s',
        length dts = 20%nat
        ∧ time_stepping L (20 + extra) s
          = Ok (fold_left PrimFloat.add dts 0%float, 20%Z) s'
        ∧ trace s' = trace s ++ flat_map iteration_events dts)
    ∧ (∀ fuel, (fuel < 20)%nat → ∃ s', time_stepping L fuel s = Timeout s').
Proof.
    split; [apply update_spec|]. split.
    - apply (loop_from 20 extra 0%float 0%Z s). reflexivity.
    - intros fuel Hfuel. apply (loop_needs_fuel 20); [reflexivity|done].
Qed.

End ConvectionLoop.

(** ** Binary64 order facts *)

Lemma float_ltb_leb (x y : float) : (x <? y)%float = true → (x <=? y)%float = true.
Proof.
  rewrite ltb_spec, leb_spec. unfold SFltb, SFleb.
  destruct (SFcompare _ _) as [[]|]; congruence.
Qed.

(** ** Thermal convection: the initial temperature *)

Section ConvectionTemperature.
Context (L : Library) (cos sin : float → float).
Import Convection.

Abbreviation T := "temperatureField"%string.

Lemma clamp_in_bounds (t : float) : in_bounds (clamp t).
Proof.
  unfold in_bounds, clamp, Py.max, Py.min, tempMin, tempMax.
  destruct (t <? 1)%float eqn:H1.
  - destruct (0 <? t)%float eqn:H0.
    + split; by apply float_ltb_leb.
    + split; reflexivity.
  - split; reflexivity.
Qed.

Lemma init_temperature_from (xs : list (float * float)) :
  ∀ (k : nat) (pre post : list (list float)) (s : State L),
    length pre = k → length post = length xs →
    Forall (λ r, length r = 1) post →
    heap s !! T = Some (FloatArr (pre ++ post)) →
    forallb (λ coord, negb (Py.trig_domain_error (pi * coord.1)
                            || Py.trig_domain_error (pi * coord.2))%float) xs = true →
    for_enum k xs (λ index coord,
      if Py.trig_domain_error (pi * coord.1) || Py.trig_domain_error (pi * coord.2)
      then raise Py.ValueError
      else
        set_scalar T index (initial_temperature cos sin coord) ;;;
        let! t := get_scalar T index in
        set_scalar T index (clamp t)) s
    = Ok tt (with_rows s T
               (pre ++ map (λ c, [clamp (initial_temperature cos sin c)]) xs)
               (flat_map (λ _, [Write T; Write T]) xs)).
Proof.
  induction xs as [|c xs IH]; intros k pre post s Hk Hlen Hw Hh Hdom.
  - destruct post; [|done]. rewrite app_nil_r in Hh. cbn.
    rewrite app_nil_r. by rewrite with_rows_same.
  - destruct post as [|r post]; [done|].
    apply Forall_cons in Hw as [Hr Hw].
    destruct r as [|old [|]]; try done.
    cbn [forallb] in Hdom. apply andb_true_iff in Hdom as [Hc Hdom].
    apply negb_true_iff in Hc.
    assert ((pre ++ [old] :: post) !! k = Some [old]) as Hold
        by (by apply list_lookup_middle).
    cbn [for_enum]. unfold bind at 1. rewrite Hc. unfold bind at 1.
    rewrite (set_scalar_ok _ _ _ _ _ _ Hh Hold).
    rewrite (insert_middle _ _ _ _ _ Hk). cbn [length replicate].
    unfold bind at 1.
    rewrite (get_scalar_ok T k (initial_temperature cos sin c)
               (pre ++ [initial_temperature cos sin c] :: post));
      [|apply with_rows_heap|by apply list_lookup_middle].
    rewrite (set_scalar_ok T k _ (pre ++ [initial_temperature cos sin c] :: post)
               [initial_temperature cos sin c]);
      [|apply with_rows_heap|by apply list_lookup_middle].
    rewrite (insert_middle _ _ _ _ _ Hk). cbn [length replicate].
    rewrite with_rows_twice.
    rewrite (IH (S k) (pre ++ [[clamp (initial_temperature cos sin c)]]) post).
    + rewrite with_rows_twice. by rewrite <- !app_assoc.
    + rewrite length_app. cbn. lia.
    + cbn in Hlen. lia.
    + done.
    + rewrite with_rows_heap. by rewrite <- app_assoc.
    + exact Hdom.
Qed.

Lemma create_mesh_spec (s : State L) :
  ∃ s1, create_mesh L s = Ok (mesh L) s1
        ∧ heap s1 !! T = Some (FloatArr (fresh_rows L T (length (data (mesh L))) 1))
        ∧ hidden s1 = hidden s
        ∧ trace s1 = trace s ++ create_mesh_events.
Proof.
  unfold create_mesh.
  unfold bind at 1. unfold construct at 1, emit. cbv beta iota.
  do 4 (unfold bind at 1; unfold add_variable at 1; cbv beta iota).
  unfold bind at 1. erewrite fill_row_ok;
    [|heap_lookup; reflexivity|apply fresh_rows_width].
  cbv beta iota.
  unfold bind at 1. erewrite fill_ok; [|heap_lookup; reflexivity]. cbv beta iota.
  unfold bind at 1. erewrite fill_ok; [|heap_lookup; reflexivity]. cbv beta iota.
  eexists. split; [reflexivity|]. split; [|split].
  - heap_lookup. reflexivity.
  - reflexivity.
  - cbn. by rewrite <- !app_assoc.
Qed.

Lemma initial_conditions_spec (s : State L) :
  coords_in_domain (mesh L) = true →
  ∃ s1, initial_conditions L cos sin s = Ok (mesh L) s1
        ∧ heap s1 !! T = Some (FloatArr (initial_rows L cos sin))
        ∧ hidden s1 = hidden s
        ∧ trace s1 = trace s ++ initial_conditions_events L.
Proof.
  intros Hdom.
  destruct (create_mesh_spec s) as (s1 & Hrun & Hh & Hhid & Htr).
  unfold initial_conditions. unfold bind at 1. rewrite Hrun.
  unfold create_functions, construct, emit.
  unfold bind at 1. unfold bind at 1. cbv beta iota.
  unfold bind at 1. unfold init_temperature.
  erewrite (init_temperature_from (data (mesh L)) 0 [] (fresh_rows L T _ 1));
    [|done|apply fresh_rows_length|apply fresh_rows_width|cbn; exact Hh|exact Hdom].
  cbv beta iota. eexists. split; [reflexivity|]. split; [|split].
  - heap_lookup. reflexivity.
  - cbn. done.
  - cbn. rewrite Htr. unfold initial_conditions_events.
    rewrite <- !app_assoc. reflexivity.
Qed.

Lemma set_walls_spec (rows : list (list float)) (s : State L) :
  heap s !! T = Some (FloatArr rows) → length rows = length (data (mesh L)) →
  mesh_ok (mesh L) = true →
  set_walls L (mesh L) s
  = Ok (the_walls L)
       (with_rows s T
          (overwrite (MaxJ_VertexSet (mesh L)) tempMin
             (overwrite (MinJ_VertexSet (mesh L)) tempMax rows))
          (wall_events L)).
Proof.
  intros Hh Hlen Hok. unfold mesh_ok in Hok.
  apply andb_true_iff in Hok as [Hok Htop].
  apply andb_true_iff in Hok as [_ Hbot].
  unfold set_walls. unfold special_set, specialSets. cbn [String.eqb Ascii.eqb Bool.eqb orb].
  unfold bind at 1. unfold ret at 1.
  unfold bind at 1. unfold ret at 1.
  unfold bind at 1. unfold ret at 1.
  unfold bind at 1. unfold ret at 1.
  unfold bind at 1.
  rewrite (for_each_set_scalar T tempMax _ rows); [|done|by rewrite Hlen].
  unfold bind at 1.
  rewrite (for_each_set_scalar T tempMin _ (overwrite (MinJ_VertexSet (mesh L)) tempMax rows));
    [|apply with_rows_heap|by rewrite length_overwrite, Hlen].
  rewrite with_rows_twice. reflexivity.
Qed.

Lemma overwrite_bounded (idx : IndexSet) (v : float) (rows : list (list float)) :
  in_bounds v →
  (∀ i, i < length rows → ∃ x, rows !! i = Some [x] ∧ in_bounds x) →
  ∀ i, i < length (overwrite idx v rows) →
       ∃ x, overwrite idx v rows !! i = Some [x] ∧ in_bounds x.
Proof.
  intros Hv Hrows i Hi. rewrite length_overwrite in Hi.
  destruct (Hrows i Hi) as (x & Hx & Hb).
  rewrite lookup_overwrite, Hx. cbn.
  destruct (bool_decide (i ∈ idx)); eauto.
Qed.

(** C8.  On a mesh whose wall sets name nodes of the mesh, when the
    temperature initialisation loop of the thermal convection notebook
    has run, the value at every node lies in
    [[tempMin, tempMax] = [0.0, 1.0]]: each node received
    [max(tempMin, min(tempMax, .))] of the perturbed profile, whatever
    [math.cos] and [math.sin] return on the node coordinates (none of
    which sends them out of their domain).  Setting [tempMax] on the bottom wall
    and [tempMin] on the top wall keeps every node in the interval. *)
Theorem temperature_stays_in_bounds (s : State L) :
  mesh_ok (mesh L) = true →
  coords_in_domain (mesh L) = true →
  ∃ s1 s2 walls,
    initial_conditions L cos sin s = Ok (mesh L) s1
    ∧ bounded_temperature L s1
    ∧ set_walls L (mesh L) s1 = Ok walls s2
    ∧ bounded_temperature L s2.
Proof.
  intros Hok Hdom.
  destruct (initial_conditions_spec s Hdom) as (s1 & Hrun & Hh & _ & _).
  assert (length (initial_rows L cos sin) = length (data (mesh L))) as Hlen
      by (unfold initial_rows; by rewrite length_map).
  assert (∀ i, i < length (initial_rows L cos sin) →
               ∃ x, initial_rows L cos sin !! i = Some [x] ∧ in_bounds x) as Hinit.
  { intros i Hi. unfold initial_rows in *. rewrite length_map in Hi.
    destruct (lookup_lt_is_Some_2 _ _ Hi) as [c Hc].
    eexists. split; [|apply clamp_in_bounds].
    rewrite list_lookup_fmap, Hc. reflexivity. }
  eexists s1, _, _. split; [exact Hrun|]. split; [|split].
  - exists (initial_rows L cos sin). done.
  - by apply (set_walls_spec (initial_rows L cos sin)).
  - eexists. split; [apply with_rows_heap|]. split.
    + by rewrite !length_overwrite.
    + apply overwrite_bounded; [done|]. apply overwrite_bounded; [done|]. exact Hinit.
Qed.

End ConvectionTemperature.

Section ConvectionTemperatureExample.
Import Convection.

(** The theorem at work: the reference library on its 32 x 16 grid, a
    script that always answers 0.5, and stand-ins for cosine and sine. *)
Lemma temperature_stays_in_bounds_witness :
  mesh_ok (mesh demo_library) = true
  ∧ coords_in_domain (mesh demo_library) = true
  ∧ ∃ s1 s2 walls,
      initial_conditions demo_library (λ x, x) (λ x, (x * x)%float) (demo_state (λ _, 0.5%float))
      = Ok (mesh demo_library) s1
      ∧ bounded_temperature demo_library s1
      ∧ set_walls demo_library (mesh demo_library) s1 = Ok walls s2
      ∧ bounded_temperature demo_library s2.
Proof.
  split; [vm_compute; reflexivity|].
  split; [vm_compute; reflexivity|].
  apply (temperature_stays_in_bounds demo_library (λ x, x) (λ x, (x * x)%float)).
  - vm_compute. reflexivity.
  - vm_compute. reflexivity.
Defined.

End ConvectionTemperatureExample.

(** ** Rayleigh-Taylor: the material index *)

Section RayleighTaylorMaterial.
Context (L : Library) (cosine : float → float).
Import RayleighTaylor.

Lemma conditional_spec (x y : float) :
  Fn.conditional cosine conditions [x; y] = Some (material_at cosine [x; y]).
Proof.
  cbn. destruct (_ <? _)%float; reflexivity.
Qed.

Lemma evaluate_spec (particles : list (list float)) :
  Forall (λ pos, length pos = 2) particles →
  Fn.evaluate cosine conditions particles = Some (map (material_at cosine) particles).
Proof.
  induction 1 as [|pos particles Hpos _ IH]; [done|].
  destruct pos as [|x [|y [|]]]; try done.
  cbn [Fn.evaluate]. rewrite conditional_spec, IH. reflexivity.
Qed.

Lemma material_at_values (pos : list float) :
  material_at cosine pos = denseIndex ∨ material_at cosine pos = lightIndex.
Proof.
  destruct pos as [|x [|y [|]]]; cbn; auto.
  destruct (_ <? _)%float; auto.
Qed.

(** C4.  Once the Rayleigh-Taylor notebook has evaluated its branching
    conditional over the swarm and stored the result, the material index
    of every particle at [(x, y)] is [lightIndex = 1] when
    [offset + amplitude * cos(k * x)] is strictly greater than [y], and
    [denseIndex = 0] otherwise; so every index is 0 or 1. *)
Theorem material_index_follows_perturbation
    (s : State L) (particles : list (list float)) (old : list (list Z)) :
  heap s !! "swarm.particleCoordinates" = Some (FloatArr particles) →
  Forall (λ pos, length pos = 2) particles →
  heap s !! "materialIndex" = Some (IntArr old) →
  length old = length particles →
  ∃ s' rows,
    init_material L cosine s = Ok tt s'
    ∧ heap s' !! "materialIndex" = Some (IntArr rows)
    ∧ length rows = length particles
    ∧ (∀ p x y, particles !! p = Some [x; y] →
         rows !! p
         = Some [if (y <? offset + amplitude * cosine (k * x))%float
                 then lightIndex else denseIndex])
    ∧ (∀ p row, rows !! p = Some row → row = [0%Z] ∨ row = [1%Z]).
Proof.
  intros Hp Hshape Hm Hlen.
  exists (mkState (<["materialIndex" := IntArr (map (λ v, [v]) (map (material_at cosine) particles))]>
                    (heap s)) (hidden s) (trace s ++ [Write "materialIndex"])).
  eexists. split; [|split; [apply lookup_insert_eq|split; [|split]]].
  - unfold init_material, bind, get_rows. rewrite Hp.
    rewrite (evaluate_spec _ Hshape).
    unfold store_ints, bind, get_int_rows. rewrite Hm.
    rewrite length_map, Hlen, Nat.eqb_refl. reflexivity.
  - by rewrite !length_map.
  - intros p x y Hpos. rewrite !list_lookup_fmap, Hpos. reflexivity.
  - intros p row Hrow. rewrite !list_lookup_fmap in Hrow.
    destruct (particles !! p) as [pos|]; [|done]. cbn in Hrow.
    injection Hrow as <-.
    destruct (material_at_values pos) as [-> | ->]; auto.
Qed.

End RayleighTaylorMaterial.

Section RayleighTaylorMaterialExample.
Import RayleighTaylor.

(** The theorem on a swarm of three particles. *)
Lemma material_index_follows_perturbation_witness :
  ∃ s' rows,
    init_material demo_library (λ x, x) three_particles = Ok tt s'
    ∧ heap s' !! "materialIndex" = Some (IntArr rows)
    ∧ length rows = 3
    ∧ (∀ p x y, [[0.1; 0.1]; [0.5; 0.9]; [0.3; 0.21]]%float !! p = Some [x; y] →
         rows !! p
         = Some [if (y <? offset + amplitude * (k * x))%float
                 then lightIndex else denseIndex])
    ∧ (∀ p row, rows !! p = Some row → row = [0%Z] ∨ row = [1%Z]).
Proof.
  apply (material_index_follows_perturbation demo_library (λ x, x) three_particles
           [[0.1; 0.1]; [0.5; 0.9]; [0.3; 0.21]]%float [[7]; [7]; [7]]%Z).
  - reflexivity.
  - repeat constructor.
  - reflexivity.
  - reflexivity.
Defined.

End RayleighTaylorMaterialExample.

(** ** Rayleigh-Taylor: the time-stepping loop *)

Section RayleighTaylorLoop.
Context (L : Library) (uw_longtest : bool) (rank : nat).
Import RayleighTaylor.

(** One pass: [time] becomes the binary64 sum [time + dt] for the [dt]
    that [get_max_dt()] returned in this pass, and [step] grows by 1. *)
Lemma rt_update_spec (time : float) (step : Z) (s : State L) :
  ∃ dt s',
    update L time step s = Ok ((time + dt)%float, (step + 1)%Z) s'
    ∧ trace s' = trace s ++ [Call "advector" "get_max_dt" [] (Some dt);
                             Call "advector" "integrate" [dt] None].
Proof.
  unfold update. call_step. call_step.
  eexists _, _. split; [reflexivity|].
  rewrite Htrace0, Htrace. by rewrite <- app_assoc.
Qed.

Lemma rt_save_fields_spec (s : State L) :
  ∃ s' evs, save_fields L s = Ok tt s' ∧ trace s' = trace s ++ evs ∧ max_dts evs = [].
Proof.
  unfold save_fields. do 4 call_step.
  eexists _, _. split; [reflexivity|]. cbn.
  rewrite Htrace2, Htrace1, Htrace0, Htrace. rewrite <- !app_assoc.
  split; reflexivity.
Qed.

Lemma rt_loop_body_spec (v : Vars) (s : State L) :
  ∃ dt v' s' evs,
    loop_body L rank v s = Ok v' s'
    ∧ time v' = (time v + dt)%float
    ∧ step v' = (step v + 1)%Z
    ∧ trace s' = trace s ++ evs
    ∧ max_dts evs = [dt].
Proof.
  unfold loop_body. call_step. call_step.
  assert (∃ s2 evs, (if (step v mod outputEvery =? 0)%Z then save_fields L else ret tt) s1
                    = Ok tt s2 ∧ trace s2 = trace s1 ++ evs ∧ max_dts evs = [])
    as (s2 & evs & Hsave & Htr2 & Hevs).
  { destruct (_ =? _)%Z; [apply rt_save_fields_spec|].
    exists s1, []. by rewrite app_nil_r. }
  unfold bind at 1. rewrite Hsave.
  destruct (rt_update_spec (time v) (step v) s2) as (dt & s3 & Hup & Htr3).
  unfold bind at 1. rewrite Hup.
  eexists dt, _, s3, _. split; [reflexivity|]. cbn.
  split; [reflexivity|]. split; [reflexivity|]. split.
  - rewrite Htr3, Htr2, Htrace0, Htrace. rewrite <- !app_assoc. reflexivity.
  - unfold max_dts in *. rewrite !flat_map_app, Hevs. reflexivity.
Qed.

Lemma rt_max_dts_app (t1 t2 : list event) : max_dts (t1 ++ t2) = max_dts t1 ++ max_dts t2.
Proof. apply flat_map_app. Qed.

Lemma rt_while_done (v : Vars) (s : State L) (fuel : nat) :
  running uw_longtest v = false →
  while (running uw_longtest) (loop_body L rank) fuel v s = Ok v s.
Proof. intros H. destruct fuel; cbn [while]; by rewrite H. Qed.

Lemma rt_loop_reaches_end (n : nat) : ∀ (v vn : Vars) (s sn : State L),
  passes L rank n v s = Ok vn sn →
  running uw_longtest vn = false →
  ∃ m, m ≤ n ∧ ∀ extra, ∃ v' s' evs,
    while (running uw_longtest) (loop_body L rank) (m + extra) v s = Ok v' s'
    ∧ running uw_longtest v' = false
    ∧ step v' = (step v + Z.of_nat m)%Z
    ∧ trace s' = trace s ++ evs
    ∧ length (max_dts evs) = m
    ∧ time v' = fold_left PrimFloat.add (max_dts evs) (time v).
Proof.
  induction n as [|n IH]; intros v vn s sn Hpass Hstop.
  - injection Hpass as <- <-. exists 0. split; [done|]. intros extra.
    exists v, s, []. rewrite rt_while_done by done.
    rewrite app_nil_r, Z.add_0_r. done.
  - destruct (running uw_longtest v) eqn:Hrun.
    + destruct (rt_loop_body_spec v s) as (dt & v1 & s1 & evs1 & Hbody & Ht & Hs & Htr & Hdt).
      cbn [passes] in Hpass. unfold bind at 1 in Hpass. rewrite Hbody in Hpass.
      destruct (IH v1 vn s1 sn Hpass Hstop) as (m & Hm & Hloop).
      exists (S m). split; [lia|]. intros extra.
      destruct (Hloop extra) as (v' & s' & evs & Hw & Hstop' & Hstep & Htr' & Hlen & Htime).
      exists v', s', (evs1 ++ evs).
      change (S m + extra) with (S (m + extra)). cbn [while]. rewrite Hrun.
      unfold bind at 1. rewrite Hbody. split; [exact Hw|]. split; [done|].
      split; [lia|]. split; [by rewrite Htr', Htr, app_assoc|].
      rewrite rt_max_dts_app, Hdt. cbn. split; [by rewrite Hlen|]. by rewrite Htime, Ht.
    + exists 0. split; [lia|]. intros extra.
      exists v, s, []. rewrite rt_while_done by done.
      rewrite app_nil_r, Z.add_0_r. done.
Qed.

End RayleighTaylorLoop.

(** ** Binary64 numbers in order: how [<] counts *)

Lemma digits2_pos_bounds (m : positive) :
  (2 ^ (Zpos (digits2_pos m) - 1) ≤ Zpos m < 2 ^ Zpos (digits2_pos m))%Z.
Proof.
  induction m as [p IH|p IH|]; cbn [digits2_pos].
  - rewrite Pos2Z.inj_succ. replace (Z.succ (Zpos (digits2_pos p)) - 1)%Z
      with (Z.succ (Zpos (digits2_pos p) - 1))%Z by lia.
    rewrite !Z.pow_succ_r by lia. lia.
  - rewrite Pos2Z.inj_succ. replace (Z.succ (Zpos (digits2_pos p)) - 1)%Z
      with (Z.succ (Zpos (digits2_pos p) - 1))%Z by lia.
    rewrite !Z.pow_succ_r by lia. lia.
  - cbn. lia.
Qed.

(** What [Prim2SF_valid] says of a finite number. *)
Lemma finite_bounds (x : float) (s : bool) (m : positive) (e : Z) :
  Prim2SF x = S754_finite s m e →
  (-1074 ≤ e ≤ 971 ∧ Zpos m < 2 ^ 53 ∧ (-1074 < e → 2 ^ 52 ≤ Zpos m))%Z.
Proof.
  intros Hx. pose proof (Prim2SF_valid x) as Hv. rewrite Hx in Hv.
  unfold valid_binary, bounded, canonical_mantissa, fexp, emin in Hv.
  apply andb_true_iff in Hv as [Hc He].
  apply Z.eqb_eq in Hc. apply Z.leb_le in He.
  change prec with 53%Z in *. change emax with 1024%Z in *.
  unfold fexp, emin in Hc.
  pose proof (digits2_pos_bounds m) as [Hlo Hhi].
  set (d := Zpos (digits2_pos m)) in *.
  assert (0 < d)%Z by (unfold d; lia).
  split; [lia|]. split.
  - assert (d ≤ 53)%Z by lia.
    eapply Z.lt_le_trans; [exact Hhi|]. apply Z.pow_le_mono_r; lia.
  - intros Hn. assert (d = 53)%Z as Hd by lia. rewrite Hd in Hlo. exact Hlo.
Qed.

Lemma ltb_ordinal (x y : float) :
  nonneg x → (x <? y)%float = true → nonneg y ∧ (ordinal x < ordinal y)%Z.
Proof.
  unfold nonneg, ordinal. rewrite ltb_spec. unfold SFltb, SFcompare.
  change (2 ^ 52)%Z with 4503599627370496%Z.
  destruct (Prim2SF x) as [sx|[]| |[] mx ex] eqn:Hx;
    destruct (Prim2SF y) as [sy|[]| |[] my ey] eqn:Hy;
    try done; intros _ Hlt; try discriminate; (split; [exact I|]);
    try (destruct (finite_bounds x _ _ _ Hx) as (Hex & Hmx & _));
    try (destruct (finite_bounds y _ _ _ Hy) as (Hey & Hmy & Hny));
    change (2 ^ 53)%Z with 9007199254740992%Z in *;
    change (2 ^ 52)%Z with 4503599627370496%Z in *;
    try lia.
  destruct (Z.compare_spec ex ey) as [->|Hlt'|Hgt]; try discriminate.
  - change (Pos.compare_cont Eq mx my) with (Pos.compare mx my) in Hlt.
    destruct (Pos.compare_spec mx my); try discriminate. lia.
  - specialize (Hny ltac:(lia)). lia.
Qed.

Section RayleighTaylorProgress.
Context (L : Library) (uw_longtest : bool) (rank : nat).
Import RayleighTaylor RayleighTaylorRun.

Lemma end_time_ordinal :
  (0 ≤ ordinal (model_end_time uw_longtest))%Z.
Proof. destruct uw_longtest; vm_compute; discriminate. Qed.

Lemma rt_clock_runs_out (s0 : State L) :
  (∀ k v sk v' s',
      reached L uw_longtest rank s0 k v sk → running uw_longtest v = true →
      loop_body L rank v sk = Ok v' s' → (time v <? time v')%float = true) →
  ∀ (d k : nat) (v : Vars) (sk : State L),
    reached L uw_longtest rank s0 k v sk →
    nonneg (time v) →
    (ordinal (model_end_time uw_longtest) - ordinal (time v) ≤ Z.of_nat d)%Z →
    ∃ n vn sn, n ≤ d ∧ passes L rank n v sk = Ok vn sn
               ∧ running uw_longtest vn = false.
Proof.
  intros Hinc d. induction d as [|d IH]; intros k v sk Hreach Hpos Hd.
  - destruct (running uw_longtest v) eqn:Hrun.
    + destruct (ltb_ordinal _ _ Hpos Hrun) as [_ Hlt]. lia.
    + exists 0, v, sk. done.
  - destruct (running uw_longtest v) eqn:Hrun; [|by exists 0, v, sk; split; [lia|]].
    destruct (rt_loop_body_spec L rank v sk) as (dt & v' & s' & evs & Hbody & _).
    pose proof (Hinc k v sk v' s' Hreach Hrun Hbody) as Hup.
    destruct (ltb_ordinal _ _ Hpos Hup) as [Hpos' Hlt].
    destruct (IH (S k) v' s') as (n & vn & sn & Hn & Hpass & Hstop).
    + by eapply reached_pass.
    + exact Hpos'.
    + lia.
    + exists (S n), vn, sn. split; [lia|]. split; [|exact Hstop].
      cbn [passes]. unfold bind at 1. by rewrite Hbody.
Qed.

(** C5, as the code has it.  In every pass of the Rayleigh-Taylor loop
    [time] becomes the binary64 sum [time + dt] for the [dt] returned in
    that pass and [step] grows by exactly 1.  In every execution in which
    each of these additions strictly increases [time], the loop
    terminates: binary64 has only so many numbers between 0 and
    [model_end_time], and the clock passes one at least in every pass.
    At the end [step] is the number of passes made and [time] the running
    binary64 sum of the returned [dt]. *)
Theorem rt_loop_ends_while_time_increases (s : State L) :
  (∀ k v sk v' s',
      reached L uw_longtest rank s k v sk → running uw_longtest v = true →
      loop_body L rank v sk = Ok v' s' → (time v <? time v')%float = true) →
  (∀ v s0, ∃ dt v' s' evs,
      loop_body L rank v s0 = Ok v' s'
      ∧ time v' = (time v + dt)%float
      ∧ step v' = (step v + 1)%Z
      ∧ trace s' = trace s0 ++ evs
      ∧ max_dts evs = [dt])
  ∧ ∃ m, (Z.of_nat m ≤ ordinal (model_end_time uw_longtest))%Z
         ∧ ∀ extra, ∃ v' s' evs,
             time_stepping L uw_longtest rank (m + extra) s = Ok v' s'
             ∧ running uw_longtest v' = false
             ∧ step v' = Z.of_nat m
             ∧ trace s' = trace s ++ evs
             ∧ length (max_dts evs) = m
             ∧ time v' = fold_left PrimFloat.add (max_dts evs) 0%float.
Proof.
  intros Hinc. split; [apply rt_loop_body_spec|].
  pose proof end_time_ordinal as Hend.
  destruct (rt_clock_runs_out s Hinc (Z.to_nat (ordinal (model_end_time uw_longtest)))
              0 start s) as (n & vn & sn & Hn & Hpass & Hstop).
  - constructor.
  - vm_compute. exact I.
  - change (ordinal (time start)) with 0%Z. lia.
  - destruct (rt_loop_reaches_end L uw_longtest rank n start vn s sn Hpass Hstop)
      as (m & Hm & Hloop).
    exists m. split; [lia|]. intros extra.
    destruct (Hloop extra) as (v' & s' & evs & H).
    exists v', s', evs. exact H.
Qed.

End RayleighTaylorProgress.

Section RayleighTaylorProgressExample.
Import RayleighTaylor RayleighTaylorRun.

(** A pass on the reference library: the clock advances by the second of
    the two floats the script hands out in the pass. *)
Lemma scripted_pass_time (script : nat → float) (rank : nat) (v : Vars)
    (s : State (scripted_library script)) :
  ∃ v' s', loop_body (scripted_library script) rank v s = Ok v' s'
           ∧ time v' = (time v + script (S (hidden s)))%float.
Proof.
  unfold loop_body, update.
  rewrite scripted_call_unit, scripted_call_float. cbn [hidden heap trace].
  assert (∃ tr, (if (step v mod outputEvery =? 0)%Z
                 then save_fields (scripted_library script) else ret tt)
                  (mkState (L:=scripted_library script) (heap s) (S (hidden s))
                           (trace s ++ [Call "solver" "solve" [] None]
                            ++ [Call "stokes" "velocity_rms" []
                                     (Some (script (hidden s)))]))
                = Ok tt (mkState (L:=scripted_library script)
                                 (heap s) (S (hidden s)) tr)) as [tr Hsave].
  { destruct (_ =? _)%Z; [|by eexists]. unfold save_fields.
    rewrite !scripted_call_unit. cbn [hidden heap trace]. unfold call_unit. cbn. by eexists. }
  rewrite <- app_assoc. unfold bind at 1. rewrite Hsave.
  unfold bind at 1. rewrite scripted_call_float. cbn [hidden heap trace].
  rewrite scripted_call_unit. cbn [hidden heap trace fst snd time].
  eexists _, _. split; reflexivity.
Qed.

(** With every time step 2.0 the loop tests its guard at 0.0 and at 2.0,
    and leaves at 4.0. *)
Lemma reached_by_twos (k : nat) (v : Vars) (sk : State (scripted_library (λ _, 2.0%float))) :
  reached (scripted_library (λ _, 2.0%float)) false 0 (demo_state (λ _, 2.0%float)) k v sk →
  time v = 0%float ∨ time v = 2%float ∨ time v = 4%float.
Proof.
  induction 1 as [|k v sk v' s' _ IH Hrun Hbody]; [by left|].
  destruct (scripted_pass_time (λ _, 2.0%float) 0 v sk) as (v1 & s1 & Hbody' & Htime).
  rewrite Hbody in Hbody'. injection Hbody' as <- <-. rewrite Htime.
  destruct IH as [->|[->|Hfour]]; [right; by left|right; by right|].
  unfold running in Hrun. rewrite Hfour in Hrun. discriminate.
Qed.

(** A library whose time steps are all 2.0: the clock goes 0.0, 2.0, 4.0
    and the loop ends in its second pass. *)
Lemma rt_loop_ends_while_time_increases_witness :
  (∀ k v sk v' s',
      reached (scripted_library (λ _, 2.0%float)) false 0 (demo_state (λ _, 2.0%float)) k v sk →
      running false v = true →
      loop_body (scripted_library (λ _, 2.0%float)) 0 v sk = Ok v' s' →
      (time v <? time v')%float = true)
  ∧ (∀ v s0, ∃ dt v' s' evs,
      loop_body (scripted_library (λ _, 2.0%float)) 0 v s0 = Ok v' s'
      ∧ time v' = (time v + dt)%float
      ∧ step v' = (step v + 1)%Z
      ∧ trace s' = trace s0 ++ evs
      ∧ max_dts evs = [dt])
  ∧ ∃ m, (Z.of_nat m ≤ ordinal (model_end_time false))%Z
         ∧ ∀ extra, ∃ v' s' evs,
             time_stepping (scripted_library (λ _, 2.0%float)) false 0 (m + extra)
                           (demo_state (λ _, 2.0%float)) = Ok v' s'
             ∧ running false v' = false
             ∧ step v' = Z.of_nat m
             ∧ trace s' = trace (demo_state (λ _, 2.0%float)) ++ evs
             ∧ length (max_dts evs) = m
             ∧ time v' = fold_left PrimFloat.add (max_dts evs) 0%float.
Proof.
  assert (∀ k v sk v' s',
            reached (scripted_library (λ _, 2.0%float)) false 0
                    (demo_state (λ _, 2.0%float)) k v sk →
            running false v = true →
            loop_body (scripted_library (λ _, 2.0%float)) 0 v sk = Ok v' s' →
            (time v <? time v')%float = true) as Hinc.
  { intros k v sk v' s' Hreach Hrun Hbody.
    destruct (scripted_pass_time (λ _, 2.0%float) 0 v sk) as (v1 & s1 & Hbody' & Htime).
    rewrite Hbody in Hbody'. injection Hbody' as <- <-. rewrite Htime.
    destruct (reached_by_twos k v sk Hreach) as [->|[->|Hfour]]; [reflexivity..|].
    unfold running in Hrun. rewrite Hfour in Hrun. discriminate. }
  split; [exact Hinc|].
  exact (rt_loop_ends_while_time_increases (scripted_library (λ _, 2.0%float)) false 0
           (demo_state (λ _, 2.0%float)) Hinc).
Defined.

End RayleighTaylorProgressExample.


Section RayleighTaylorLoopExamples.
Import RayleighTaylor.

Lemma stalled_pass (v : Vars) (s : State (scripted_library stalling_script)) :
  time v = 1.0%float → 2 ≤ hidden s →
  ∃ v' s', loop_body (scripted_library stalling_script) 0 v s = Ok v' s'
           ∧ time v' = 1.0%float ∧ 2 ≤ hidden s'.
Proof.
  intros Ht Hh. unfold loop_body, update.
  rewrite scripted_call_unit, scripted_call_float. cbn [hidden heap trace].
  assert (∃ tr, (if (step v mod outputEvery =? 0)%Z
                 then save_fields (scripted_library stalling_script) else ret tt)
                  (mkState (L:=scripted_library stalling_script) (heap s) (S (hidden s))
                           (trace s ++ [Call "solver" "solve" [] None]
                            ++ [Call "stokes" "velocity_rms" []
                                     (Some (stalling_script (hidden s)))]))
                = Ok tt (mkState (L:=scripted_library stalling_script)
                                 (heap s) (S (hidden s)) tr)) as [tr Hsave].
  { destruct (_ =? _)%Z; [|by eexists]. unfold save_fields.
    rewrite !scripted_call_unit. cbn [hidden heap trace]. unfold call_unit. cbn. by eexists. }
  rewrite <- app_assoc. unfold bind at 1. rewrite Hsave.
  unfold bind at 1. rewrite scripted_call_float. cbn [hidden heap trace].
  rewrite scripted_call_unit. cbn [hidden heap trace fst snd time].
  eexists _, _. split; [reflexivity|]. cbn [time hidden].
  destruct (hidden s) as [|[|n]]; try lia.
  rewrite Ht. split; [reflexivity|lia].
Qed.

Lemma stalled_forever (fuel : nat) :
  ∀ (v : Vars) (s : State (scripted_library stalling_script)),
    time v = 1.0%float → 2 ≤ hidden s →
    ∃ s', while (running false) (loop_body (scripted_library stalling_script) 0) fuel v s
          = Timeout s'.
Proof.
  induction fuel as [|fuel IH]; intros v s Ht Hh.
  - exists s. cbn. unfold running. rewrite Ht. reflexivity.
  - destruct (stalled_pass v s Ht Hh) as (v' & s' & Hbody & Ht' & Hh').
    cbn [while]. unfold running at 1. rewrite Ht.
    change (1 <? model_end_time false)%float with true. cbv iota.
    unfold bind at 1. rewrite Hbody. by apply IH.
Qed.

(** C5 fails as stated.  Every value the library returns here is at least
    [1e-20 > 0], and the first [get_max_dt()] returns 1.0.  After the
    first pass [time = 1.0]; in the second pass [dt = 1e-20] and
    [time + dt] rounds back to 1.0, so [time] does not increase, stays
    below [model_end_time = 3.0], and the loop runs out of any fuel. *)
Lemma rt_loop_can_stall :
  (0 <? 1e-20)%float = true
  ∧ (∀ n, (1e-20 <=? stalling_script n)%float = true)
  ∧ (∃ v1 s1 v2 s2,
       loop_body (scripted_library stalling_script) 0 start (demo_state stalling_script)
       = Ok v1 s1
       ∧ loop_body (scripted_library stalling_script) 0 v1 s1 = Ok v2 s2
       ∧ max_dts (drop (length (trace s1)) (trace s2)) = [1e-20%float]
       ∧ time v1 = 1.0%float ∧ time v2 = time v1)
  ∧ (∀ fuel, ∃ s',
       time_stepping (scripted_library stalling_script) false 0 fuel
                     (demo_state stalling_script) = Timeout s').
Proof.
  split; [reflexivity|]. split; [|split].
  - intros n. unfold stalling_script. destruct (n =? 1)%nat; reflexivity.
  - eexists _, _, _, _. split; [vm_compute; reflexivity|].
    split; [vm_compute; reflexivity|]. split; [reflexivity|]. split; reflexivity.
  - intros [|fuel]; [by eexists|].
    unfold time_stepping. cbn [while].
    change (running false _) with true. cbv iota.
    unfold bind at 1.
    destruct (rt_loop_body_spec (scripted_library stalling_script) 0 start
                (demo_state stalling_script)) as (dt & v1 & s1 & evs & Hbody & _).
    rewrite Hbody. apply stalled_forever.
    + vm_compute in Hbody. by injection Hbody as <- <-.
    + vm_compute in Hbody. injection Hbody as <- <-. cbn. lia.
Qed.

End RayleighTaylorLoopExamples.

(** ** Steady-state heat: the field handed to the solver *)

Section SteadyStateHeatField.
Context (L : Library).
Import SteadyStateHeat.




Lemma zero_rows_length : length (zero_rows L) = length (data (the_mesh L)).
Proof. unfold zero_rows. by rewrite length_map, fresh_rows_length. Qed.



End SteadyStateHeatField.

Section SteadyStateHeatFieldExample.
Import SteadyStateHeat.


End SteadyStateHeatFieldExample.

(** ** The test cells *)

Section TestCells.
Context (L : Library) (format : float → string).

Lemma convection_test_cell_spec (s : State L) :
  (∀ m, (method_float L "stokes" "velocity_rms" [] m).2 = m) →
  ∃ evs msg,
    Convection.test_cell L format s
    = (if Np.isclose (Convection.velocity_rms L s) 8.70754e+01
       then Ok tt (emitting s evs)
       else Raise (Py.RuntimeError msg) (emitting s evs)).
Proof.
  intros Hro. unfold Convection.test_cell, Convection.velocity_rms.
  unfold bind at 1. unfold call_float at 1. cbv zeta beta iota.
  destruct (Np.isclose _ _) eqn:Hclose; cbn [negb].
  - eexists _, "". unfold ret, emitting. cbn [heap hidden trace].
    rewrite Hro. reflexivity.
  - eexists _, _. unfold bind, call_float, raise, emitting, mem. cbn [heap hidden trace].
    rewrite !Hro. cbn [fst snd]. rewrite <- app_assoc. reflexivity.
Qed.

Lemma steady_state_test_cell_spec (s : State L) :
  (∀ m, (method_float L "tottemp" "evaluate" [] m).2 = m) →
  ∃ evs,
    SteadyStateHeat.test_cell L s
    = (if Np.isclose (SteadyStateHeat.avtemp L s) 0.5
       then Ok tt (emitting s evs)
       else Raise (Py.RuntimeError "Incorrect average temperature produced by model. ")
                  (emitting s evs)).
Proof.
  intros Hro. unfold SteadyStateHeat.test_cell, SteadyStateHeat.avtemp.
  unfold bind at 1. unfold construct, emit. cbv beta iota.
  unfold bind at 1. unfold call_float at 1. cbv zeta beta iota.
  unfold mem. cbn [heap hidden trace].
  eexists. destruct (Np.isclose _ _); cbn [negb]; unfold ret, raise, emitting;
    rewrite Hro; cbn [fst snd]; rewrite <- app_assoc; reflexivity.
Qed.

(** C10.  The last cell of each verification notebook raises
    [RuntimeError] exactly when its check value is not close to the
    expected one: in the thermal convection notebook when
    [np.isclose(stokes.velocity_rms(), 8.70754e+01)] is false, in the
    steady-state heat notebook when [np.isclose(avtemp, 0.5)] is false;
    otherwise it returns normally.  Either way the arrays and the library
    state are as before the cell, given that [velocity_rms()] and
    [evaluate()] only read the model. *)
Theorem test_cells_raise_iff_not_close (s : State L) :
  (∀ m, (method_float L "stokes" "velocity_rms" [] m).2 = m) →
  (∀ m, (method_float L "tottemp" "evaluate" [] m).2 = m) →
  ((∃ msg s', Convection.test_cell L format s = Raise (Py.RuntimeError msg) s')
   ↔ Np.isclose (Convection.velocity_rms L s) 8.70754e+01 = false)
  ∧ ((∃ s', Convection.test_cell L format s = Ok tt s')
     ↔ Np.isclose (Convection.velocity_rms L s) 8.70754e+01 = true)
  ∧ mem (final (Convection.test_cell L format s)) = mem s
  ∧ ((∃ msg s', SteadyStateHeat.test_cell L s = Raise (Py.RuntimeError msg) s')
     ↔ Np.isclose (SteadyStateHeat.avtemp L s) 0.5 = false)
  ∧ ((∃ s', SteadyStateHeat.test_cell L s = Ok tt s')
     ↔ Np.isclose (SteadyStateHeat.avtemp L s) 0.5 = true)
  ∧ mem (final (SteadyStateHeat.test_cell L s)) = mem s.
Proof.
  intros Hrms Heval.
  destruct (convection_test_cell_spec s Hrms) as (evs & msg & Hc).
  destruct (steady_state_test_cell_spec s Heval) as (evs' & Hs).
  rewrite Hc, Hs.
  destruct (Np.isclose (Convection.velocity_rms L s) _);
    destruct (Np.isclose (SteadyStateHeat.avtemp L s) _);
    (repeat split; try reflexivity; try (intros (? & ? & ?)); try (intros (? & ?));
     try discriminate; eauto).
Qed.

End TestCells.

(** The theorem on a library that only reads: an RMS velocity of 87.0754
    passes the first check, and fails the second as an average
    temperature of 43.5377. *)
Lemma test_cells_raise_iff_not_close_witness :
  ((∃ msg s', Convection.test_cell (quiet_library 87.0754) (λ _, "8.70754e+01")
                (mkState (L:=quiet_library 87.0754) ∅ tt [])
              = Raise (Py.RuntimeError msg) s')
   ↔ Np.isclose (Convection.velocity_rms (quiet_library 87.0754)
                   (mkState (L:=quiet_library 87.0754) ∅ tt [])) 8.70754e+01 = false)
  ∧ ((∃ s', Convection.test_cell (quiet_library 87.0754) (λ _, "8.70754e+01")
              (mkState (L:=quiet_library 87.0754) ∅ tt []) = Ok tt s')
     ↔ Np.isclose (Convection.velocity_rms (quiet_library 87.0754)
                     (mkState (L:=quiet_library 87.0754) ∅ tt [])) 8.70754e+01 = true)
  ∧ mem (final (Convection.test_cell (quiet_library 87.0754) (λ _, "8.70754e+01")
                  (mkState (L:=quiet_library 87.0754) ∅ tt [])))
    = mem (mkState (L:=quiet_library 87.0754) ∅ tt [])
  ∧ ((∃ msg s', SteadyStateHeat.test_cell (quiet_library 87.0754)
                  (mkState (L:=quiet_library 87.0754) ∅ tt [])
                = Raise (Py.RuntimeError msg) s')
     ↔ Np.isclose (SteadyStateHeat.avtemp (quiet_library 87.0754)
                     (mkState (L:=quiet_library 87.0754) ∅ tt [])) 0.5 = false)
  ∧ ((∃ s', SteadyStateHeat.test_cell (quiet_library 87.0754)
              (mkState (L:=quiet_library 87.0754) ∅ tt []) = Ok tt s')
     ↔ Np.isclose (SteadyStateHeat.avtemp (quiet_library 87.0754)
                     (mkState (L:=quiet_library 87.0754) ∅ tt [])) 0.5 = true)
  ∧ mem (final (SteadyStateHeat.test_cell (quiet_library 87.0754)
                  (mkState (L:=quiet_library 87.0754) ∅ tt [])))
    = mem (mkState (L:=quiet_library 87.0754) ∅ tt []).
Proof.
  apply (test_cells_raise_iff_not_close (quiet_library 87.0754)); intros m; reflexivity.
Defined.

(** ** Thermal convection: the order of construction *)

Section ConvectionOrder.
Context (L : Library) (cos sin : float → float).
Import Convection.

Lemma setup_spec (s : State L) :
  mesh_ok (mesh L) = true →
  coords_in_domain (mesh L) = true →
  ∃ s1, setup L cos sin s = Ok (mesh L, the_walls L) s1
        ∧ heap s1 !! "temperatureField" = Some (FloatArr (wall_rows L cos sin))
        ∧ hidden s1 = hidden s
        ∧ trace s1 = trace s ++ setup_events L.
Proof.
  intros Hok Hdom.
  destruct (initial_conditions_spec L cos sin s Hdom) as (s1 & Hrun & Hh & Hhid & Htr).
  unfold setup. unfold bind at 1. rewrite Hrun.
  unfold bind at 1.
  rewrite (set_walls_spec L (initial_rows L cos sin) s1 Hh);
    [|unfold initial_rows; by rewrite length_map|done].
  unfold create_conditions, create_systems, construct, emit, bind, ret.
  cbn [heap hidden trace with_rows].
  eexists. split; [reflexivity|]. split; [|split].
  - cbn. apply lookup_insert_eq.
  - cbn. exact Hhid.
  - cbn. rewrite Htr. unfold setup_events, system_events.
    rewrite <- !app_assoc. reflexivity.
Qed.

Lemma constructions_app (t1 t2 : list event) :
  constructions (t1 ++ t2) = constructions t1 ++ constructions t2.
Proof. apply flat_map_app. Qed.

Lemma constructions_writes (t : list event) :
  Forall is_write t → constructions t = [].
Proof.
  induction 1 as [|e t He _ IH]; [done|].
  destruct e; done.
Qed.

Lemma node_writes {X} (var : string) (xs : list X) :
  Forall is_write (flat_map (λ _, [Write var; Write var]) xs).
Proof. induction xs; cbn; repeat constructor; done. Qed.

Lemma wall_writes {X} (var : string) (xs : list X) :
  Forall is_write (map (λ _, Write var) xs).
Proof. induction xs; cbn; repeat constructor; done. Qed.

Lemma write_not_call (t : list event) :
  Forall is_write t → Forall (λ e, ¬ is_call e) t.
Proof. intros H. eapply Forall_impl; [exact H|]. intros [] Hw Hc; cbn in *; tauto. Qed.

Lemma setup_constructions :
  constructions (setup_events L)
  = [ ("mesh", "FeMesh_Cartesian", []);
      ("velocityField", "MeshVariable", ["mesh"]);
      ("pressureField", "MeshVariable", ["mesh"]);
      ("temperatureField", "MeshVariable", ["mesh"]);
      ("temperatureDotField", "MeshVariable", ["mesh"]);
      ("densityFn", "Function", ["temperatureField"]);
      ("buoyancyFn", "Function", ["densityFn"]);
      ("velBC", "DirichletCondition", ["velocityField"]);
      ("tempBC", "DirichletCondition", ["temperatureField"]);
      ("stokes", "Stokes", ["velocityField"; "pressureField"; "velBC"; "buoyancyFn"]);
      ("solver", "Solver", ["stokes"]);
      ("advDiff", "AdvectionDiffusion",
       ["temperatureField"; "temperatureDotField"; "velocityField"; "tempBC"]) ]%string.
Proof.
  unfold setup_events, initial_conditions_events, wall_events.
  rewrite !constructions_app.
  rewrite (constructions_writes _ (node_writes _ _)).
  rewrite !(constructions_writes _ (wall_writes _ _)).
  reflexivity.
Qed.

Lemma setup_makes_no_call : Forall (λ e, ¬ is_call e) (setup_events L).
Proof.
  unfold setup_events, initial_conditions_events, wall_events.
  repeat apply Forall_app_2;
    try (apply write_not_call; first [apply node_writes | apply wall_writes]);
    repeat constructor; by intros [].
Qed.

Lemma iterations_are_calls (dts : list float) :
  Forall is_call (flat_map iteration_events dts).
Proof. induction dts; cbn; repeat constructor; done. Qed.

(** C7.  On a mesh whose wall sets name nodes of the mesh and whose
    coordinates [math.cos] and [math.sin] accept, the cells before the
    loop run to their end, and the thermal convection notebook builds
    its objects in this order: the mesh, its four variables, the two functions, the two
    Dirichlet conditions, then the Stokes system, the solver and the
    advection-diffusion system; every object is built from objects built
    before it (a condition after the variable it constrains, a system
    after the condition it consumes).  Nothing is called on the solver or
    the systems before they all exist, and nothing is built once the
    time-stepping loop, whose first action is [solver.solve()], has
    started. *)
Theorem convection_objects_built_in_order (s : State L) (extra : nat) :
  mesh_ok (mesh L) = true →
  coords_in_domain (mesh L) = true →
  ∃ r s1 v s2 loop_events,
    setup L cos sin s = Ok r s1
    ∧ trace s1 = trace s ++ setup_events L
    ∧ constructions (setup_events L)
      = [ ("mesh", "FeMesh_Cartesian", []);
          ("velocityField", "MeshVariable", ["mesh"]);
          ("pressureField", "MeshVariable", ["mesh"]);
          ("temperatureField", "MeshVariable", ["mesh"]);
          ("temperatureDotField", "MeshVariable", ["mesh"]);
          ("densityFn", "Function", ["temperatureField"]);
          ("buoyancyFn", "Function", ["densityFn"]);
          ("velBC", "DirichletCondition", ["velocityField"]);
          ("tempBC", "DirichletCondition", ["temperatureField"]);
          ("stokes", "Stokes", ["velocityField"; "pressureField"; "velBC"; "buoyancyFn"]);
          ("solver", "Solver", ["stokes"]);
          ("advDiff", "AdvectionDiffusion",
           ["temperatureField"; "temperatureDotField"; "velocityField"; "tempBC"]) ]%string
    ∧ built_in_order [] (constructions (setup_events L)) = true
    ∧ Forall (λ e, ¬ is_call e) (setup_events L)
    ∧ time_stepping L (20 + extra) s1 = Ok v s2
    ∧ trace s2 = trace s1 ++ loop_events
    ∧ head loop_events = Some (Call "solver" "solve" [] None)
    ∧ Forall is_call loop_events.
Proof.
  intros Hok Hdom.
  destruct (setup_spec s Hok Hdom) as (s1 & Hrun & _ & _ & Htr).
  destruct (loop_from L 20 extra 0%float 0%Z s1 eq_refl) as (dts & s2 & Hlen & Hloop & Htr2).
  eexists _, s1, _, s2, _. split; [exact Hrun|]. split; [exact Htr|].
  split; [apply setup_constructions|].
  split; [by rewrite setup_constructions|].
  split; [apply setup_makes_no_call|].
  split; [exact Hloop|]. split; [exact Htr2|]. split.
  - destruct dts; [discriminate Hlen|reflexivity].
  - apply iterations_are_calls.
Qed.

End ConvectionOrder.

(** The theorem on the 32 x 16 grid of the reference library. *)
Lemma convection_objects_built_in_order_witness :
  mesh_ok (Convection.mesh demo_library) = true
  ∧ Convection.coords_in_domain (Convection.mesh demo_library) = true
  ∧ ∃ r s1 v s2 loop_events,
      Convection.setup demo_library (λ x, x) (λ x, x) (demo_state (λ _, 0.5%float)) = Ok r s1
      ∧ trace s1 = trace (demo_state (λ _, 0.5%float)) ++ Convection.setup_events demo_library
      ∧ constructions (Convection.setup_events demo_library)
        = [ ("mesh", "FeMesh_Cartesian", []);
            ("velocityField", "MeshVariable", ["mesh"]);
            ("pressureField", "MeshVariable", ["mesh"]);
            ("temperatureField", "MeshVariable", ["mesh"]);
            ("temperatureDotField", "MeshVariable", ["mesh"]);
            ("densityFn", "Function", ["temperatureField"]);
            ("buoyancyFn", "Function", ["densityFn"]);
            ("velBC", "DirichletCondition", ["velocityField"]);
            ("tempBC", "DirichletCondition", ["temperatureField"]);
            ("stokes", "Stokes", ["velocityField"; "pressureField"; "velBC"; "buoyancyFn"]);
            ("solver", "Solver", ["stokes"]);
            ("advDiff", "AdvectionDiffusion",
             ["temperatureField"; "temperatureDotField"; "velocityField"; "tempBC"]) ]%string
      ∧ built_in_order [] (constructions (Convection.setup_events demo_library)) = true
      ∧ Forall (λ e, ¬ is_call e) (Convection.setup_events demo_library)
      ∧ Convection.time_stepping demo_library (20 + 0) s1 = Ok v s2
      ∧ trace s2 = trace s1 ++ loop_events
      ∧ head loop_events = Some (Call "solver" "solve" [] None)
      ∧ Forall is_call loop_events.
Proof.
  split; [vm_compute; reflexivity|].
  split; [vm_compute; reflexivity|].
  apply (convection_objects_built_in_order demo_library (λ x, x) (λ x, x)).
  - vm_compute. reflexivity.
  - vm_compute. reflexivity.
Defined.

(** ** Uplift: the basal traction *)

Section UpliftTraction.
Context (L : Library) (exp pow2 : float → float) (p : Uplift.Scaled).
Import Uplift.

Abbreviation TF := "tractionField"%string.





End UpliftTraction.

(** ** Uplift: the basal traction, stored and exact *)




Section UpliftTractionValues.
Context (L : Library) (exp pow2 : float → float) (p : Uplift.Scaled).
Import Uplift.

Abbreviation TF := "tractionField"%string.


End UpliftTractionValues.




(** ** Uplift: the time step *)

Lemma float_nonneg_not_neg (x : float) :
  (0 <=? x)%float = true → (x <? 0)%float = false.
Proof.
  rewrite leb_spec, ltb_spec. unfold SFleb, SFltb.
  change (Prim2SF 0) with (S754_zero false).
  destruct (Prim2SF x) as [[]|[]| |[] m e]; cbn; congruence.
Qed.

Section UpliftLoop.
Context (L : Library).
Import Uplift.

Lemma uplift_loop_init_spec (s : State L) :
  ∃ v s' evs,
    loop_init L s = Ok v s'
    ∧ dt v = (-1)%float ∧ steps v = 0%Z
    ∧ trace s' = trace s ++ evs
    ∧ max_dts evs = [] ∧ integrations evs = []
    ∧ mem s' = (method_float L "fn_y_minmax" "max_global" []
                  (method_unit L "fn_y_minmax" "evaluate" []
                     (method_unit L "fn_y_minmax" "reset" [] (mem s)))).2.
Proof.
  unfold loop_init. do 3 call_step.
  eexists _, _, _. split; [reflexivity|]. cbn [dt steps].
  split; [reflexivity|]. split; [reflexivity|]. split.
  - rewrite Htrace1, Htrace0, Htrace. rewrite <- !app_assoc. reflexivity.
  - split; [reflexivity|]. split; [reflexivity|].
    rewrite <- Hmem, <- Hmem0, <- Hmem1. reflexivity.
Qed.

Lemma uplift_first_pass (v : Vars) (s : State L) :
  (dt v <? 0)%float = true →
  ∃ v' s' evs,
    loop_body L v s = Ok v' s'
    ∧ dt v' = (method_float L "advector" "get_max_dt" []
                 (method_unit L "solver" "solve" [] (mem s))).1
    ∧ steps v' = (steps v + 1)%Z
    ∧ trace s' = trace s ++ evs
    ∧ max_dts evs = [dt v']
    ∧ integrations evs = [("advector", [dt v']); ("msAdvector", [dt v'])]%string.
Proof.
  intros Hneg. unfold loop_body. call_step. rewrite Hneg. do 9 call_step.
  eexists _, _, _. split; [reflexivity|]. cbn [dt steps].
  split; [by rewrite <- Hmem, <- Hmem0|]. split; [reflexivity|]. split.
  - rewrite Htrace8, Htrace7, Htrace6, Htrace5, Htrace4, Htrace3, Htrace2,
      Htrace1, Htrace0, Htrace.
    rewrite <- !app_assoc. reflexivity.
  - split; reflexivity.
Qed.

Lemma uplift_later_pass (v : Vars) (s : State L) :
  (dt v <? 0)%float = false →
  ∃ v' s' evs,
    loop_body L v s = Ok v' s'
    ∧ dt v' = dt v
    ∧ steps v' = (steps v + 1)%Z
    ∧ trace s' = trace s ++ evs
    ∧ max_dts evs = []
    ∧ integrations evs = [("advector", [dt v]); ("msAdvector", [dt v])]%string.
Proof.
  intros Hneg. unfold loop_body. call_step. rewrite Hneg.
  unfold bind at 1, ret at 1. do 8 call_step.
  eexists _, _, _. split; [reflexivity|]. cbn [dt steps].
  split; [reflexivity|]. split; [reflexivity|]. split.
  - rewrite Htrace7, Htrace6, Htrace5, Htrace4, Htrace3, Htrace2,
      Htrace1, Htrace0, Htrace.
    rewrite <- !app_assoc. reflexivity.
  - split; reflexivity.
Qed.

Lemma uplift_max_dts_app (t1 t2 : list event) :
  max_dts (t1 ++ t2) = max_dts t1 ++ max_dts t2.
Proof. apply flat_map_app. Qed.

Lemma integrations_app (t1 t2 : list event) :
  integrations (t1 ++ t2) = integrations t1 ++ integrations t2.
Proof. apply flat_map_app. Qed.

(** C9.  In the uplift notebook [dt] starts at [-1.0] and is assigned
    from [advector.get_max_dt()] only while it is negative.  Provided the
    first call returns a non-negative value, it is the only call: the
    loop ends after [model_end_step = 3] passes with [dt] still that
    value, and each of the three advection steps of both swarms
    integrated with it. *)
Theorem uplift_uses_one_timestep (s : State L) (extra : nat) :
  (0 <=? first_dt L s)%float = true →
  ∃ v s' evs,
    time_stepping L (3 + extra) s = Ok v s'
    ∧ trace s' = trace s ++ evs
    ∧ steps v = 3%Z
    ∧ dt v = first_dt L s
    ∧ max_dts evs = [first_dt L s]
    ∧ integrations evs
      = [ ("advector", [first_dt L s]); ("msAdvector", [first_dt L s]);
          ("advector", [first_dt L s]); ("msAdvector", [first_dt L s]);
          ("advector", [first_dt L s]); ("msAdvector", [first_dt L s]) ]%string.
Proof.
  intros Hnonneg. apply float_nonneg_not_neg in Hnonneg.
  destruct (uplift_loop_init_spec s)
    as (v0 & s0 & evs0 & Hinit & Hdt0 & Hst0 & Htr0 & Hmax0 & Hint0 & Hmem0).
  destruct (uplift_first_pass v0 s0)
    as (v1 & s1 & evs1 & Hrun1 & Hdt1 & Hst1 & Htr1 & Hmax1 & Hint1);
    [by rewrite Hdt0|].
  assert (dt v1 = first_dt L s) as Hfirst.
  { rewrite Hdt1, Hmem0. reflexivity. }
  rewrite Hfirst in Hmax1, Hint1.
  destruct (uplift_later_pass v1 s1)
    as (v2 & s2 & evs2 & Hrun2 & Hdt2 & Hst2 & Htr2 & Hmax2 & Hint2);
    [by rewrite Hfirst|].
  destruct (uplift_later_pass v2 s2)
    as (v3 & s3 & evs3 & Hrun3 & Hdt3 & Hst3 & Htr3 & Hmax3 & Hint3);
    [by rewrite Hdt2, Hfirst|].
  rewrite Hdt2, Hfirst in Hint3. rewrite Hfirst in Hint2.
  exists v3, s3, (evs0 ++ evs1 ++ evs2 ++ evs3).
  split; [|split; [|split; [|split; [|split]]]].
  - unfold time_stepping. unfold bind at 1. rewrite Hinit.
    change (3 + extra) with (S (S (S extra))).
    cbn [while]. rewrite Hst0. change (0 <? model_end_step)%Z with true. cbv iota.
    unfold bind at 1. rewrite Hrun1.
    cbn [while]. rewrite Hst1, Hst0. change (0 + 1 <? model_end_step)%Z with true. cbv iota.
    unfold bind at 1. rewrite Hrun2.
    cbn [while]. rewrite Hst2, Hst1, Hst0.
    change (0 + 1 + 1 <? model_end_step)%Z with true. cbv iota.
    unfold bind at 1. rewrite Hrun3.
    assert ((steps v3 <? model_end_step)%Z = false) as Hend
        by (rewrite Hst3, Hst2, Hst1, Hst0; reflexivity).
    destruct extra; cbn [while]; by rewrite Hend.
  - rewrite Htr3, Htr2, Htr1, Htr0. by rewrite <- !app_assoc.
  - rewrite Hst3, Hst2, Hst1, Hst0. reflexivity.
  - by rewrite Hdt3, Hdt2.
  - rewrite !uplift_max_dts_app, Hmax0, Hmax1, Hmax2, Hmax3. reflexivity.
  - rewrite !integrations_app, Hint0, Hint1, Hint2, Hint3. reflexivity.
Qed.

End UpliftLoop.

(** The theorem on the reference library answering 0.5 to every query. *)
Lemma uplift_uses_one_timestep_witness :
  (0 <=? Uplift.first_dt demo_library (demo_state (λ _, 0.5%float)))%float = true
  ∧ ∃ v s' evs,
      Uplift.time_stepping demo_library (3 + 0) (demo_state (λ _, 0.5%float)) = Ok v s'
      ∧ trace s' = trace (demo_state (λ _, 0.5%float)) ++ evs
      ∧ Uplift.steps v = 3%Z
      ∧ Uplift.dt v = Uplift.first_dt demo_library (demo_state (λ _, 0.5%float))
      ∧ Uplift.max_dts evs = [Uplift.first_dt demo_library (demo_state (λ _, 0.5%float))]
      ∧ Uplift.integrations evs
        = [ ("advector", [Uplift.first_dt demo_library (demo_state (λ _, 0.5%float))]);
            ("msAdvector", [Uplift.first_dt demo_library (demo_state (λ _, 0.5%float))]);
            ("advector", [Uplift.first_dt demo_library (demo_state (λ _, 0.5%float))]);
            ("msAdvector", [Uplift.first_dt demo_library (demo_state (λ _, 0.5%float))]);
            ("advector", [Uplift.first_dt demo_library (demo_state (λ _, 0.5%float))]);
            ("msAdvector", [Uplift.first_dt demo_library (demo_state (λ _, 0.5%float))]) ]%string.
Proof.
  split; [reflexivity|].
  apply (uplift_uses_one_timestep demo_library (demo_state (λ _, 0.5%float)) 0).
  reflexivity.
Defined.

(** ** Who writes the fields, and when *)

Section Emits.
Context {L : Library}.
Implicit Types (p : event → Prop).

Lemma emits_ret {A} p (a : A) : emits (L:=L) p (ret a).
Proof. intros s. exists []. by rewrite app_nil_r. Qed.

Lemma emits_raise {A} p (e : Py.exn) : emits (L:=L) (A:=A) p (raise e).
Proof. intros s. exists []. by rewrite app_nil_r. Qed.

Lemma emits_bind {A B} p (m : M L A) (k : A → M L B) :
  emits p m → (∀ a, emits p (k a)) → emits p (bind m k).
Proof.
  intros Hm Hk s. destruct (Hm s) as (evs1 & Htr1 & Hp1).
  unfold bind. destruct (m s) as [a s1|e s1|s1]; cbn in *.
  - destruct (Hk a s1) as (evs2 & Htr2 & Hp2).
    exists (evs1 ++ evs2). split; [by rewrite Htr2, Htr1, app_assoc|].
    by apply Forall_app_2.
  - by exists evs1.
  - by exists evs1.
Qed.

Lemma emits_emit p (e : event) : p e → emits (L:=L) p (emit e).
Proof. intros He s. exists [e]. split; [reflexivity|]. by constructor. Qed.

Lemma emits_construct p (name kind : string) (refs : list string) :
  p (Construct name kind refs) → emits (L:=L) p (construct name kind refs).
Proof. apply emits_emit. Qed.

Lemma emits_call_unit p (obj method : string) (args : list float) :
  p (Call obj method args None) → emits (L:=L) p (call_unit obj method args).
Proof. intros He s. eexists [_]. split; [reflexivity|]. by constructor. Qed.

Lemma emits_call_float p (obj method : string) (args : list float) :
  (∀ x, p (Call obj method args (Some x))) → emits (L:=L) p (call_float obj method args).
Proof. intros He s. eexists [_]. split; [reflexivity|]. by constructor. Qed.

Lemma emits_call_rows p (obj method : string) :
  p (Call obj method [] None) → emits (L:=L) p (call_rows obj method).
Proof. intros He s. eexists [_]. split; [reflexivity|]. by constructor. Qed.

Lemma emits_get_rows p (var : string) : emits (L:=L) p (get_rows var).
Proof.
  intros s. exists []. rewrite app_nil_r. split; [|done].
  unfold get_rows. by destruct (heap s !! var) as [[]|].
Qed.

Lemma emits_get_int_rows p (var : string) : emits (L:=L) p (get_int_rows var).
Proof.
  intros s. exists []. rewrite app_nil_r. split; [|done].
  unfold get_int_rows. by destruct (heap s !! var) as [[]|].
Qed.

Lemma emits_put_rows p (var : string) (rows : list (list float)) :
  p (Write var) → emits (L:=L) p (put_rows var rows).
Proof. intros He s. exists [Write var]. split; [reflexivity|]. by constructor. Qed.

Lemma emits_add_variable p (name on : string) (n dof : nat) :
  p (Construct name "MeshVariable" [on]) → emits (L:=L) p (add_variable name on n dof).
Proof. intros He s. eexists [_]. split; [reflexivity|]. by constructor. Qed.

Lemma emits_add_swarm p (name mesh : string) :
  p (Construct name "Swarm" [mesh]) → emits (L:=L) p (add_swarm name mesh).
Proof. intros He s. eexists [_]. split; [reflexivity|]. by constructor. Qed.

Lemma emits_add_swarm_variable p (name swarm : string) :
  p (Construct name "SwarmVariable" [swarm]) → emits (L:=L) p (add_swarm_variable name swarm).
Proof. intros He s. eexists [_]. split; [reflexivity|]. by constructor. Qed.

Lemma emits_add_swarm_variable_int p (name swarm : string) :
  p (Construct name "SwarmVariable" [swarm]) →
  emits (L:=L) p (add_swarm_variable_int name swarm).
Proof. intros He s. eexists [_]. split; [reflexivity|]. by constructor. Qed.

Lemma emits_special_set p (m : FeMesh) (key : string) : emits (L:=L) p (special_set m key).
Proof.
  unfold special_set. destruct (specialSets m key); [apply emits_ret|apply emits_raise].
Qed.

Lemma emits_get_scalar p (var : string) (i : nat) : emits (L:=L) p (get_scalar var i).
Proof.
  unfold get_scalar. apply emits_bind; [apply emits_get_rows|]. intros rows.
  destruct (rows !! i) as [[|v [|]]|]; first [apply emits_ret | apply emits_raise].
Qed.

Lemma emits_set_scalar p (var : string) (i : nat) (v : float) :
  p (Write var) → emits (L:=L) p (set_scalar var i v).
Proof.
  intros He. unfold set_scalar. apply emits_bind; [apply emits_get_rows|]. intros rows.
  destruct (rows !! i); [by apply emits_put_rows|apply emits_raise].
Qed.

Lemma emits_set_row p (var : string) (i : nat) (row : list float) :
  p (Write var) → emits (L:=L) p (set_row var i row).
Proof.
  intros He. unfold set_row. apply emits_bind; [apply emits_get_rows|]. intros rows.
  destruct (rows !! i); [|apply emits_raise].
  destruct (_ =? _); [by apply emits_put_rows|apply emits_raise].
Qed.

Lemma emits_fill p (var : string) (v : float) : p (Write var) → emits (L:=L) p (fill var v).
Proof.
  intros He. unfold fill. apply emits_bind; [apply emits_get_rows|]. intros rows.
  by apply emits_put_rows.
Qed.

Lemma emits_fill_row p (var : string) (row : list float) :
  p (Write var) → emits (L:=L) p (fill_row var row).
Proof.
  intros He. unfold fill_row. apply emits_bind; [apply emits_get_rows|]. intros rows.
  destruct (forallb _ _); [by apply emits_put_rows|apply emits_raise].
Qed.

Lemma emits_set_rows p (var : string) (idx : IndexSet) (v : float) :
  p (Write var) → emits (L:=L) p (set_rows var idx v).
Proof.
  intros He. unfold set_rows. apply emits_bind; [apply emits_get_rows|]. intros rows.
  destruct (in_range _ _); [by apply emits_put_rows|apply emits_raise].
Qed.

Lemma emits_store_rows p (var : string) (values : list (list float)) :
  p (Write var) → emits (L:=L) p (store_rows var values).
Proof.
  intros He. unfold store_rows. apply emits_bind; [apply emits_get_rows|]. intros rows.
  destruct (_ =? _); [by apply emits_put_rows|].
  destruct values as [|v [|]]; first [by apply emits_put_rows | apply emits_raise].
Qed.

Lemma emits_store_ints p (var : string) (values : list Z) :
  p (Write var) → emits (L:=L) p (store_ints var values).
Proof.
  intros He. unfold store_ints. apply emits_bind; [apply emits_get_int_rows|]. intros rows.
  assert (∀ new, emits (L:=L) p
            (λ s, Ok tt (mkState (<[var := IntArr new]> (heap s)) (hidden s)
                                 (trace s ++ [Write var])))) as Hput.
  { intros new s. exists [Write var]. split; [reflexivity|]. by constructor. }
  destruct (_ =? _); [apply Hput|].
  destruct values as [|v [|]]; first [apply Hput | apply emits_raise].
Qed.

Lemma emits_for_enum {X} p (xs : list X) : ∀ (k : nat) (body : nat → X → M L unit),
  (∀ i x, emits p (body i x)) → emits p (for_enum k xs body).
Proof.
  induction xs as [|x xs IH]; intros k body Hbody; cbn [for_enum].
  - apply emits_ret.
  - apply emits_bind; [apply Hbody|]. intros _. by apply IH.
Qed.

Lemma emits_for_each {X} p (xs : list X) (body : X → M L unit) :
  (∀ x, emits p (body x)) → emits p (for_each xs body).
Proof. intros Hbody. apply emits_for_enum. intros _. apply Hbody. Qed.

Lemma emits_while {V} p (cond : V → bool) (body : V → M L V) (fuel : nat) :
  (∀ v, emits p (body v)) → ∀ v, emits p (while cond body fuel v).
Proof.
  intros Hbody. induction fuel as [|fuel IH]; intros v; cbn [while].
  - destruct (cond v); [|apply emits_ret].
    intros s. exists []. by rewrite app_nil_r.
  - destruct (cond v); [|apply emits_ret].
    apply emits_bind; [apply Hbody|apply IH].
Qed.

(** A computation in two phases: first nothing that updates the fields,
    then nothing that writes them. *)
Lemma two_phases {A B} (m : M L A) (k : A → M L B) :
  emits (λ e, ¬ updates_fields e) m →
  (∀ a, emits (λ e, ¬ is_write e) (k a)) →
  ∀ s, ∃ evs, trace (final (bind m k s)) = trace s ++ evs ∧ no_write_after_update evs.
Proof.
  intros Hm Hk s. destruct (Hm s) as (evs1 & Htr1 & Hp1).
  assert (∃ evs2, trace (final (bind m k s)) = trace s ++ evs1 ++ evs2
                  ∧ Forall (λ e, ¬ is_write e) evs2) as (evs2 & Htr & Hp2).
  { unfold bind. destruct (m s) as [a s1|e s1|s1]; cbn in *.
    - destruct (Hk a s1) as (evs2 & Htr2 & Hp2). exists evs2.
      by rewrite Htr2, Htr1, app_assoc.
    - exists []. by rewrite app_nil_r.
    - exists []. by rewrite app_nil_r. }
  exists (evs1 ++ evs2). split; [exact Htr|].
  intros before e after Heq Hup.
  apply app_eq_inv in Heq as [(l & -> & Hafter)|(l & -> & Hevs2)].
  - destruct l as [|e' l].
    + rewrite app_nil_r in Hp1. cbn in Hafter. subst evs2.
      by apply Forall_cons in Hp2 as [_ Hp2].
    + cbn in Hafter. injection Hafter as <- ->.
      apply Forall_app in Hp1 as [_ Hp1]. apply Forall_cons in Hp1 as [Hno _]. done.
  - rewrite Hevs2 in Hp2. apply Forall_app in Hp2 as [_ Hp2].
    by apply Forall_cons in Hp2 as [_ Hp2].
Qed.

End Emits.

Ltac event_ok :=
  cbn; first [ tauto | intros [?|?]; discriminate ].

Ltac emits_step :=
  lazymatch goal with
  | |- emits _ (bind _ _) => apply emits_bind; [|intros ?]
  | |- emits _ (ret _) => apply emits_ret
  | |- emits _ (raise _) => apply emits_raise
  | |- emits _ (construct _ _ _) => apply emits_construct; event_ok
  | |- emits _ (call_unit _ _ _) => apply emits_call_unit; event_ok
  | |- emits _ (call_float _ _ _) => apply emits_call_float; intros ?; event_ok
  | |- emits _ (call_rows _ _) => apply emits_call_rows; event_ok
  | |- emits _ (add_variable _ _ _ _) => apply emits_add_variable; event_ok
  | |- emits _ (add_swarm _ _) => apply emits_add_swarm; event_ok
  | |- emits _ (add_swarm_variable _ _) => apply emits_add_swarm_variable; event_ok
  | |- emits _ (add_swarm_variable_int _ _) => apply emits_add_swarm_variable_int; event_ok
  | |- emits _ (special_set _ _) => apply emits_special_set
  | |- emits _ (get_rows _) => apply emits_get_rows
  | |- emits _ (get_scalar _ _) => apply emits_get_scalar
  | |- emits _ (set_scalar _ _ _) => apply emits_set_scalar; event_ok
  | |- emits _ (set_row _ _ _) => apply emits_set_row; event_ok
  | |- emits _ (fill _ _) => apply emits_fill; event_ok
  | |- emits _ (fill_row _ _) => apply emits_fill_row; event_ok
  | |- emits _ (set_rows _ _ _) => apply emits_set_rows; event_ok
  | |- emits _ (store_rows _ _) => apply emits_store_rows; event_ok
  | |- emits _ (store_ints _ _) => apply emits_store_ints; event_ok
  | |- emits _ (for_enum _ _ _) => apply emits_for_enum; intros ? ?
  | |- emits _ (for_each _ _) => apply emits_for_each; intros ?
  | |- emits _ (while _ _ _ _) => apply emits_while; intros ?
  | |- emits _ (if ?c then _ else _) => destruct c
  | |- emits _ (match ?x with _ => _ end) => destruct x
  end.

Ltac emits_auto := cbv zeta; repeat (emits_step; cbv zeta).

Section FieldWrites.
Context (L : Library).

Lemma steady_state_heat_phases (s : State L) :
  ∃ evs, trace (final (SteadyStateHeat.notebook L s)) = trace s ++ evs
         ∧ no_write_after_update evs.
Proof.
  unfold SteadyStateHeat.notebook. apply two_phases.
  - unfold SteadyStateHeat.before_solve, SteadyStateHeat.create_mesh,
      SteadyStateHeat.create_temperature, SteadyStateHeat.set_wall_temperatures.
    emits_auto.
  - intros _. unfold SteadyStateHeat.solve, SteadyStateHeat.test_cell. emits_auto.
Qed.

Lemma convection_phases (cos sin : float → float) (format : float → string)
    (fuel : nat) (s : State L) :
  ∃ evs, trace (final (Convection.notebook L cos sin format fuel s)) = trace s ++ evs
         ∧ no_write_after_update evs.
Proof.
  unfold Convection.notebook. apply two_phases.
  - unfold Convection.setup, Convection.initial_conditions, Convection.create_mesh,
      Convection.create_functions, Convection.init_temperature, Convection.set_walls,
      Convection.create_conditions, Convection.create_systems.
    emits_auto.
  - intros _. unfold Convection.time_stepping, Convection.loop_body, Convection.update,
      Convection.test_cell.
    emits_auto.
Qed.

Lemma blankenbach_phases (cos sin : float → float) (rank : nat)
    (topography : list (list float) → float * float) (fuel : nat) (s : State L) :
  ∃ evs, trace (final (Blankenbach.notebook L cos sin rank topography fuel s)) = trace s ++ evs
         ∧ no_write_after_update evs.
Proof.
  unfold Blankenbach.notebook. apply two_phases.
  - unfold Blankenbach.setup, Blankenbach.create_mesh, Blankenbach.load_temperature,
      Blankenbach.perturb_temperature, Blankenbach.set_walls, Blankenbach.create_systems,
      Blankenbach.nusselt, Blankenbach.rms_velocity.
    emits_auto.
  - intros r. unfold Blankenbach.time_stepping, Blankenbach.loop_body, Blankenbach.update,
      Blankenbach.nusselt, Blankenbach.rms_velocity, Blankenbach.test_cell,
      Blankenbach.reload, Blankenbach.benchmark, Blankenbach.gradients,
      Blankenbach.topography_check.
    emits_auto.
Qed.

Lemma rayleigh_taylor_phases (cosine : float → float) (format : float → string)
    (uw_longtest : bool) (rank size fuel : nat) (s : State L) :
  ∃ evs, trace (final (RayleighTaylor.notebook L cosine format uw_longtest rank size fuel s))
         = trace s ++ evs
         ∧ no_write_after_update evs.
Proof.
  unfold RayleighTaylor.notebook. apply two_phases.
  - unfold RayleighTaylor.setup, RayleighTaylor.create_mesh, RayleighTaylor.create_swarm,
      RayleighTaylor.init_material, RayleighTaylor.create_systems.
    emits_auto.
  - intros _. unfold RayleighTaylor.time_stepping, RayleighTaylor.loop_body,
      RayleighTaylor.save_fields, RayleighTaylor.update, RayleighTaylor.test_cell.
    emits_auto.
Qed.

Lemma uplift_phases (exp pow2 metres : float → float) (p : Uplift.Scaled)
    (fuel : nat) (s : State L) :
  ∃ evs, trace (final (Uplift.notebook L exp pow2 p metres fuel s)) = trace s ++ evs
         ∧ no_write_after_update evs.
Proof.
  unfold Uplift.notebook. apply two_phases.
  - unfold Uplift.setup, Uplift.create_mesh, Uplift.init_traction, Uplift.create_swarm,
      Uplift.create_systems.
    emits_auto.
  - intros _. unfold Uplift.time_stepping, Uplift.loop_init, Uplift.loop_body,
      Uplift.test_cell.
    emits_auto.
Qed.

(** C6.  In every notebook (steady-state heat, thermal convection,
    Blankenbach benchmark, Rayleigh-Taylor, uplift), however the run
    ends and whatever the library does: once the library has first been
    asked to update the fields ([solve] on a solver, [integrate] on an
    advection system), notebook code writes no array again, so neither
    the velocity, the pressure nor the temperature field.  Every direct
    assignment belongs to the initialisation; afterwards the fields
    change through library calls only. *)
Theorem fields_written_only_before_first_update
    (cos sin cosine exp pow2 metres : float → float) (format : float → string)
    (topography : list (list float) → float * float)
    (p : Uplift.Scaled) (uw_longtest : bool) (rank size fuel : nat) (s : State L) :
  (∃ evs, trace (final (SteadyStateHeat.notebook L s)) = trace s ++ evs
          ∧ no_write_after_update evs)
  ∧ (∃ evs, trace (final (Convection.notebook L cos sin format fuel s)) = trace s ++ evs
            ∧ no_write_after_update evs)
  ∧ (∃ evs, trace (final (Blankenbach.notebook L cos sin rank topography fuel s))
            = trace s ++ evs
            ∧ no_write_after_update evs)
  ∧ (∃ evs, trace (final (RayleighTaylor.notebook L cosine format uw_longtest rank size fuel s))
            = trace s ++ evs
            ∧ no_write_after_update evs)
  ∧ (∃ evs, trace (final (Uplift.notebook L exp pow2 p metres fuel s)) = trace s ++ evs
            ∧ no_write_after_update evs).
Proof.
  split; [apply steady_state_heat_phases|].
  split; [apply convection_phases|].
  split; [apply blankenbach_phases|].
  split; [apply rayleigh_taylor_phases|apply uplift_phases].
Qed.

End FieldWrites.

(** * Further properties of the notebooks *)

(** ** Traces and the monad *)

Lemma calls_on_app (obj : string) (t1 t2 : list event) :
  calls_on obj (t1 ++ t2) = calls_on obj t1 ++ calls_on obj t2.
Proof. apply flat_map_app. Qed.

Lemma returned_app (obj method : string) (t1 t2 : list event) :
  returned obj method (t1 ++ t2) = returned obj method t1 ++ returned obj method t2.
Proof. apply flat_map_app. Qed.

Lemma bind_ok_inv {L : Library} {A B} (m : M L A) (k : A → M L B)
    (s s' : State L) (b : B) :
  bind m k s = Ok b s' → ∃ a s1, m s = Ok a s1 ∧ k a s1 = Ok b s'.
Proof. unfold bind. destruct (m s) as [a s1| |]; [eauto|discriminate..]. Qed.

(** ** Steady-state heat: the whole run *)

Section SteadyStateHeatRun.
Context (L : Library).
Import SteadyStateHeat.

Lemma before_solve_trace (s : State L) :
  mesh_ok (the_mesh L) = true →
  ∃ model s', before_solve L s = Ok model s'
    ∧ trace s' = trace s ++
        [ Construct "mesh" "FeMesh_Cartesian" [];
          Construct "temperatureField" "MeshVariable" ["mesh"];
          Write "temperatureField";
          Construct "tempBC" "DirichletCondition" ["temperatureField"];
          Write "temperatureField";
          Write "temperatureField";
          Construct "heatequation" "SteadyStateHeat" ["temperatureField"; "tempBC"];
          Construct "heatsolver" "Solver" ["heatequation"] ].
Proof.
  intros Hok. unfold mesh_ok in Hok.
  apply andb_true_iff in Hok as [Hok Htop].
  apply andb_true_iff in Hok as [_ Hbot].
  unfold before_solve, create_mesh, create_temperature, set_wall_temperatures.
  unfold special_set, specialSets. cbn [String.eqb Ascii.eqb Bool.eqb orb].
  unfold construct, emit, add_variable.
  unfold bind at 1. unfold bind at 1. unfold ret at 1.
  unfold bind at 1. unfold bind at 1.
  erewrite fill_ok; [|heap_lookup; reflexivity].
  unfold bind at 1. unfold ret at 1. unfold bind at 1. unfold ret at 1.
  unfold bind at 1. unfold bind at 1. unfold bind at 1.
  erewrite (set_rows_ok _ _ _ (zero_rows L));
    [|heap_lookup; reflexivity|by rewrite zero_rows_length].
  erewrite (set_rows_ok _ _ _ (overwrite _ _ (zero_rows L)));
    [|heap_lookup; reflexivity|by rewrite length_overwrite, zero_rows_length].
  unfold bind at 1. unfold bind at 1. unfold ret.
  eexists _, _. split; [reflexivity|].
  cbn [trace with_rows]. rewrite <- !app_assoc. reflexivity.
Qed.

(** X1.  On a mesh whose walls name nodes of the mesh, the steady-state heat
    notebook runs to its last cell whatever the library does: it writes
    the temperature three times, builds its five objects, asks the
    solver to solve exactly once, then integrates the temperature once,
    and ends normally or with the [RuntimeError] of the check, according
    to [np.isclose] of the average temperature and 0.5. *)
Theorem steady_state_heat_solves_once (s : State L) :
  mesh_ok (the_mesh L) = true →
  ∃ total s',
    notebook L s
    = (if Np.isclose (total / (boxHeight * boxLength)) 0.5
       then Ok tt s'
       else Raise (Py.RuntimeError "Incorrect average temperature produced by model. ") s')
    ∧ trace s' = trace s ++
        [ Construct "mesh" "FeMesh_Cartesian" [];
          Construct "temperatureField" "MeshVariable" ["mesh"];
          Write "temperatureField";
          Construct "tempBC" "DirichletCondition" ["temperatureField"];
          Write "temperatureField";
          Write "temperatureField";
          Construct "heatequation" "SteadyStateHeat" ["temperatureField"; "tempBC"];
          Construct "heatsolver" "Solver" ["heatequation"];
          Call "heatsolver" "solve" [] None;
          Construct "tottemp" "Integral" ["temperatureField"; "mesh"];
          Call "tottemp" "evaluate" [] (Some total) ].
Proof.
  intros Hok. destruct (before_solve_trace s Hok) as (model & s1 & Hrun & Htr).
  unfold notebook. unfold bind at 1. rewrite Hrun. unfold solve. call_step.
  unfold test_cell. unfold bind at 1. unfold construct at 1, emit at 1. cbv beta iota.
  call_step. exists x, s2.
  split; [by destruct (Np.isclose _ _)|].
  rewrite Htrace0. cbn [trace]. rewrite Htrace, Htr, <- !app_assoc. reflexivity.
Qed.

End SteadyStateHeatRun.

(** The run on the 16 x 8 grid of the reference library. *)
Lemma steady_state_heat_solves_once_witness :
  mesh_ok (SteadyStateHeat.the_mesh demo_library) = true
  ∧ ∃ total s',
      SteadyStateHeat.notebook demo_library (demo_state (λ _, 0.5%float))
      = (if Np.isclose (total / (SteadyStateHeat.boxHeight * SteadyStateHeat.boxLength)) 0.5
         then Ok tt s'
         else Raise (Py.RuntimeError "Incorrect average temperature produced by model. ") s')
      ∧ trace s' = trace (demo_state (λ _, 0.5%float)) ++
          [ Construct "mesh" "FeMesh_Cartesian" [];
            Construct "temperatureField" "MeshVariable" ["mesh"];
            Write "temperatureField";
            Construct "tempBC" "DirichletCondition" ["temperatureField"];
            Write "temperatureField";
            Write "temperatureField";
            Construct "heatequation" "SteadyStateHeat" ["temperatureField"; "tempBC"];
            Construct "heatsolver" "Solver" ["heatequation"];
            Call "heatsolver" "solve" [] None;
            Construct "tottemp" "Integral" ["temperatureField"; "mesh"];
            Call "tottemp" "evaluate" [] (Some total) ].
Proof.
  split; [vm_compute; reflexivity|].
  apply (steady_state_heat_solves_once demo_library (demo_state (λ _, 0.5%float))).
  vm_compute. reflexivity.
Defined.

(** ** Thermal convection: the field when the loop starts *)

Section ConvectionField.
Context (L : Library) (cos sin : float → float).
Import Convection.


End ConvectionField.


(** ** Rayleigh-Taylor: the recorded series and the output *)

Section RayleighTaylorSeries.
Context (L : Library) (uw_longtest : bool) (rank : nat).
Import RayleighTaylor.


Lemma rt_save_fields_calls (s : State L) :
  ∃ s' evs, save_fields L s = Ok tt s' ∧ trace s' = trace s ++ evs
            ∧ calls_on "fig1" evs = [("save_image", [])]%string
            ∧ calls_on "velocityField" evs = [("save", []); ("xdmf", [])]%string
            ∧ calls_on "pressureField" evs = [("save", []); ("xdmf", [])]%string
            ∧ returned "stokes" "velocity_rms" evs = [].
Proof.
  unfold save_fields. do 4 call_step.
  eexists _, _. split; [reflexivity|]. cbn.
  rewrite Htrace2, Htrace1, Htrace0, Htrace. rewrite <- !app_assoc.
  split; [reflexivity|]. repeat split; reflexivity.
Qed.

Lemma rt_pass (v : Vars) (s : State L) :
  ∃ x v' s' evs,
    loop_body L rank v s = Ok v' s'
    ∧ trace s' = trace s ++ evs
    ∧ step v' = (step v + 1)%Z
    ∧ returned "stokes" "velocity_rms" evs = [x]
    ∧ timeVal v' = (if (rank =? 0)%nat then timeVal v ++ [time v] else timeVal v)
    ∧ vrmsVal v' = (if (rank =? 0)%nat then vrmsVal v ++ [x] else vrmsVal v)
    ∧ calls_on "fig1" evs
      = (if (step v mod outputEvery =? 0)%Z then [("save_image", [])] else [])%string
    ∧ calls_on "velocityField" evs
      = (if (step v mod outputEvery =? 0)%Z then [("save", []); ("xdmf", [])] else [])%string
    ∧ calls_on "pressureField" evs
      = (if (step v mod outputEvery =? 0)%Z then [("save", []); ("xdmf", [])] else [])%string.
Proof.
  unfold loop_body. call_step. call_step.
  assert (∃ s2 evs,
            (if (step v mod outputEvery =? 0)%Z then save_fields L else ret tt) s1
            = Ok tt s2 ∧ trace s2 = trace s1 ++ evs
            ∧ calls_on "fig1" evs
              = (if (step v mod outputEvery =? 0)%Z then [("save_image", [])] else [])%string
            ∧ calls_on "velocityField" evs
              = (if (step v mod outputEvery =? 0)%Z
                 then [("save", []); ("xdmf", [])] else [])%string
            ∧ calls_on "pressureField" evs
              = (if (step v mod outputEvery =? 0)%Z
                 then [("save", []); ("xdmf", [])] else [])%string
            ∧ returned "stokes" "velocity_rms" evs = [])
    as (s2 & evs & Hsave & Htr2 & Hfig & Hvel & Hpre & Hret).
  { destruct (_ =? _)%Z.
    - destruct (rt_save_fields_calls s1) as (s2 & evs & H). by exists s2, evs.
    - exists s1, []. by rewrite app_nil_r. }
  unfold bind at 1. rewrite Hsave.
  destruct (rt_update_spec L (time v) (step v) s2) as (dt & s3 & Hup & Htr3).
  unfold bind at 1. rewrite Hup.
  eexists x, _, s3, _. split; [reflexivity|].
  cbn [time step vrms timeVal vrmsVal fst snd].
  split; [rewrite Htr3, Htr2, Htrace0, Htrace, <- !app_assoc; reflexivity|].
  split; [reflexivity|].
  rewrite !returned_app, !calls_on_app, Hret, Hfig, Hvel, Hpre. cbn.
  rewrite !app_nil_r. repeat split; reflexivity.
Qed.

Lemma rt_passes_spec (n : nat) : ∀ (k : nat) (v : Vars) (s : State L),
  step v = Z.of_nat k →
  ∃ vn sn evs,
    passes L rank n v s = Ok vn sn
    ∧ trace sn = trace s ++ evs
    ∧ step vn = Z.of_nat (k + n)
    ∧ length (returned "stokes" "velocity_rms" evs) = n
    ∧ (if (rank =? 0)%nat
       then (∃ ts, timeVal vn = timeVal v ++ ts ∧ length ts = n
                   ∧ (0 < n → head ts = Some (time v)))
            ∧ vrmsVal vn = vrmsVal v ++ returned "stokes" "velocity_rms" evs
       else timeVal vn = timeVal v ∧ vrmsVal vn = vrmsVal v)
    ∧ calls_on "fig1" evs
      = flat_map (λ _, [("save_image", [])]%string)
                 (filter (λ i, (Z.of_nat i mod outputEvery = 0)%Z) (seq k n))
    ∧ calls_on "velocityField" evs
      = flat_map (λ _, [("save", []); ("xdmf", [])]%string)
                 (filter (λ i, (Z.of_nat i mod outputEvery = 0)%Z) (seq k n))
    ∧ calls_on "pressureField" evs
      = flat_map (λ _, [("save", []); ("xdmf", [])]%string)
                 (filter (λ i, (Z.of_nat i mod outputEvery = 0)%Z) (seq k n)).
Proof.
  induction n as [|n IH]; intros k v s Hk.
  - exists v, s, []. cbn [passes]. unfold ret. rewrite app_nil_r, Nat.add_0_r.
    split; [reflexivity|]. split; [reflexivity|]. split; [exact Hk|].
    split; [reflexivity|]. split.
    + destruct (rank =? 0)%nat; [|done]. split; [|by rewrite app_nil_r].
      exists []. rewrite app_nil_r. split; [reflexivity|]. split; [reflexivity|lia].
    + repeat split; reflexivity.
  - destruct (rt_pass v s)
      as (x & v1 & s1 & evs1 & Hrun & Htr & Hst & Hret & Htime & Hvrms & Hfig & Hvel & Hpre).
    destruct (IH (S k) v1 s1) as (vn & sn & evs & Hpass & Htrn & Hstn & Hretn & Hrec & Hsaves);
      [rewrite Hst, Hk; lia|].
    exists vn, sn, (evs1 ++ evs). cbn [passes]. unfold bind at 1. rewrite Hrun.
    split; [exact Hpass|]. split; [by rewrite Htrn, Htr, app_assoc|].
    split; [rewrite Hstn; f_equal; lia|].
    rewrite !returned_app, !calls_on_app, !length_app, Hret, Hretn.
    split; [reflexivity|]. split.
    + destruct (rank =? 0)%nat.
      * destruct Hrec as [(ts & Hts & Hlen & _) Hvs]. split.
        -- exists (time v :: ts). rewrite Hts, Htime, <- app_assoc.
           split; [reflexivity|]. split; [cbn; by rewrite Hlen|done].
        -- by rewrite Hvs, Hvrms, <- app_assoc.
      * destruct Hrec as [Hts Hvs]. by rewrite Hts, Hvs, Htime, Hvrms.
    + destruct Hsaves as (Hfign & Hveln & Hpren).
      rewrite Hfig, Hvel, Hpre, Hfign, Hveln, Hpren. cbn [seq].
      rewrite filter_cons. rewrite <- Hk.
      destruct (Z.eqb_spec (step v mod outputEvery) 0) as [Heq|Hne].
      * rewrite decide_True by done. repeat split; reflexivity.
      * rewrite decide_False by done. repeat split; reflexivity.
Qed.

Lemma saved_passes_length (n : nat) : length (saved_passes n) = (n + 19) / 20.
Proof.
  unfold saved_passes. induction n as [|n IH]; [reflexivity|].
  rewrite seq_S, filter_app, length_app, IH, Nat.add_0_l.
  rewrite filter_cons, filter_nil. unfold outputEvery.
  pose proof (Nat.div_mod_eq n 20) as Hn.
  pose proof (Nat.mod_upper_bound n 20) as B0.
  pose proof (Nat.div_mod_eq (n + 19) 20) as H1.
  pose proof (Nat.div_mod_eq (S n + 19) 20) as H2.
  pose proof (Nat.mod_upper_bound (n + 19) 20) as B1.
  pose proof (Nat.mod_upper_bound (S n + 19) 20) as B2.
  destruct (decide (Z.of_nat n mod 20 = 0)%Z) as [Heq|Hne]; cbn [length].
  - assert (n mod 20 = 0) as Hm
        by (apply Nat2Z.inj; rewrite Nat2Z.inj_mod; exact Heq).
    lia.
  - assert (n mod 20 ≠ 0) as Hm
        by (intros Hm; apply Hne; change 20%Z with (Z.of_nat 20);
            rewrite <- Nat2Z.inj_mod, Hm; reflexivity).
    lia.
Qed.

(** X3.  In the Rayleigh-Taylor loop the pass numbered [i] (from 0) runs with
    [step = i], and writes the velocity, the pressure and an image to
    disk exactly when [i] is a multiple of [outputEvery = 20].  So [n]
    passes write [(n + 19) / 20] times, the first pass being one of
    them. *)
Theorem rt_output_every_20_steps (n : nat) (s : State L) :
  ∃ vn sn evs,
    passes L rank n start s = Ok vn sn
    ∧ trace sn = trace s ++ evs
    ∧ step vn = Z.of_nat n
    ∧ calls_on "fig1" evs = flat_map (λ _, [("save_image", [])]%string) (saved_passes n)
    ∧ calls_on "velocityField" evs
      = flat_map (λ _, [("save", []); ("xdmf", [])]%string) (saved_passes n)
    ∧ calls_on "pressureField" evs
      = flat_map (λ _, [("save", []); ("xdmf", [])]%string) (saved_passes n)
    ∧ length (saved_passes n) = (n + 19) / 20
    ∧ (∀ i, i ∈ saved_passes n ↔ i < n ∧ (Z.of_nat i mod 20 = 0)%Z).
Proof.
  destruct (rt_passes_spec n 0 start s eq_refl)
    as (vn & sn & evs & Hpass & Htr & Hst & _ & _ & Hfig & Hvel & Hpre).
  exists vn, sn, evs. split; [exact Hpass|]. split; [exact Htr|].
  split; [exact Hst|]. split; [exact Hfig|]. split; [exact Hvel|].
  split; [exact Hpre|]. split; [apply saved_passes_length|].
  intros i. unfold saved_passes. rewrite list_elem_of_filter, elem_of_seq.
  unfold outputEvery. split; intros [? ?]; split; auto; lia.
Qed.

Lemma rt_while_is_passes (fuel : nat) : ∀ (v v' : Vars) (s s' : State L),
  while (running uw_longtest) (loop_body L rank) fuel v s = Ok v' s' →
  ∃ n, passes L rank n v s = Ok v' s' ∧ (running uw_longtest v = true → 1 ≤ n).
Proof.
  induction fuel as [|fuel IH]; intros v v' s s' Hrun; cbn [while] in Hrun.
  - destruct (running uw_longtest v) eqn:Hgo; [discriminate|].
    exists 0. split; [exact Hrun|discriminate].
  - destruct (running uw_longtest v) eqn:Hgo.
    + unfold bind in Hrun. destruct (loop_body L rank v s) as [v1 s1| |] eqn:Hbody;
        try discriminate.
      destruct (IH _ _ _ _ Hrun) as (n & Hpass & _).
      exists (S n). split; [|lia]. cbn [passes]. unfold bind at 1. by rewrite Hbody.
    + exists 0. split; [exact Hrun|discriminate].
Qed.

(** X4.  When the Rayleigh-Taylor loop has ended, it has made at least one
    pass.  On rank 0 [timeVal] and [vrmsVal] then hold one entry per
    pass, [timeVal] starting at 0.0 and [vrmsVal] being the values
    [stokes.velocity_rms()] returned, so the summary that follows finds
    a maximum and a time for it; on any other rank both lists are empty. *)
Theorem rt_loop_records_every_pass
    (fuel : nat) (s : State L) (v : Vars) (s' : State L) :
  time_stepping L uw_longtest rank fuel s = Ok v s' →
  ∃ n evs,
    passes L rank n start s = Ok v s'
    ∧ 1 ≤ n
    ∧ step v = Z.of_nat n
    ∧ trace s' = trace s ++ evs
    ∧ (if (rank =? 0)%nat
       then length (timeVal v) = n ∧ length (vrmsVal v) = n
            ∧ head (timeVal v) = Some 0%float
            ∧ vrmsVal v = returned "stokes" "velocity_rms" evs
       else timeVal v = [] ∧ vrmsVal v = []).
Proof.
  intros Hrun. unfold time_stepping in Hrun.
  destruct (rt_while_is_passes fuel _ _ _ _ Hrun) as (n & Hpass & Hn).
  assert (1 ≤ n) as Hn1.
  { apply Hn. unfold running, start, time, model_end_time.
    by destruct uw_longtest. }
  destruct (rt_passes_spec n 0 start s eq_refl)
    as (vn & sn & evs & Hpass' & Htr & Hst & Hlen & Hrec & _).
  rewrite Hpass in Hpass'. injection Hpass' as <- <-.
  exists n, evs. split; [exact Hpass|]. split; [exact Hn1|].
  split; [exact Hst|]. split; [exact Htr|].
  destruct (rank =? 0)%nat; [|exact Hrec].
  destruct Hrec as [(ts & Hts & Hlts & Hhead) Hvs]. cbn [timeVal vrmsVal start app] in Hts, Hvs.
  rewrite Hts, Hvs. repeat split; auto.
Qed.

End RayleighTaylorSeries.

(** The loop on a library whose time steps are all 2.0: two passes. *)
Lemma rt_loop_records_every_pass_witness :
  ∃ v s',
    RayleighTaylor.time_stepping (scripted_library (λ _, 2.0%float)) false 0 2
                                 (demo_state (λ _, 2.0%float)) = Ok v s'
    ∧ ∃ n evs,
        RayleighTaylor.passes (scripted_library (λ _, 2.0%float)) 0 n RayleighTaylor.start
                              (demo_state (λ _, 2.0%float)) = Ok v s'
        ∧ 1 ≤ n
        ∧ RayleighTaylor.step v = Z.of_nat n
        ∧ trace s' = trace (demo_state (λ _, 2.0%float)) ++ evs
        ∧ (if (0 =? 0)%nat
           then length (RayleighTaylor.timeVal v) = n ∧ length (RayleighTaylor.vrmsVal v) = n
                ∧ head (RayleighTaylor.timeVal v) = Some 0%float
                ∧ RayleighTaylor.vrmsVal v = returned "stokes" "velocity_rms" evs
           else RayleighTaylor.timeVal v = [] ∧ RayleighTaylor.vrmsVal v = []).
Proof.
  eexists _, _. split; [vm_compute; reflexivity|].
  apply (rt_loop_records_every_pass (scripted_library (λ _, 2.0%float)) false 0 2
           (demo_state (λ _, 2.0%float))).
  vm_compute. reflexivity.
Defined.

(** ** Rayleigh-Taylor: the test cell *)

Section RayleighTaylorCheck.
Context (L : Library) (format : float → string).
Import RayleighTaylor.

(** X5.  The test cell of the Rayleigh-Taylor notebook asks for the RMS
    velocity and passes when [np.isclose] finds it at
    [1.83340219912e-4]; otherwise it asks for the RMS velocity a second
    time and raises [RuntimeError] with that second value in the message.
    The cell does not look at [UW_LONGTEST]: the check is made in a long
    run too. *)
Theorem rt_test_cell_outcome (s : State L) :
  ∃ x s1,
    trace s1 = trace s ++ [Call "stokes" "velocity_rms" [] (Some x)]
    ∧ (x, mem s1) = method_float L "stokes" "velocity_rms" [] (mem s)
    ∧ (Np.isclose x 1.83340219912e-4 = true → test_cell L format s = Ok tt s1)
    ∧ (Np.isclose x 1.83340219912e-4 = false →
       ∃ y s2,
         test_cell L format s
         = Raise (Py.RuntimeError
                    ("The Velocity RMS " +:+ format y +:+ " is not close to expected value"))
                 s2
         ∧ trace s2 = trace s1 ++ [Call "stokes" "velocity_rms" [] (Some y)]
         ∧ (y, mem s2) = method_float L "stokes" "velocity_rms" [] (mem s1)).
Proof.
  unfold test_cell. change (negb longtest) with true. cbv iota.
  call_step. exists x, s0. split; [exact Htrace|]. split; [exact Hmem|].
  destruct (Np.isclose x _); cbn [negb]; (split; [intros ?|intros ?]); try discriminate.
  - reflexivity.
  - call_step. exists x0, s1. by split.
Qed.

End RayleighTaylorCheck.

(** ** Uplift: the material of the particles *)

Section UpliftMaterial.
Context (L : Library) (p : Uplift.Scaled).
Import Uplift UpliftSwarm.

Abbreviation MV := "materialVariable"%string.

Lemma material_loop (cs : list (list float)) :
  ∀ (k : nat) (pre : list (list float)) (s : State L),
    length pre = k →
    Forall (λ c, 2 ≤ length c) cs →
    heap s !! MV = Some (FloatArr (pre ++ map (λ _, [0%float]) cs)) →
    ∃ evs,
      for_enum k cs (λ index coord,
        match coord !! 1 with
        | Some y => if (y <? Ly p * 0.6)%float
                    then set_scalar MV index 1
                    else ret tt
        | None => raise Py.IndexError
        end) s
      = Ok tt (with_rows s MV (pre ++ map (λ c, [material p c]) cs) evs)
      ∧ Forall (λ e, e = Write MV) evs.
Proof.
  induction cs as [|c cs IH]; intros k pre s Hk Hcs Hh.
  - exists []. cbn. split; [|constructor]. by rewrite with_rows_same.
  - apply Forall_cons in Hcs as [Hc Hcs].
    destruct c as [|x [|y c]]; cbn in Hc; try lia.
    cbn [map] in Hh. cbn [for_enum map]. unfold bind at 1. cbn [lookup list_lookup].
    unfold material at 1. cbn [lookup list_lookup].
    destruct (y <? Ly p * 0.6)%float.
    + rewrite (set_scalar_ok MV k 1 _ [0%float] s Hh); [|by apply list_lookup_middle].
      rewrite (insert_middle _ _ _ _ _ Hk). cbn [length replicate].
      destruct (IH (S k) (pre ++ [[1%float]])
                  (with_rows s MV (pre ++ [1%float] :: map (λ _, [0%float]) cs) [Write MV]))
        as (evs & Hrun & Hevs).
      * rewrite length_app. cbn. lia.
      * done.
      * rewrite with_rows_heap. by rewrite <- app_assoc.
      * exists (Write MV :: evs). rewrite Hrun, with_rows_twice, <- app_assoc.
        split; [reflexivity|]. by constructor.
    + unfold ret at 1.
      destruct (IH (S k) (pre ++ [[0%float]]) s) as (evs & Hrun & Hevs).
      * rewrite length_app. cbn. lia.
      * done.
      * by rewrite <- app_assoc.
      * exists evs. rewrite Hrun, <- app_assoc. done.
Qed.

(** X6.  The swarm cell of the uplift notebook, once the layout has populated
    the swarm with two-dimensional particles and given the material
    variable one value per particle: when the loop over the particles
    ends, the material of a particle is 1 if its height is below
    [Ly*0.6] and 0 otherwise, whatever the variable held before; the
    rest of the cell (population control, tracer swarm) runs from there. *)
Theorem uplift_material_below_surface
    (s : State L) (coords mats : list (list float)) :
  (populated L s).1 !! "swarm.particleCoordinates" = Some (FloatArr coords) →
  (populated L s).1 !! MV = Some (FloatArr mats) →
  length mats = length coords →
  Forall (λ r, length r = 1) mats →
  Forall (λ c, 2 ≤ length c) coords →
  ∃ s1 rows,
    create_swarm L p s = tracer_swarm L p s1
    ∧ heap s1 !! MV = Some (FloatArr rows)
    ∧ length rows = length coords
    ∧ (∀ i x y c, coords !! i = Some (x :: y :: c) →
         rows !! i = Some [if (y <? Ly p * 0.6)%float then 1%float else 0%float])
    ∧ heap s1 !! "swarm.particleCoordinates" = Some (FloatArr coords).
Proof.
  intros Hc Hm Hlen Hw Hcs.
  unfold create_swarm.
  unfold bind at 1. unfold add_swarm at 1. cbv beta iota.
  unfold bind at 1. unfold construct at 1, emit at 1. cbv beta iota.
  unfold bind at 1. unfold add_swarm_variable at 1. cbv beta iota.
  unfold bind at 1. unfold construct at 1, emit at 1. cbv beta iota.
  cbn [heap hidden trace].
  call_step.
  assert (mem s0 = populated L s) as Hs0 by (rewrite Hmem; reflexivity).
  unfold mem in Hs0. rewrite <- Hs0 in Hc, Hm. cbn [fst] in Hc, Hm.
  unfold bind at 1. rewrite (fill_ok MV 0 mats s0 Hm). cbv beta iota.
  assert (map (λ old : list float, replicate (length old) 0%float) mats
          = map (λ _, [0%float]) coords) as ->.
  { clear -Hlen Hw. revert coords Hlen.
    induction Hw as [|r mats Hr _ IH]; intros [|c coords] Hlen; try done.
    cbn. rewrite Hr. cbn. f_equal. apply IH. by injection Hlen. }
  unfold bind at 1. unfold get_rows at 1.
  assert (heap (with_rows s0 MV (map (λ _, [0%float]) coords) [Write MV])
            !! "swarm.particleCoordinates" = Some (FloatArr coords)) as Hc'.
  { unfold with_rows. cbn [heap]. by rewrite lookup_insert_ne. }
  rewrite Hc'. cbv beta iota.
  destruct (material_loop coords 0 []
              (with_rows s0 MV (map (λ _, [0%float]) coords) [Write MV]))
    as (evs & Hrun & Hevs); [done|done|apply with_rows_heap|].
  unfold bind at 1. rewrite Hrun. cbv beta iota. rewrite with_rows_twice.
  cbn [app].
  eexists _, _. split; [reflexivity|]. split; [apply with_rows_heap|].
  split; [by rewrite length_map|]. split.
  - intros i x y c Hi. rewrite list_lookup_fmap, Hi. reflexivity.
  - unfold with_rows. cbn [heap]. by rewrite lookup_insert_ne.
Qed.

End UpliftMaterial.

(** The cell on a library whose layout yields three particles, for a box
    of height 0.6: the surface is at 0.36, two particles lie below it. *)
Lemma uplift_material_below_surface_witness :
  let particles := [[0.1; 0.1]; [0.5; 0.9]; [0.3; 0.35]]%float in
  let mats := [[0.5]; [0.5]; [0.5]]%float in
  let s := mkState (L:=seeded_library particles) ∅ 0 [] in
  (UpliftSwarm.populated (seeded_library particles) s).1 !! "swarm.particleCoordinates"
  = Some (FloatArr particles)
  ∧ (UpliftSwarm.populated (seeded_library particles) s).1 !! "materialVariable"
    = Some (FloatArr mats)
  ∧ length mats = length particles
  ∧ Forall (λ r, length r = 1) mats
  ∧ Forall (λ c, 2 ≤ length c) particles
  ∧ ∃ s1 rows,
      Uplift.create_swarm (seeded_library particles) uplift_demo s
      = UpliftSwarm.tracer_swarm (seeded_library particles) uplift_demo s1
      ∧ heap s1 !! "materialVariable" = Some (FloatArr rows)
      ∧ length rows = length particles
      ∧ (∀ i x y c, particles !! i = Some (x :: y :: c) →
           rows !! i = Some [if (y <? Uplift.Ly uplift_demo * 0.6)%float
                             then 1%float else 0%float])
      ∧ heap s1 !! "swarm.particleCoordinates" = Some (FloatArr particles).
Proof.
  intros particles mats s.
  assert ((UpliftSwarm.populated (seeded_library particles) s).1
            !! "swarm.particleCoordinates" = Some (FloatArr particles)) as Hc
      by (vm_compute; reflexivity).
  assert ((UpliftSwarm.populated (seeded_library particles) s).1 !! "materialVariable"
          = Some (FloatArr mats)) as Hm
      by (vm_compute; reflexivity).
  assert (Forall (λ r, length r = 1) mats) as Hw by (repeat constructor).
  assert (Forall (λ c, 2 ≤ length c) particles) as Hp by (repeat constructor).
  split; [exact Hc|]. split; [exact Hm|]. split; [reflexivity|].
  split; [exact Hw|]. split; [exact Hp|].
  exact (uplift_material_below_surface (seeded_library particles) uplift_demo s
           particles mats Hc Hm eq_refl Hw Hp).
Defined.

(** ** Uplift: the passes of the loop and the check *)

Section UpliftHeights.
Context (L : Library) (metres : float → float).
Import Uplift.

Lemma uplift_loop_init_heights (s : State L) :
  ∃ v s' evs,
    loop_init L s = Ok v s'
    ∧ trace s' = trace s ++ evs
    ∧ steps v = 0%Z
    ∧ returned "fn_y_minmax" "max_global" evs = [h1 v]
    ∧ integrations evs = []
    ∧ calls_on "solver" evs = [].
Proof.
  unfold loop_init. do 3 call_step.
  eexists _, _, _. split; [reflexivity|]. cbn [steps h1].
  rewrite Htrace1, Htrace0, Htrace, <- !app_assoc.
  split; [reflexivity|]. repeat split; reflexivity.
Qed.

Lemma uplift_pass_spec (v : Vars) (s : State L) :
  ∃ v' s' evs,
    loop_body L v s = Ok v' s'
    ∧ trace s' = trace s ++ evs
    ∧ steps v' = (steps v + 1)%Z
    ∧ calls_on "solver" evs = [("solve", [])]%string
    ∧ integrations evs = [("advector", [dt v']); ("msAdvector", [dt v'])]%string
    ∧ (if (dt v <? 0)%float then max_dts evs = [dt v']
       else max_dts evs = [] ∧ dt v' = dt v)
    ∧ returned "fn_y_minmax" "max_global" evs = [h1 v']
    ∧ h0 v' = Some (h1 v)
    ∧ diffH v' = Some (h1 v' - h1 v)%float.
Proof.
  unfold loop_body. call_step.
  destruct (dt v <? 0)%float eqn:Hneg.
  - do 9 call_step.
    eexists _, _, _. split; [reflexivity|]. cbn [dt steps h0 h1 diffH].
    rewrite Htrace8, Htrace7, Htrace6, Htrace5, Htrace4, Htrace3, Htrace2,
      Htrace1, Htrace0, Htrace, <- !app_assoc.
    split; [reflexivity|]. repeat split; reflexivity.
  - unfold bind at 1, ret at 1. do 8 call_step.
    eexists _, _, _. split; [reflexivity|]. cbn [dt steps h0 h1 diffH].
    rewrite Htrace7, Htrace6, Htrace5, Htrace4, Htrace3, Htrace2,
      Htrace1, Htrace0, Htrace, <- !app_assoc.
    split; [reflexivity|]. repeat split; reflexivity.
Qed.

(** X7.  One pass of the uplift loop, whatever [dt] is: the library is asked
    for a time step exactly when [dt] is negative; both swarms are then
    advected with one and the same [dt]; [h0] takes the previous height,
    [h1] the height measured after the advection, [diffH] their
    difference. *)
Theorem uplift_pass (v : Vars) (s : State L) :
  ∃ v' s' evs,
    loop_body L v s = Ok v' s'
    ∧ trace s' = trace s ++ evs
    ∧ steps v' = (steps v + 1)%Z
    ∧ calls_on "solver" evs = [("solve", [])]%string
    ∧ integrations evs = [("advector", [dt v']); ("msAdvector", [dt v'])]%string
    ∧ (if (dt v <? 0)%float then max_dts evs = [dt v']
       else max_dts evs = [] ∧ dt v' = dt v)
    ∧ returned "fn_y_minmax" "max_global" evs = [h1 v']
    ∧ h0 v' = Some (h1 v)
    ∧ diffH v' = Some (h1 v' - h1 v)%float.
Proof. apply uplift_pass_spec. Qed.

(** X8.  The uplift loop always ends after [model_end_step = 3] passes,
    whatever the library returns.  The height was measured four times
    (once before the loop); [h0] and [h1] are the last two measures and
    [diffH] their difference, so the test cell finds [diffH] bound: it
    raises [RuntimeError] when the height gained in the last pass, in
    metres, is more than 5% away from 245.140, and passes otherwise.  In
    each pass the two swarms were advected with the same step. *)
Theorem uplift_loop_measures_last_rise (s : State L) (extra : nat) :
  ∃ v s' evs a0 a1 a2 a3 d1 d2 d3,
    time_stepping L (3 + extra) s = Ok v s'
    ∧ trace s' = trace s ++ evs
    ∧ steps v = 3%Z
    ∧ length (calls_on "solver" evs) = 3
    ∧ returned "fn_y_minmax" "max_global" evs = [a0; a1; a2; a3]
    ∧ h0 v = Some a2 ∧ h1 v = a3 ∧ diffH v = Some (a3 - a2)%float
    ∧ integrations evs
      = [ ("advector", [d1]); ("msAdvector", [d1]);
          ("advector", [d2]); ("msAdvector", [d2]);
          ("advector", [d3]); ("msAdvector", [d3]) ]%string
    ∧ test_cell L metres v s'
      = if (0.05 * 245.140 <? PrimFloat.abs (metres (a3 - a2) - 245.140))%float
        then Raise (Py.RuntimeError "Height of passive tracer outside expected 5% tolerance") s'
        else Ok tt s'.
Proof.
  destruct (uplift_loop_init_heights s)
    as (v0 & s0 & evs0 & Hinit & Htr0 & Hst0 & Hret0 & Hint0 & Hsol0).
  destruct (uplift_pass_spec v0 s0)
    as (v1 & s1 & evs1 & Hrun1 & Htr1 & Hst1 & Hsol1 & Hint1 & _ & Hret1 & _ & _).
  destruct (uplift_pass_spec v1 s1)
    as (v2 & s2 & evs2 & Hrun2 & Htr2 & Hst2 & Hsol2 & Hint2 & _ & Hret2 & _ & _).
  destruct (uplift_pass_spec v2 s2)
    as (v3 & s3 & evs3 & Hrun3 & Htr3 & Hst3 & Hsol3 & Hint3 & _ & Hret3 & Hh0 & Hdiff).
  exists v3, s3, (evs0 ++ evs1 ++ evs2 ++ evs3), (h1 v0), (h1 v1), (h1 v2), (h1 v3),
    (dt v1), (dt v2), (dt v3).
  split; [|split; [|split; [|split; [|split; [|split; [|split; [|split; [|split]]]]]]]].
  - unfold time_stepping. unfold bind at 1. rewrite Hinit.
    change (3 + extra) with (S (S (S extra))).
    cbn [while]. rewrite Hst0. change (0 <? model_end_step)%Z with true. cbv iota.
    unfold bind at 1. rewrite Hrun1.
    cbn [while]. rewrite Hst1, Hst0. change (0 + 1 <? model_end_step)%Z with true. cbv iota.
    unfold bind at 1. rewrite Hrun2.
    cbn [while]. rewrite Hst2, Hst1, Hst0.
    change (0 + 1 + 1 <? model_end_step)%Z with true. cbv iota.
    unfold bind at 1. rewrite Hrun3.
    assert ((steps v3 <? model_end_step)%Z = false) as Hend
        by (rewrite Hst3, Hst2, Hst1, Hst0; reflexivity).
    destruct extra; cbn [while]; by rewrite Hend.
  - rewrite Htr3, Htr2, Htr1, Htr0. by rewrite <- !app_assoc.
  - rewrite Hst3, Hst2, Hst1, Hst0. reflexivity.
  - rewrite !calls_on_app, Hsol0, Hsol1, Hsol2, Hsol3. reflexivity.
  - rewrite !returned_app, Hret0, Hret1, Hret2, Hret3. reflexivity.
  - exact Hh0.
  - reflexivity.
  - exact Hdiff.
  - rewrite !integrations_app, Hint0, Hint1, Hint2, Hint3. reflexivity.
  - unfold test_cell. rewrite Hdiff. by destruct (_ <? _)%float.
Qed.

End UpliftHeights.

Section UpliftCheck.
Context (L : Library) (metres : float → float).
Import Uplift.

(** X9.  The test cell of the uplift notebook, [diffH] being bound: it raises
    exactly when the rise in metres is more than 5% of 245.140 away from
    245.140, as [>] on binary64 decides it.  A rise that is not a number
    is not "more than" anything, and passes. *)
Theorem uplift_check_outcome (v : Vars) (d : float) (s : State L) :
  diffH v = Some d →
  (test_cell L metres v s
   = Raise (Py.RuntimeError "Height of passive tracer outside expected 5% tolerance") s
   ↔ (0.05 * 245.140 <? PrimFloat.abs (metres d - 245.140))%float = true)
  ∧ (test_cell L metres v s = Ok tt s
     ↔ (0.05 * 245.140 <? PrimFloat.abs (metres d - 245.140))%float = false)
  ∧ (metres d = nan → test_cell L metres v s = Ok tt s).
Proof.
  intros Hd. unfold test_cell. rewrite Hd. split; [|split].
  - destruct (_ <? _)%float; split; intros H; try reflexivity; discriminate.
  - destruct (_ <? _)%float; split; intros H; try reflexivity; discriminate.
  - intros ->. reflexivity.
Qed.

End UpliftCheck.

(** A rise of 0.0024514, and a conversion to metres that yields no number. *)
Lemma uplift_check_outcome_witness :
  let v := {| Uplift.dt := 0.5; Uplift.steps := 3; Uplift.h0 := Some 0.6%float;
              Uplift.h1 := 0.6024514; Uplift.diffH := Some 0.0024514%float |} in
  Uplift.diffH v = Some 0.0024514%float
  ∧ (Uplift.test_cell demo_library (λ d, (d - d) / 0)%float v (demo_state (λ _, 0.5%float))
     = Raise (Py.RuntimeError "Height of passive tracer outside expected 5% tolerance")
             (demo_state (λ _, 0.5%float))
     ↔ (0.05 * 245.140 <? PrimFloat.abs ((0.0024514 - 0.0024514) / 0 - 245.140))%float = true)
  ∧ (Uplift.test_cell demo_library (λ d, (d - d) / 0)%float v (demo_state (λ _, 0.5%float))
     = Ok tt (demo_state (λ _, 0.5%float))
     ↔ (0.05 * 245.140 <? PrimFloat.abs ((0.0024514 - 0.0024514) / 0 - 245.140))%float = false)
  ∧ (((0.0024514 - 0.0024514) / 0)%float = nan →
     Uplift.test_cell demo_library (λ d, (d - d) / 0)%float v (demo_state (λ _, 0.5%float))
     = Ok tt (demo_state (λ _, 0.5%float))).
Proof.
  intros v. split; [reflexivity|].
  apply (uplift_check_outcome demo_library (λ d, (d - d) / 0)%float v 0.0024514%float
           (demo_state (λ _, 0.5%float))).
  reflexivity.
Defined.

(** ** Blankenbach benchmark: the wall temperatures *)

Section BlankenbachWalls.
Context (L : Library).
Import Blankenbach.

Abbreviation T := "temperatureField"%string.

Lemma blankenbach_set_walls_spec (rows : list (list float)) (s : State L) :
  heap s !! T = Some (FloatArr rows) → length rows = length (data (mesh L)) →
  mesh_ok (mesh L) = true →
  set_walls L s
  = Ok tt (with_rows s T
             (overwrite (MaxJ_VertexSet (mesh L)) tempMin
                (overwrite (MinJ_VertexSet (mesh L)) tempMax rows))
             (map (λ _, Write T) (MinJ_VertexSet (mesh L))
              ++ map (λ _, Write T) (MaxJ_VertexSet (mesh L)))).
Proof.
  intros Hh Hlen Hok. unfold mesh_ok in Hok.
  apply andb_true_iff in Hok as [Hok Htop].
  apply andb_true_iff in Hok as [_ Hbot].
  unfold set_walls. unfold special_set, specialSets. cbn [String.eqb Ascii.eqb Bool.eqb orb].
  unfold bind at 1. unfold ret at 1.
  unfold bind at 1.
  rewrite (for_each_set_scalar T tempMax _ rows); [|done|by rewrite Hlen].
  unfold bind at 1. unfold ret at 1.
  rewrite (for_each_set_scalar T tempMin _ (overwrite (MinJ_VertexSet (mesh L)) tempMax rows));
    [|apply with_rows_heap|by rewrite length_overwrite, Hlen].
  rewrite with_rows_twice. reflexivity.
Qed.

(** X10.  Whatever temperature field the Blankenbach notebook loaded (one value
    per node), once its wall loops have run every node of the top wall
    holds [tempMin = 0.0], every node of the bottom wall that is not also
    on the top wall holds [tempMax = 1.0], and every other node holds
    the value it had. *)
Theorem blankenbach_walls_hold_boundary_values (rows : list (list float)) (s : State L) :
  heap s !! T = Some (FloatArr rows) →
  length rows = length (data (mesh L)) →
  Forall (λ r, length r = 1) rows →
  mesh_ok (mesh L) = true →
  ∃ s' rows',
    set_walls L s = Ok tt s'
    ∧ heap s' !! T = Some (FloatArr rows')
    ∧ length rows' = length rows
    ∧ (∀ i, i ∈ MaxJ_VertexSet (mesh L) → rows' !! i = Some [tempMin])
    ∧ (∀ i, i ∈ MinJ_VertexSet (mesh L) → i ∉ MaxJ_VertexSet (mesh L) →
            rows' !! i = Some [tempMax])
    ∧ (∀ i, i ∉ MinJ_VertexSet (mesh L) → i ∉ MaxJ_VertexSet (mesh L) →
            rows' !! i = rows !! i).
Proof.
  intros Hh Hlen Hw Hok.
  pose proof Hok as Hok'. unfold mesh_ok in Hok'.
  apply andb_true_iff in Hok' as [Hok' Htop].
  apply andb_true_iff in Hok' as [_ Hbot].
  rewrite in_range_spec in Htop, Hbot.
  eexists _, _. split; [by apply blankenbach_set_walls_spec|].
  split; [apply with_rows_heap|]. split; [by rewrite !length_overwrite|].
  assert (∀ i, i < length rows → ∃ x, rows !! i = Some [x]) as Hrow.
  { intros i Hi. destruct (lookup_lt_is_Some_2 rows i Hi) as [r Hr].
    assert (length r = 1) as Hr1
        by (eapply Forall_forall in Hw; [exact Hw|]; eapply list_elem_of_lookup_2, Hr).
    destruct r as [|x [|]]; try done. by exists x. }
  split; [|split].
  - intros i Hi. destruct (Hrow i) as [x Hx]; [rewrite Hlen; auto|].
    rewrite !lookup_overwrite, Hx. cbn.
    rewrite (bool_decide_eq_true_2 _ Hi). by destruct (bool_decide _).
  - intros i Hi Hni. destruct (Hrow i) as [x Hx]; [rewrite Hlen; auto|].
    rewrite !lookup_overwrite, Hx. cbn.
    by rewrite (bool_decide_eq_true_2 _ Hi), (bool_decide_eq_false_2 _ Hni).
  - intros i Hnb Hnt. rewrite !lookup_overwrite.
    destruct (rows !! i); [|done]. cbn.
    by rewrite (bool_decide_eq_false_2 _ Hnb), (bool_decide_eq_false_2 _ Hnt).
Qed.

End BlankenbachWalls.

(** The wall loops on the 128 x 128 grid of the reference library, run
    on a field that holds at every node its x-coordinate. *)
Lemma blankenbach_walls_hold_boundary_values_witness :
  let rows := map (λ c : float * float, [c.1]) (data (Blankenbach.mesh demo_library)) in
  let s := mkState (L:=demo_library) (<["temperatureField" := FloatArr rows]> ∅) 0 [] in
  heap s !! "temperatureField" = Some (FloatArr rows)
  ∧ length rows = length (data (Blankenbach.mesh demo_library))
  ∧ Forall (λ r, length r = 1) rows
  ∧ mesh_ok (Blankenbach.mesh demo_library) = true
  ∧ ∃ s' rows',
      Blankenbach.set_walls demo_library s = Ok tt s'
      ∧ heap s' !! "temperatureField" = Some (FloatArr rows')
      ∧ length rows' = length rows
      ∧ (∀ i, i ∈ MaxJ_VertexSet (Blankenbach.mesh demo_library) →
              rows' !! i = Some [Blankenbach.tempMin])
      ∧ (∀ i, i ∈ MinJ_VertexSet (Blankenbach.mesh demo_library) →
              i ∉ MaxJ_VertexSet (Blankenbach.mesh demo_library) →
              rows' !! i = Some [Blankenbach.tempMax])
      ∧ (∀ i, i ∉ MinJ_VertexSet (Blankenbach.mesh demo_library) →
              i ∉ MaxJ_VertexSet (Blankenbach.mesh demo_library) →
              rows' !! i = rows !! i).
Proof.
  intros rows s.
  assert (heap s !! "temperatureField" = Some (FloatArr rows)) as Hh
      by apply lookup_insert_eq.
  assert (length rows = length (data (Blankenbach.mesh demo_library))) as Hlen
      by apply length_map.
  assert (Forall (λ r, length r = 1) rows) as Hw
      by (apply Forall_forall; intros r [c [-> _]]%list_elem_of_fmap; reflexivity).
  assert (mesh_ok (Blankenbach.mesh demo_library) = true) as Hok
      by (vm_compute; reflexivity).
  split; [exact Hh|]. split; [exact Hlen|]. split; [exact Hw|]. split; [exact Hok|].
  exact (blankenbach_walls_hold_boundary_values demo_library rows s Hh Hlen Hw Hok).
Defined.

(** ** Blankenbach benchmark: the time-stepping loop *)

Section BlankenbachLoop.
Context (L : Library).
Import Blankenbach.

Lemma blankenbach_update_spec (time : float) (step : Z) (s : State L) :
  ∃ dt s',
    update L time step s = Ok ((time + dt)%float, (step + 1)%Z) s'
    ∧ trace s' = trace s ++ [Call "advDiff" "get_max_dt" [] (Some dt);
                             Call "advDiff" "integrate" [dt] None].
Proof.
  unfold update. call_step. call_step.
  eexists _, _. split; [reflexivity|].
  rewrite Htrace0, Htrace. by rewrite <- app_assoc.
Qed.

(** What a pass does once the RMS velocity [vrms] and the integrals [top]
    and [bottom] are known. *)
Lemma blankenbach_pass_run (v : Vars) (s : State L) :
  ∃ vv s1 o,
    trace s1 = trace s ++ [Call "solver" "solve" [] None;
                           Call "intVdotV" "evaluate" [] (Some vv)]
    ∧ loop_body L v s = (if (vv <? 0)%float then Raise Py.ValueError s1 else o)
    ∧ ((vv <? 0)%float = false →
       ∃ top bottom s3,
         trace s3 = trace s1 ++ [Call "nuTop" "evaluate" [] (Some top);
                                 Call "nuBottom" "evaluate" [] (Some bottom)]
         ∧ o = if (bottom =? 0)%float then Raise Py.ZeroDivisionError s3
               else
                 let vrms := PrimFloat.sqrt vv in
                 let nu := (- top / bottom)%float in
                 if (nu =? 0)%float then Raise Py.ZeroDivisionError s3
                 else if (PrimFloat.abs ((nu - nuLast v) / nu) <? epsilon)%float
                 then Ok {| time := time v; step := step v; vrms := vrms; nu := nu;
                            nuLast := nuLast v; velplotmax := Py.max vrms (velplotmax v);
                            timeVal := timeVal v ++ [time v];
                            vrmsVal := vrmsVal v ++ [vrms];
                            broken := true |} s3
                 else
                   (let! r := update L (time v) (step v) in
                    ret {| time := r.1; step := r.2; vrms := vrms; nu := nu;
                           nuLast := nu; velplotmax := Py.max vrms (velplotmax v);
                           timeVal := timeVal v ++ [time v];
                           vrmsVal := vrmsVal v ++ [vrms];
                           broken := false |}) s3).
Proof.
  unfold loop_body. call_step. unfold bind at 1. unfold rms_velocity.
  call_step. unfold Py.sqrt_domain_error.
  destruct (x <? 0)%float eqn:Hneg.
  - exists x, s1, (Raise Py.ValueError s1).
    split; [by rewrite Htrace0, Htrace, <- app_assoc|].
    split; [by rewrite Hneg|]. intros H. rewrite Hneg in H. discriminate.
  - unfold ret at 1. unfold bind at 1. unfold nusselt. call_step. call_step.
    eexists x, s1, _.
    split; [by rewrite Htrace0, Htrace, <- app_assoc|].
    split; [rewrite Hneg; reflexivity|]. intros _.
    exists x0, x1, s3.
    split; [by rewrite Htrace2, Htrace1, <- app_assoc|].
    destruct (x1 =? 0)%float; [reflexivity|]. unfold ret at 1. cbv zeta.
    destruct (- x0 / x1 =? 0)%float; [reflexivity|].
    destruct (PrimFloat.abs _ <? epsilon)%float; reflexivity.
Qed.

Lemma blankenbach_pass_cases (v : Vars) (s : State L) :
  (∃ vv s' evs,
      loop_body L v s = Raise Py.ValueError s'
      ∧ trace s' = trace s ++ evs
      ∧ returned "intVdotV" "evaluate" evs = [vv]
      ∧ (vv <? 0)%float = true
      ∧ calls_on "advDiff" evs = [])
  ∨ (∃ vv top bottom s' evs,
      loop_body L v s = Raise Py.ZeroDivisionError s'
      ∧ trace s' = trace s ++ evs
      ∧ returned "intVdotV" "evaluate" evs = [vv]
      ∧ (vv <? 0)%float = false
      ∧ returned "nuTop" "evaluate" evs = [top]
      ∧ returned "nuBottom" "evaluate" evs = [bottom]
      ∧ ((bottom =? 0)%float = true ∨ (- top / bottom =? 0)%float = true)
      ∧ calls_on "advDiff" evs = [])
  ∨ (∃ vv top bottom v' s' evs,
      loop_body L v s = Ok v' s'
      ∧ trace s' = trace s ++ evs
      ∧ calls_on "solver" evs = [("solve", [])]%string
      ∧ returned "intVdotV" "evaluate" evs = [vv]
      ∧ (vv <? 0)%float = false
      ∧ returned "nuTop" "evaluate" evs = [top]
      ∧ returned "nuBottom" "evaluate" evs = [bottom]
      ∧ (bottom =? 0)%float = false
      ∧ nu v' = (- top / bottom)%float
      ∧ (nu v' =? 0)%float = false
      ∧ vrms v' = PrimFloat.sqrt vv
      ∧ timeVal v' = timeVal v ++ [time v]
      ∧ vrmsVal v' = vrmsVal v ++ [vrms v']
      ∧ velplotmax v' = Py.max (vrms v') (velplotmax v)
      ∧ ((broken v' = true
          ∧ (PrimFloat.abs ((nu v' - nuLast v) / nu v') <? epsilon)%float = true
          ∧ time v' = time v ∧ step v' = step v ∧ nuLast v' = nuLast v
          ∧ calls_on "advDiff" evs = [])
         ∨ (broken v' = false
            ∧ (PrimFloat.abs ((nu v' - nuLast v) / nu v') <? epsilon)%float = false
            ∧ nuLast v' = nu v' ∧ step v' = (step v + 1)%Z
            ∧ ∃ dt, time v' = (time v + dt)%float
                    ∧ calls_on "advDiff" evs
                      = [("get_max_dt", []); ("integrate", [dt])]%string))).
Proof.
  destruct (blankenbach_pass_run v s) as (vv & s1 & o & Htr1 & Hrun & Ho).
  rewrite Hrun. clear Hrun.
  destruct (vv <? 0)%float eqn:Hneg.
  - left. eexists vv, s1, _. split; [reflexivity|].
    split; [exact Htr1|]. split; [reflexivity|]. split; [exact Hneg|]. reflexivity.
  - right. destruct (Ho eq_refl) as (top & bottom & s3 & Htr3 & ->). clear Ho.
    destruct (bottom =? 0)%float eqn:Hbot.
    { left. eexists vv, top, bottom, s3, _. split; [reflexivity|].
      split; [by rewrite Htr3, Htr1, <- app_assoc|].
      do 4 (split; [first [reflexivity|assumption]|]). split; [by left|reflexivity]. }
    cbv zeta. destruct (- top / bottom =? 0)%float eqn:Hnu.
    { left. eexists vv, top, bottom, s3, _. split; [reflexivity|].
      split; [by rewrite Htr3, Htr1, <- app_assoc|].
      do 4 (split; [first [reflexivity|assumption]|]). split; [by right|reflexivity]. }
    right. destruct (PrimFloat.abs _ <? epsilon)%float eqn:Hclose.
    + eexists vv, top, bottom, _, s3, _. split; [reflexivity|].
      cbn [vrms timeVal vrmsVal velplotmax broken time step nuLast nu].
      split; [by rewrite Htr3, Htr1, <- app_assoc|].
      do 12 (split; [first [reflexivity|assumption]|]).
      left. repeat split; first [reflexivity|assumption].
    + destruct (blankenbach_update_spec (time v) (step v) s3) as (dt & s4 & Hup & Htr4).
      unfold bind at 1. rewrite Hup. unfold ret.
      eexists vv, top, bottom, _, s4, _. split; [reflexivity|].
      cbn [vrms timeVal vrmsVal velplotmax broken time step nuLast nu fst snd].
      split; [by rewrite Htr4, Htr3, Htr1, <- !app_assoc|].
      do 12 (split; [first [reflexivity|assumption]|]).
      right. do 4 (split; [first [reflexivity|assumption]|]).
      exists dt. split; reflexivity.
Qed.

(** X11.  One pass of the Blankenbach loop.  It solves, then asks for
    the integral of the squared velocity: if that is negative,
    [math.sqrt] raises [ValueError].  Otherwise it asks for the two
    integrals of the Nusselt number: if the bottom one is zero, or the
    Nusselt number [- top / bottom] itself is, a division raises
    [ZeroDivisionError].  In both cases nothing is advected.  Otherwise
    the pass records the time and the RMS velocity, and either breaks,
    the Nusselt number having changed by less than [epsilon] relative to
    itself, leaving [time], [step] and [nuLast] as they were and the
    temperature not advected; or stores the Nusselt number in [nuLast]
    and calls [update()], which advects once by the [dt] it was given,
    adds it to [time] and 1 to [step]. *)
Theorem blankenbach_pass (v : Vars) (s : State L) :
  (∃ vv s' evs,
      loop_body L v s = Raise Py.ValueError s'
      ∧ trace s' = trace s ++ evs
      ∧ returned "intVdotV" "evaluate" evs = [vv]
      ∧ (vv <? 0)%float = true
      ∧ calls_on "advDiff" evs = [])
  ∨ (∃ vv top bottom s' evs,
      loop_body L v s = Raise Py.ZeroDivisionError s'
      ∧ trace s' = trace s ++ evs
      ∧ returned "intVdotV" "evaluate" evs = [vv]
      ∧ (vv <? 0)%float = false
      ∧ returned "nuTop" "evaluate" evs = [top]
      ∧ returned "nuBottom" "evaluate" evs = [bottom]
      ∧ ((bottom =? 0)%float = true ∨ (- top / bottom =? 0)%float = true)
      ∧ calls_on "advDiff" evs = [])
  ∨ (∃ vv top bottom v' s' evs,
      loop_body L v s = Ok v' s'
      ∧ trace s' = trace s ++ evs
      ∧ calls_on "solver" evs = [("solve", [])]%string
      ∧ returned "intVdotV" "evaluate" evs = [vv]
      ∧ (vv <? 0)%float = false
      ∧ returned "nuTop" "evaluate" evs = [top]
      ∧ returned "nuBottom" "evaluate" evs = [bottom]
      ∧ (bottom =? 0)%float = false
      ∧ nu v' = (- top / bottom)%float
      ∧ (nu v' =? 0)%float = false
      ∧ vrms v' = PrimFloat.sqrt vv
      ∧ timeVal v' = timeVal v ++ [time v]
      ∧ vrmsVal v' = vrmsVal v ++ [vrms v']
      ∧ velplotmax v' = Py.max (vrms v') (velplotmax v)
      ∧ ((broken v' = true
          ∧ (PrimFloat.abs ((nu v' - nuLast v) / nu v') <? epsilon)%float = true
          ∧ time v' = time v ∧ step v' = step v ∧ nuLast v' = nuLast v
          ∧ calls_on "advDiff" evs = [])
         ∨ (broken v' = false
            ∧ (PrimFloat.abs ((nu v' - nuLast v) / nu v') <? epsilon)%float = false
            ∧ nuLast v' = nu v' ∧ step v' = (step v + 1)%Z
            ∧ ∃ dt, time v' = (time v + dt)%float
                    ∧ calls_on "advDiff" evs
                      = [("get_max_dt", []); ("integrate", [dt])]%string))).
Proof. apply blankenbach_pass_cases. Qed.

Lemma blankenbach_loop_outcome (nu0 vrms0 : float) (s : State L) (extra : nat) :
  match time_stepping L (2 + extra) nu0 vrms0 s with
  | Ok v s' =>
      ∃ evs, trace s' = trace s ++ evs
             ∧ length (calls_on "solver" evs) = length (timeVal v)
             ∧ length (vrmsVal v) = length (timeVal v)
             ∧ head (timeVal v) = Some 0%float
             ∧ Z.of_nat (length (calls_on "advDiff" evs)) = (2 * step v)%Z
             ∧ ((broken v = true ∧ Z.of_nat (length (timeVal v)) = (step v + 1)%Z
                 ∧ (step v = 0 ∨ step v = 1)%Z)
                ∨ (broken v = false ∧ step v = 2%Z ∧ length (timeVal v) = 2))
  | Raise e _ => e = Py.ValueError ∨ e = Py.ZeroDivisionError
  | Timeout _ => False
  end.
Proof.
  unfold time_stepping. change (2 + extra) with (S (S extra)).
  set (v0 := {| time := 0; step := 0; vrms := vrms0; nu := nu0; nuLast := (-1)%float;
                velplotmax := 0; timeVal := []; vrmsVal := []; broken := false |}).
  cbn [while]. change (negb (broken v0) && (step v0 <=? step_end)%Z) with true. cbv iota.
  unfold bind at 1.
  destruct (blankenbach_pass_cases v0 s)
    as [(vv & s1 & evs1 & Hrun1 & _)
       |[(vv & top1 & bot1 & s1 & evs1 & Hrun1 & _)
        |(vv & top1 & bot1 & v1 & s1 & evs1 & Hrun1 & Htr1 & Hsolve1 & _ & _ & _ & _ & _
          & _ & _ & _ & Ht1 & Hv1 & _ & Hcase1)]];
    rewrite Hrun1; [by left|by right|].
  destruct Hcase1 as [(Hb1 & _ & _ & Hs1 & _ & Hadv1)|(Hb1 & _ & _ & Hs1 & dt1 & _ & Hadv1)].
  - assert (negb (broken v1) && (step v1 <=? step_end)%Z = false) as Hstop
        by (by rewrite Hb1).
    destruct extra; cbn [while]; rewrite Hstop; exists evs1;
      rewrite Hsolve1, Hadv1, Hv1, Ht1, Hs1, Hb1; cbn; repeat split; auto.
  - assert (negb (broken v1) && (step v1 <=? step_end)%Z = true) as Hgo
        by (by rewrite Hb1, Hs1).
    rewrite Hgo. unfold bind at 1.
    destruct (blankenbach_pass_cases v1 s1)
      as [(vv2 & s2 & evs2 & Hrun2 & _)
         |[(vv2 & top2 & bot2 & s2 & evs2 & Hrun2 & _)
          |(vv2 & top2 & bot2 & v2 & s2 & evs2 & Hrun2 & Htr2 & Hsolve2 & _ & _ & _ & _ & _
            & _ & _ & _ & Ht2 & Hv2 & _ & Hcase2)]];
      rewrite Hrun2; [by left|by right|].
    assert (negb (broken v2) && (step v2 <=? step_end)%Z = false) as Hstop.
    { destruct Hcase2 as [(Hb2 & _)|(Hb2 & _ & _ & Hs2 & _)]; rewrite Hb2; [done|].
      rewrite Hs2, Hs1. reflexivity. }
    assert (while (λ v, negb (broken v) && (step v <=? step_end)%Z) (loop_body L) extra v2 s2
            = Ok v2 s2) as ->
        by (destruct extra; cbn [while]; by rewrite Hstop).
    exists (evs1 ++ evs2). rewrite Htr2, Htr1, <- app_assoc.
    split; [reflexivity|]. rewrite !calls_on_app, !length_app, Hsolve1, Hsolve2, Hadv1.
    rewrite Hv2, Ht2, Hv1, Ht1. cbn [length app head timeVal v0].
    split; [reflexivity|]. split; [reflexivity|]. split; [reflexivity|].
    destruct Hcase2 as [(Hb2 & _ & _ & Hs2 & _ & Hadv2)|(Hb2 & _ & _ & Hs2 & dt2 & _ & Hadv2)];
      rewrite Hadv2, Hs2, Hs1, Hb2; cbn; (split; [reflexivity|]);
      [left|right]; repeat split; auto.
Qed.

(** X12.  The time-stepping loop of the Blankenbach notebook, started on
    [step_end = 1], ends within two passes: by [break], with [step] still
    0 or 1, or with [step = 2]; unless a pass raises, [ValueError] where
    [math.sqrt] rejects a negative integral or [ZeroDivisionError] where
    a division meets a zero.  Every pass solved once and recorded one
    time and one RMS velocity; every pass that did not break advanced
    the temperature once. *)
Theorem blankenbach_loop_ends_within_two_passes
    (nu0 vrms0 : float) (s : State L) (extra : nat) :
  (∃ e s', time_stepping L (2 + extra) nu0 vrms0 s = Raise e s'
           ∧ (e = Py.ValueError ∨ e = Py.ZeroDivisionError))
  ∨ (∃ v s' evs,
       time_stepping L (2 + extra) nu0 vrms0 s = Ok v s'
       ∧ trace s' = trace s ++ evs
       ∧ length (calls_on "solver" evs) = length (timeVal v)
       ∧ length (vrmsVal v) = length (timeVal v)
       ∧ head (timeVal v) = Some 0%float
       ∧ Z.of_nat (length (calls_on "advDiff" evs)) = (2 * step v)%Z
       ∧ ((broken v = true ∧ Z.of_nat (length (timeVal v)) = (step v + 1)%Z
           ∧ (step v = 0 ∨ step v = 1)%Z)
          ∨ (broken v = false ∧ step v = 2%Z ∧ length (timeVal v) = 2))).
Proof.
  pose proof (blankenbach_loop_outcome nu0 vrms0 s extra) as H.
  destruct (time_stepping L (2 + extra) nu0 vrms0 s) as [v s'|e s'|s'].
  - right. destruct H as (evs & H). by exists v, s', evs.
  - left. by exists e, s'.
  - destruct H.
Qed.

End BlankenbachLoop.

(** ** Blankenbach benchmark: the checks *)

Section BlankenbachChecks.
Context (L : Library).
Import Blankenbach.

(** X13.  The check after the loop passes exactly when both the Nusselt number
    and the RMS velocity are within 1% of the benchmark; a failure of
    either is reported with the Nusselt number's message.  The cell
    calls nothing and changes nothing. *)
Theorem blankenbach_test_cell_outcome (v : Vars) (s : State L) :
  (test_cell L v s = Ok tt s
   ↔ Np.isclose_tol 1e-2 1e-08 (nu v) 4.884 = true
     ∧ Np.isclose_tol 1e-2 1e-08 (vrms v) 42.865 = true)
  ∧ (test_cell L v s
     = Raise (Py.RuntimeError "Model did not produce the expected Nusselt number.") s
     ↔ Np.isclose_tol 1e-2 1e-08 (nu v) 4.884 = false
       ∨ Np.isclose_tol 1e-2 1e-08 (vrms v) 42.865 = false).
Proof.
  unfold test_cell.
  destruct (Np.isclose_tol _ _ (nu v) _); destruct (Np.isclose_tol _ _ (vrms v) _);
    cbn [negb]; unfold ret, raise;
    (split; split; intros H; try reflexivity; try discriminate; auto;
     try (destruct H; discriminate)).
Qed.

(** X14.  On rank 0 the Blankenbach notebook evaluates the scaled vertical
    temperature gradient at the four corners of the box, top left, top
    right, bottom right, bottom left, and checks the first two against
    the benchmark to 1%: [q1] first, then [q2].  The two bottom values
    are computed and not checked. *)
Theorem blankenbach_gradients_on_rank_0 (s : State L) :
  ∃ q1 q2 q3 q4 s',
    trace s' = trace s ++
      [ Construct "vertTGradField" "Function" ["temperatureField0"];
        Call "vertTGradField" "evaluate" [0; boxHeight]%float (Some q1);
        Call "vertTGradField" "evaluate" [boxLength; boxHeight] (Some q2);
        Call "vertTGradField" "evaluate" [boxLength; 0]%float (Some q3);
        Call "vertTGradField" "evaluate" [0; 0]%float (Some q4) ]
    ∧ gradients L 0 s
      = if negb (Np.isclose_tol 1e-2 1e-08 q1 8.020)
        then Raise (Py.RuntimeError "Model did not produce the expected q1.") s'
        else if negb (Np.isclose_tol 1e-2 1e-08 q2 0.589)
        then Raise (Py.RuntimeError "Model did not produce the expected q2.") s'
        else Ok tt s'.
Proof.
  unfold gradients. cbn [Nat.eqb]. unfold bind at 1. unfold bind at 1.
  unfold construct at 1, emit at 1. cbv beta iota.
  do 4 call_step. unfold ret at 1.
  exists x, x0, x1, x2, s3. split.
  - rewrite Htrace2, Htrace1, Htrace0, Htrace. cbn [trace]. by rewrite <- !app_assoc.
  - destruct (Np.isclose_tol _ _ x _); [|reflexivity].
    by destruct (Np.isclose_tol _ _ x0 _).
Qed.

(** On a rank other than 0 the corner gradients are never computed, and
    the check that reads them fails: *)
Lemma gradients_off_rank_0 (rank : nat) (s : State L) :
  rank ≠ 0 → gradients L rank s = Raise (Py.NameError "q1") s.
Proof.
  intros Hr. unfold gradients. destruct rank as [|n]; [done|]. reflexivity.
Qed.

(** X15.  The benchmark cells of the Blankenbach notebook bind [q1], [q2],
    [e1] and [e2] on rank 0 only, and check them on every rank.  On any
    other rank the check of [q1] raises [NameError] before anything is
    asked of the library, so the notebook cannot run to its end there. *)
Theorem blankenbach_checks_need_rank_0
    (cos sin : float → float) (rank : nat)
    (topography : list (list float) → float * float) (fuel : nat) (s : State L) :
  rank ≠ 0 →
  benchmark L rank topography s = Raise (Py.NameError "q1") s
  ∧ ¬ ∃ s', notebook L cos sin rank topography fuel s = Ok tt s'.
Proof.
  intros Hr.
  assert (∀ s0, benchmark L rank topography s0 = Raise (Py.NameError "q1") s0) as Hb.
  { intros s0. unfold benchmark. unfold bind at 1.
    by rewrite gradients_off_rank_0. }
  split; [apply Hb|]. intros [s' Hrun]. unfold notebook in Hrun.
  apply bind_ok_inv in Hrun as (r & s1 & _ & Hrun).
  apply bind_ok_inv in Hrun as (v & s2 & _ & Hrun).
  apply bind_ok_inv in Hrun as ([] & s3 & _ & Hrun).
  apply bind_ok_inv in Hrun as ([] & s4 & _ & Hrun).
  by rewrite Hb in Hrun.
Qed.

End BlankenbachChecks.

(** The benchmark cells on rank 1. *)
Lemma blankenbach_checks_need_rank_0_witness :
  1 ≠ 0
  ∧ Blankenbach.benchmark demo_library 1 (λ _, (0, 0)%float) (demo_state (λ _, 0.5%float))
    = Raise (Py.NameError "q1") (demo_state (λ _, 0.5%float))
  ∧ ¬ ∃ s', Blankenbach.notebook demo_library (λ x, x) (λ x, x) 1 (λ _, (0, 0)%float) 5
                                (demo_state (λ _, 0.5%float)) = Ok tt s'.
Proof.
  split; [lia|].
  apply (blankenbach_checks_need_rank_0 demo_library (λ x, x) (λ x, x) 1
           (λ _, (0, 0)%float) 5 (demo_state (λ _, 0.5%float))).
  lia.
Defined.

(** ** The model at work *)

(** Python decimal literals, as [float_dec] rebuilds them. *)
Example float_dec_literals :
  float_dec 6 (-1) = 0.6%float ∧ float_dec 2 (-1) = 0.2%float
  ∧ float_dec 1 0 = 1%float ∧ float_dec (-1) 0 = (-1)%float.
Proof. repeat split; reflexivity. Qed.

(** The clamp of the thermal convection notebook keeps a value inside the
    interval, cuts one outside, and sends NaN to [tempMax]. *)
Example clamp_values :
  Convection.clamp 0.25 = 0.25%float ∧ Convection.clamp 1.5 = 1%float
  ∧ Convection.clamp (-0.3) = 0%float ∧ Convection.clamp nan = 1%float.
Proof. repeat split; reflexivity. Qed.

Example isclose_values :
  Np.isclose 87.0754 8.70754e+01 = true
  ∧ Np.isclose 87.0760 8.70754e+01 = true
  ∧ Np.isclose 87.08 8.70754e+01 = false
  ∧ Np.isclose nan nan = false
  ∧ Np.isclose infinity infinity = true.
Proof. repeat split; reflexivity. Qed.

(** Binary64 addition absorbs a small step. *)
Example small_step_is_absorbed : (1.0 + 1e-20 = 1.0)%float.
Proof. reflexivity. Qed.

(** The 16 x 8 grid of the steady-state heat notebook: 153 nodes, the
    bottom wall first, the top wall last. *)
Example grid_16_by_8 :
  length (data (SteadyStateHeat.the_mesh demo_library)) = 153
  ∧ MinJ_VertexSet (SteadyStateHeat.the_mesh demo_library) = seq 0 17
  ∧ MaxJ_VertexSet (SteadyStateHeat.the_mesh demo_library) = seq 136 17
  ∧ data (SteadyStateHeat.the_mesh demo_library) !! 152 = Some (2.0, 1.0)%float.
Proof. repeat split; vm_compute; reflexivity. Qed.

(** A write after a solve is what [no_write_after_update] excludes. *)
Example late_write_is_excluded :
  ¬ no_write_after_update [Call "solver" "solve" [] None; Write "temperatureField"].
Proof.
  intros H.
  specialize (H [] (Call "solver" "solve" [] None) [Write "temperatureField"] eq_refl).
  cbn in H. specialize (H (or_introl eq_refl)).
  apply Forall_cons in H as [H _]. by apply H.
Qed.

(** The steady-state heat notebook, run on the reference library: it
    writes the temperature three times, then solves once, and its check
    fails, the library's integral being 0.5 for an area of 2. *)
Example steady_state_heat_run :
  ∃ s, SteadyStateHeat.notebook demo_library (demo_state (λ _, 0.5%float))
       = Raise (Py.RuntimeError "Incorrect average temperature produced by model. ") s
       ∧ trace s
         = [ Construct "mesh" "FeMesh_Cartesian" [];
             Construct "temperatureField" "MeshVariable" ["mesh"];
             Write "temperatureField";
             Construct "tempBC" "DirichletCondition" ["temperatureField"];
             Write "temperatureField";
             Write "temperatureField";
             Construct "heatequation" "SteadyStateHeat" ["temperatureField"; "tempBC"];
             Construct "heatsolver" "Solver" ["heatequation"];
             Call "heatsolver" "solve" [] None;
             Construct "tottemp" "Integral" ["temperatureField"; "mesh"];
             Call "tottemp" "evaluate" [] (Some 0.5%float) ].
Proof. eexists. split; vm_compute; reflexivity. Qed.
